(** * The rate limiter of the Twitter bot: a shallow embedding

    This development embeds [twitter_bot/rate_limiter.py] (class
    [RateLimiter]) together with the helpers of [twitter_bot/utils.py] it
    calls, and states the properties of the pacing engine against it.

    Conventions of the embedding.
    - A Python value is a [pyval]; an action of the history is the Python
      dict the code builds, so a missing key or a value of the wrong type
      raises exactly where the code subscripts it.
    - A naive [datetime] is the number of microseconds since
      1970-01-01T00:00:00; [timedelta] arithmetic is integer arithmetic.
      An aware [datetime], which only the parser of a text with a UTC
      offset makes, carries that offset besides its wall-clock time.
    - A Python [float] is an exact rational of [Q].
    - [datetime.now()] is read once per method call and passed as [now].
    - [random.random()] reads the next sample of an explicit source.
    - The file system maps a path to the state of that file. *)

From Stdlib Require Import ZArith QArith Qminmax List String Ascii Bool Lia Lqa.
From Stdlib Require Import DecimalString DecimalZ.
Import ListNotations.

Open Scope string_scope.
Open Scope list_scope.
Open Scope Z_scope.

(* ================================================================== *)
(** ** Python values *)

#[local] Set Warnings "-register-all".

Inductive pyval : Type :=
| PyNone
| PyBool (b : bool)
| PyInt (z : Z)
| PyStr (s : string)
| PyDatetime (t : Z)
| PyAware (t : Z) (utcoffset : Z)
| PyList (l : list pyval)
| PyDict (d : list (string * pyval)).

Inductive exn : Type :=
| KeyError
| TypeError
| AttributeError
| IndexError.

Inductive result (A : Type) : Type :=
| Ok (a : A)
| Raise (e : exn).

Arguments Ok {A} a.
Arguments Raise {A} e.

Definition bind {A B : Type} (m : result A) (k : A -> result B) : result B :=
  match m with
  | Ok a => k a
  | Raise e => Raise e
  end.

Declare Scope py_scope.
Delimit Scope py_scope with py.
Notation "x <- m ;; k" := (bind m (fun x => k))
  (at level 100, m at next level, right associativity) : py_scope.
Open Scope py_scope.

(** [bool(v)]: the truth value Python gives a value in an [if]. *)
Definition truthy (v : pyval) : bool :=
  match v with
  | PyNone => false
  | PyBool b => b
  | PyInt z => negb (z =? 0)
  | PyStr s => negb (String.eqb s "")
  | PyDatetime _ => true
  | PyAware _ _ => true
  | PyList l => match l with [] => false | _ => true end
  | PyDict d => match d with [] => false | _ => true end
  end.

(** *** Dicts: association lists in insertion order, first binding wins *)

Fixpoint dict_get (d : list (string * pyval)) (k : string) : option pyval :=
  match d with
  | [] => None
  | (k', v) :: d' => if String.eqb k' k then Some v else dict_get d' k
  end.

(** [d[k] = v]: overwrite in place, or add the key at the end. *)
Fixpoint dict_set (d : list (string * pyval)) (k : string) (v : pyval)
  : list (string * pyval) :=
  match d with
  | [] => [(k, v)]
  | (k', v') :: d' =>
      if String.eqb k' k then (k, v) :: d' else (k', v') :: dict_set d' k v
  end.

(** [obj[k]] with a string key. *)
Definition py_getitem (obj : pyval) (k : string) : result pyval :=
  match obj with
  | PyDict d => match dict_get d k with
                | Some v => Ok v
                | None => Raise KeyError
                end
  | _ => Raise TypeError
  end.

(** [obj.get(k, default)]: only dicts have the method. *)
Definition py_get (obj : pyval) (k : string) (default : pyval) : result pyval :=
  match obj with
  | PyDict d => match dict_get d k with
                | Some v => Ok v
                | None => Ok default
                end
  | _ => Raise AttributeError
  end.

(** [obj.copy()]: dicts and lists have it; the copy is shallow, and values
    are immutable here, so the copy is the value. *)
Definition py_copy (obj : pyval) : result pyval :=
  match obj with
  | PyDict d => Ok (PyDict d)
  | PyList l => Ok (PyList l)
  | _ => Raise AttributeError
  end.

(** [obj[k] = v]. *)
Definition py_setitem (obj : pyval) (k : string) (v : pyval) : result pyval :=
  match obj with
  | PyDict d => Ok (PyDict (dict_set d k v))
  | _ => Raise TypeError
  end.

Fixpoint chars_of (s : string) : list pyval :=
  match s with
  | EmptyString => []
  | String c s' => PyStr (String c EmptyString) :: chars_of s'
  end.

(** [for x in obj]: the sequence a [for] loop walks. *)
Definition py_iter (obj : pyval) : result (list pyval) :=
  match obj with
  | PyList l => Ok l
  | PyDict d => Ok (map (fun kv => PyStr (fst kv)) d)
  | PyStr s => Ok (chars_of s)
  | _ => Raise TypeError
  end.

(** [v == s] for a string [s]. *)
Definition py_eq_str (v : pyval) (s : string) : bool :=
  match v with
  | PyStr s' => String.eqb s' s
  | _ => false
  end.

(** [v > cutoff] for a naive datetime [cutoff], as [datetime.now()] and
    what is computed from it are: only datetimes are ordered with
    datetimes, and an aware datetime is not ordered with a naive one
    (can't compare offset-naive and offset-aware datetimes). *)
Definition py_gt_datetime (v : pyval) (cutoff : Z) : result bool :=
  match v with
  | PyDatetime t => Ok (cutoff <? t)
  | PyAware _ _ => Raise TypeError
  | _ => Raise TypeError
  end.

(** What [json.dump] accepts: [None], booleans, integers, strings, lists
    and dicts with string keys; a datetime raises [TypeError]. *)
Fixpoint json_serialisable (v : pyval) : bool :=
  match v with
  | PyNone | PyBool _ | PyInt _ | PyStr _ => true
  | PyDatetime _ => false
  | PyAware _ _ => false
  | PyList l => forallb json_serialisable l
  | PyDict d =>
      (fix go (d : list (string * pyval)) : bool :=
         match d with
         | [] => true
         | (_, v) :: d' => json_serialisable v && go d'
         end) d
  end.

(* ================================================================== *)
(** ** Time *)

Definition usec_per_second : Z := 1000000.
Definition usec_per_hour : Z := 3600 * usec_per_second.
Definition usec_per_day : Z := 24 * usec_per_hour.

(** [timedelta(hours=h)], [timedelta(days=d)]. *)
Definition timedelta_hours (h : Z) : Z := h * usec_per_hour.
Definition timedelta_days (d : Z) : Z := d * usec_per_day.
Definition minutes (m : Z) : Z := m * 60 * usec_per_second.

(** [t.hour] and [t.weekday()] (Monday is 0; 1970-01-01 was a Thursday). *)
Definition hour_of (t : Z) : Z := (t / usec_per_hour) mod 24.
Definition weekday (t : Z) : Z := (t / usec_per_day + 3) mod 7.

(** [utils.is_weekend]. *)
Definition is_weekend (now : Z) : bool := 5 <=? weekday now.

(* ================================================================== *)
(** ** The random source *)

Record Random : Type := mkRandom {
  sample : nat -> Q;
  cursor : nat
}.

(** [random.random()]. *)
Definition random_random (g : Random) : Q * Random :=
  (sample g (cursor g), mkRandom (sample g) (S (cursor g))).

(** [random.uniform(a, b)] is [a + (b - a) * random()]. *)
Definition random_uniform (a b : Q) (g : Random) : Q * Random :=
  let (r, g') := random_random g in
  ((a + (b - a) * r)%Q, g').

(** Every sample lies in [[0, 1)], as [random.random()] promises. *)
Definition unit_samples (g : Random) : Prop :=
  forall n, (0 <= sample g n /\ sample g n < 1)%Q.

(** [max(a, b)] and [min(a, b)] on numbers: the first argument wins ties. *)
Definition py_max (a b : Q) : Q := if Qlt_le_dec a b then b else a.
Definition py_min (a b : Q) : Q := if Qlt_le_dec b a then b else a.

(* ================================================================== *)
(** ** The file system *)

Inductive file : Type :=
| Missing
| Undecodable
| Json (v : pyval).

Record World : Type := mkWorld {
  fs : string -> file;
  writes : list string
}.

Definition fs_put (f : string -> file) (path : string) (c : file)
  : string -> file :=
  fun p => if String.eqb p path then c else f p.

(** [utils.load_json_file]: the default stands in for a file that is not
    there or does not decode. *)
Definition load_json_file (w : World) (file_path : string) (default : pyval)
  : pyval :=
  match fs w file_path with
  | Json data => data
  | Missing => default
  | Undecodable => default
  end.

(** [utils.save_json_file]: opening the file for writing truncates it; when
    [json.dump] raises on a value it cannot encode, what is left behind does
    not decode, and the function answers [False]. *)
Definition save_json_file (w : World) (file_path : string) (data : pyval)
  : bool * World :=
  if json_serialisable data
  then (true, mkWorld (fs_put (fs w) file_path (Json data))
                      (file_path :: writes w))
  else (false, mkWorld (fs_put (fs w) file_path Undecodable)
                       (file_path :: writes w)).

(* ================================================================== *)
(** ** The limiter's state *)

(** The attributes of a [RateLimiter] that its methods read, with the
    configuration already looked up.  [actions_history] is the
    [deque(maxlen=10000)], oldest first. *)
Record RateLimiter : Type := mkRateLimiter {
  max_actions_per_hour : Z;
  max_actions_per_day : Z;
  max_likes_per_hour : Z;
  max_replies_per_hour : Z;
  max_retweets_per_hour : Z;
  actions_log_file : string;
  actions_history : list pyval;
  delay_between_actions : Q * Q;
  delay_between_searches : Q * Q;
  delay_after_error : Q * Q;
  weekend_mode : bool;
  weekend_reduction : Q;
  consecutive_errors : nat;
  last_error_time : option Z;
  burst_mode : bool;
  quiet_periods : list (Z * Z);
  daily_pattern : list Q
}.

Definition set_history (s : RateLimiter) (h : list pyval) : RateLimiter :=
  mkRateLimiter (max_actions_per_hour s) (max_actions_per_day s)
    (max_likes_per_hour s) (max_replies_per_hour s) (max_retweets_per_hour s)
    (actions_log_file s) h (delay_between_actions s)
    (delay_between_searches s) (delay_after_error s) (weekend_mode s)
    (weekend_reduction s) (consecutive_errors s) (last_error_time s)
    (burst_mode s) (quiet_periods s) (daily_pattern s).

Definition set_errors (s : RateLimiter) (n : nat) (t : option Z)
  : RateLimiter :=
  mkRateLimiter (max_actions_per_hour s) (max_actions_per_day s)
    (max_likes_per_hour s) (max_replies_per_hour s) (max_retweets_per_hour s)
    (actions_log_file s) (actions_history s) (delay_between_actions s)
    (delay_between_searches s) (delay_after_error s) (weekend_mode s)
    (weekend_reduction s) n t
    (burst_mode s) (quiet_periods s) (daily_pattern s).

(** *** The bounded deque *)

Definition maxlen : Z := 10000.

Definition len {A : Type} (l : list A) : Z := Z.of_nat (List.length l).

(** [deque(l, maxlen=10000)] keeps the last [maxlen] items. *)
Definition deque {A : Type} (l : list A) : list A :=
  skipn (Z.to_nat (len l - maxlen)) l.

(** [d.append(x)]: a full deque drops its oldest item. *)
Definition deque_append {A : Type} (d : list A) (x : A) : list A :=
  deque (d ++ [x]).

(* ================================================================== *)
(** ** Counting actions in a window *)

(** One turn of the loop of [_get_actions_in_timeframe]. *)
Definition count_step (cutoff : Z) (action_type : option string)
    (count : Z) (action : pyval) : result Z :=
  ts <- py_getitem action "timestamp" ;;
  recent <- py_gt_datetime ts cutoff ;;
  if recent then
    match action_type with
    | None => Ok (count + 1)
    | Some ty =>
        aty <- py_getitem action "type" ;;
        if py_eq_str aty ty then Ok (count + 1) else Ok count
    end
  else Ok count.

Fixpoint count_loop (cutoff : Z) (action_type : option string)
    (count : Z) (history : list pyval) : result Z :=
  match history with
  | [] => Ok count
  | action :: rest =>
      count' <- count_step cutoff action_type count action ;;
      count_loop cutoff action_type count' rest
  end.

Definition _get_actions_in_timeframe (s : RateLimiter) (now : Z) (hours : Z)
    (action_type : option string) : result Z :=
  let cutoff := now - timedelta_hours hours in
  count_loop cutoff action_type 0 (actions_history s).

(* ================================================================== *)
(** ** The activity pattern *)

(** The table of [_generate_daily_pattern], one hour at a time.  The
    comparisons are the chained comparisons of the source. *)
Definition base_multiplier (hour : Z) : Q :=
  if (6 <=? hour) && (hour <=? 9) then 1.5%Q
  else if (12 <=? hour) && (hour <=? 13) then 0.8%Q
  else if (17 <=? hour) && (hour <=? 22) then 1.8%Q
  else if (23 <=? hour) && (hour <=? 5) then 0.3%Q
  else 1.0%Q.

Fixpoint pattern_loop (hours : list Z) (g : Random) : list Q * Random :=
  match hours with
  | [] => ([], g)
  | hour :: rest =>
      let (r, g1) := random_random g in
      let multiplier := (base_multiplier hour * (0.8 + r * 0.4))%Q in
      let (pattern, g2) := pattern_loop rest g1 in
      (multiplier :: pattern, g2)
  end.

(** [range(24)]. *)
Definition range24 : list Z := map Z.of_nat (seq 0 24).

Definition _generate_daily_pattern (g : Random) : list Q * Random :=
  pattern_loop range24 g.

Definition _get_current_activity_multiplier (s : RateLimiter) (now : Z)
  : result Q :=
  match nth_error (daily_pattern s) (Z.to_nat (hour_of now)) with
  | None => Raise IndexError
  | Some base =>
      let m1 := if is_weekend now && weekend_mode s
                then (base * weekend_reduction s)%Q else base in
      let m2 := if burst_mode s then (m1 * 1.5)%Q else m1 in
      Ok m2
  end.

(* ================================================================== *)
(** ** Pacing *)

Definition Qgtb (a b : Q) : bool := negb (Qle_bool a b).
Definition Qltb (a b : Q) : bool := negb (Qle_bool b a).

(** The load factor of [_calculate_dynamic_delay].  Where 80% or 20% of an
    integer cap is an integer, the floating-point product is that integer
    too, so the comparisons with a count agree with the exact ones. *)
Definition load_factor (recent_actions cap : Z) : Q :=
  if Qgtb (inject_Z recent_actions) (inject_Z cap * 0.8) then 1.5%Q
  else if Qltb (inject_Z recent_actions) (inject_Z cap * 0.2) then 0.7%Q
  else 1.0%Q.

Definition _calculate_dynamic_delay (s : RateLimiter) (now : Z)
  : result (Q * Q) :=
  let (base_min, base_max) := delay_between_actions s in
  activity_multiplier <- _get_current_activity_multiplier s now ;;
  recent_actions <- _get_actions_in_timeframe s now 1 None ;;
  let multiplier := load_factor recent_actions (max_actions_per_hour s) in
  let multiplier := (multiplier * (2.0 - activity_multiplier))%Q in
  let min_delay := (base_min * multiplier)%Q in
  let max_delay := (base_max * multiplier)%Q in
  let min_delay := py_max 10 min_delay in
  let max_delay := py_min 1800 max_delay in
  Ok (min_delay, max_delay).

(** [utils.human_like_delay]: the time slept. *)
Definition human_like_delay (base_delay variance : Q) (g : Random)
  : Q * Random :=
  let (u, g') := random_uniform (- variance) variance g in
  let delay := (base_delay * (1 + u))%Q in
  (py_max 0.1 delay, g').

(** The bounds [wait_after_error] samples between. *)
Definition error_delay_range (s : RateLimiter) : Q * Q :=
  let (min_delay, max_delay) := delay_after_error s in
  let multiplier := (1.0 + inject_Z (Z.of_nat (consecutive_errors s)) * 0.5)%Q in
  ((min_delay * multiplier)%Q, (max_delay * multiplier)%Q).

(** [wait_after_error]: the delay drawn from the range and the time slept. *)
Definition wait_after_error (s : RateLimiter) (g : Random)
  : Q * Q * Random :=
  let (min_delay, max_delay) := error_delay_range s in
  let (delay, g1) := random_uniform min_delay max_delay g in
  let (slept, g2) := human_like_delay delay 0.1 g1 in
  (delay, slept, g2).

(** [wait_before_action]: the time slept; a failure of the computation
    falls back to 60 seconds. *)
Definition wait_before_action (s : RateLimiter) (now : Z) (g : Random)
  : Q * Random :=
  match _calculate_dynamic_delay s now with
  | Ok (min_delay, max_delay) =>
      let (delay, g1) := random_uniform min_delay max_delay g in
      human_like_delay delay 0.2 g1
  | Raise _ => (60%Q, g)
  end.

(* ================================================================== *)
(** ** The quota check *)

Definition cooldown_seconds : Z := 30 * 60.

(** The daily, hourly and per-type limits of [can_perform_action];
    [Ok true] when none of them is reached. *)
Definition quota_checks (s : RateLimiter) (now : Z) (action_type : string)
  : result bool :=
  daily_actions <- _get_actions_in_timeframe s now 24 None ;;
  if max_actions_per_day s <=? daily_actions then Ok false else
  hourly_actions <- _get_actions_in_timeframe s now 1 None ;;
  if max_actions_per_hour s <=? hourly_actions then Ok false else
  if String.eqb action_type "like" then
    hourly_likes <- _get_actions_in_timeframe s now 1 (Some "like") ;;
    if max_likes_per_hour s <=? hourly_likes then Ok false else Ok true
  else if String.eqb action_type "reply" then
    hourly_replies <- _get_actions_in_timeframe s now 1 (Some "reply") ;;
    if max_replies_per_hour s <=? hourly_replies then Ok false else Ok true
  else if String.eqb action_type "retweet" then
    hourly_retweets <- _get_actions_in_timeframe s now 1 (Some "retweet") ;;
    if max_retweets_per_hour s <=? hourly_retweets then Ok false else Ok true
  else Ok true.

(** Whether [current_hour] falls in the period, as either branch of the
    loops over [quiet_periods] tests it. *)
Definition in_period (quiet_start quiet_end current_hour : Z) : bool :=
  if quiet_end <? quiet_start
  then (quiet_start <=? current_hour) || (current_hour <=? quiet_end)
  else (quiet_start <=? current_hour) && (current_hour <=? quiet_end).

(** The loop over [quiet_periods] of [can_perform_action]: inside a period
    a sample below 0.7 skips the action. *)
Fixpoint quiet_loop (periods : list (Z * Z)) (current_hour : Z) (g : Random)
  : bool * Random :=
  match periods with
  | [] => (true, g)
  | (quiet_start, quiet_end) :: rest =>
      if in_period quiet_start quiet_end current_hour then
        let (r, g') := random_random g in
        if Qltb r 0.7 then (false, g') else quiet_loop rest current_hour g'
      else quiet_loop rest current_hour g
  end.

(** [_is_in_quiet_period]. *)
Definition _is_in_quiet_period (s : RateLimiter) (now : Z) : bool :=
  existsb (fun p => in_period (fst p) (snd p) (hour_of now)) (quiet_periods s).

(** [can_perform_action] past the cooldown test; an exception of the
    counting is caught and answers [False]. *)
Definition checks_after_cooldown (s : RateLimiter) (now : Z) (g : Random)
    (action_type : string) : bool * RateLimiter * Random :=
  match quota_checks s now action_type with
  | Raise _ => (false, s, g)
  | Ok false => (false, s, g)
  | Ok true =>
      let (allowed, g') := quiet_loop (quiet_periods s) (hour_of now) g in
      (allowed, s, g')
  end.

Definition can_perform_action (s : RateLimiter) (now : Z) (g : Random)
    (action_type : string) : bool * RateLimiter * Random :=
  if (5 <=? consecutive_errors s)%nat then
    match last_error_time s with
    | Some t =>
        if now - t <? cooldown_seconds * usec_per_second
        then (false, s, g)
        else checks_after_cooldown (set_errors s 0 (last_error_time s))
               now g action_type
    | None =>
        checks_after_cooldown (set_errors s 0 (last_error_time s))
          now g action_type
    end
  else checks_after_cooldown s now g action_type.

Definition allowed (r : bool * RateLimiter * Random) : bool := fst (fst r).
Definition limiter_after (r : bool * RateLimiter * Random) : RateLimiter :=
  snd (fst r).

(* ================================================================== *)
(** ** Persistence *)

(** A datetime as the library has it: naive, as [datetime.now()] makes
    them, or aware, with its offset from UTC in microseconds, as the
    parser makes one from a text that ends in a UTC offset. *)
Inductive datetime : Type :=
| Naive (t : Z)
| Aware (t : Z) (utcoffset : Z).

Definition py_datetime (d : datetime) : pyval :=
  match d with
  | Naive t => PyDatetime t
  | Aware t utcoffset => PyAware t utcoffset
  end.

(** The textual form of a datetime: [datetime.isoformat] and
    [datetime.fromisoformat] of the Python library, [None] where the
    latter raises. *)
Class DatetimeText : Type := {
  isoformat : datetime -> string;
  fromisoformat : string -> option datetime
}.

(** What the library documents of the two: [fromisoformat] inverts
    [isoformat], whose output is never the empty string. *)
Class DatetimeTextLaws (D : DatetimeText) : Prop := {
  fromisoformat_isoformat : forall d, fromisoformat (isoformat d) = Some d;
  isoformat_nonempty : forall d, isoformat d <> ""
}.

(** [utils.get_current_timestamp]. *)
Definition get_current_timestamp `{DatetimeText} (now : Z) : string :=
  isoformat (Naive now).

(** [utils.parse_timestamp]: any exception of [fromisoformat], a value
    that is not a string included, is [None]; a text with a UTC offset
    gives an aware datetime. *)
Definition parse_timestamp `{DatetimeText} (timestamp_str : pyval)
  : option datetime :=
  match timestamp_str with
  | PyStr str => fromisoformat str
  | _ => None
  end.

(** The loop of [_save_actions_history]. *)
Fixpoint save_loop `{DatetimeText} (history : list pyval)
  : result (list pyval) :=
  match history with
  | [] => Ok []
  | action :: rest =>
      action_copy <- py_copy action ;;
      ts <- py_getitem action_copy "timestamp" ;;
      action_copy <-
        match ts with
        | PyDatetime t =>
            py_setitem action_copy "timestamp" (PyStr (isoformat (Naive t)))
        | PyAware t utcoffset =>
            py_setitem action_copy "timestamp"
              (PyStr (isoformat (Aware t utcoffset)))
        | _ => Ok action_copy
        end ;;
      actions <- save_loop rest ;;
      Ok (action_copy :: actions)
  end.

Definition _save_actions_history `{DatetimeText} (s : RateLimiter)
    (w : World) (now : Z) : World :=
  match save_loop (actions_history s) with
  | Raise _ => w
  | Ok actions =>
      let data := PyDict [("actions", PyList actions);
                          ("last_updated", PyStr (get_current_timestamp now));
                          ("total_actions", PyInt (len actions))] in
      snd (save_json_file w (actions_log_file s) data)
  end.

(** The loop of [_load_actions_history]: the history as the loop leaves
    it, and the exception that stopped it, if any. *)
Fixpoint load_loop `{DatetimeText} (actions : list pyval)
    (history : list pyval) : list pyval * result unit :=
  match actions with
  | [] => (history, Ok tt)
  | action :: rest =>
      match py_get action "timestamp" PyNone with
      | Raise e => (history, Raise e)
      | Ok timestamp_str =>
          if truthy timestamp_str then
            match parse_timestamp timestamp_str with
            | Some timestamp =>
                match py_setitem action "timestamp" (py_datetime timestamp) with
                | Ok action' => load_loop rest (deque_append history action')
                | Raise e => (history, Raise e)
                end
            | None => load_loop rest history
            end
          else load_loop rest history
      end
  end.

(** The comprehension that keeps the actions newer than the cutoff. *)
Fixpoint retain_recent (cutoff : Z) (history : list pyval)
  : result (list pyval) :=
  match history with
  | [] => Ok []
  | action :: rest =>
      ts <- py_getitem action "timestamp" ;;
      keep <- py_gt_datetime ts cutoff ;;
      kept <- retain_recent cutoff rest ;;
      Ok (if keep then action :: kept else kept)
  end.

(** The [try] block of [_load_actions_history]: the limiter as the block
    leaves it, and the exception it raised, if any. *)
Definition load_try `{DatetimeText} (s : RateLimiter) (w : World) (now : Z)
  : RateLimiter * result unit :=
  let data := load_json_file w (actions_log_file s) (PyDict []) in
  if negb (truthy data) then (s, Ok tt) else
  match py_get data "actions" (PyList []) with
  | Raise e => (s, Raise e)
  | Ok actions =>
      match py_iter actions with
      | Raise e => (s, Raise e)
      | Ok items =>
          let (history, r) := load_loop items (actions_history s) in
          let s1 := set_history s history in
          match r with
          | Raise e => (s1, Raise e)
          | Ok _ =>
              let cutoff := now - timedelta_days 7 in
              match retain_recent cutoff history with
              | Raise e => (s1, Raise e)
              | Ok kept => (set_history s1 (deque kept), Ok tt)
              end
          end
      end
  end.

(** [_load_actions_history]: the [except Exception] clause logs and
    returns, so what reaches the caller is the limiter and no exception. *)
Definition _load_actions_history `{DatetimeText} (s : RateLimiter)
    (w : World) (now : Z) : RateLimiter * result unit :=
  let (s', r) := load_try s w now in
  match r with
  | Ok _ => (s', Ok tt)
  | Raise _ => (s', Ok tt)
  end.

(* ================================================================== *)
(** ** Recording an action *)

Definition record_action `{DatetimeText} (s : RateLimiter) (w : World)
    (now : Z) (action_type : string) (success : bool) (metadata : pyval)
  : RateLimiter * World :=
  let action := PyDict [("type", PyStr action_type);
                        ("success", PyBool success);
                        ("timestamp", PyDatetime now);
                        ("metadata", if truthy metadata then metadata
                                     else PyDict [])] in
  let s := set_history s (deque_append (actions_history s) action) in
  let s := if negb success
           then set_errors s (consecutive_errors s + 1) (Some now)
           else set_errors s 0 None in
  if len (actions_history s) mod 10 =? 0
  then (s, _save_actions_history s w now)
  else (s, w).

(** A run of [record_action] calls, each with its own clock reading. *)
Fixpoint record_all `{DatetimeText} (s : RateLimiter) (w : World)
    (calls : list (Z * string * bool * pyval)) : RateLimiter * World :=
  match calls with
  | [] => (s, w)
  | (now, action_type, success, metadata) :: rest =>
      let (s', w') := record_action s w now action_type success metadata in
      record_all s' w' rest
  end.

(* ================================================================== *)
(** ** Construction *)

(** The keys [__init__] looks up in the configuration; [None] for a key
    that is absent, which takes the default. *)
Record Config : Type := mkConfig {
  cfg_max_actions_per_hour : option Z;
  cfg_max_actions_per_day : option Z;
  cfg_max_likes_per_hour : option Z;
  cfg_max_replies_per_hour : option Z;
  cfg_max_retweets_per_hour : option Z;
  cfg_actions_log_file : option string;
  cfg_between_actions : option (Q * Q);
  cfg_between_searches : option (Q * Q);
  cfg_after_error : option (Q * Q);
  cfg_weekend_mode : option bool;
  cfg_weekend_reduction : option Q
}.

Definition get {A : Type} (o : option A) (default : A) : A :=
  match o with
  | Some a => a
  | None => default
  end.

(** [RateLimiter.__init__]. *)
Definition init `{DatetimeText} (config : Config) (w : World) (now : Z)
    (g : Random) : RateLimiter * Random :=
  let s := mkRateLimiter
    (get (cfg_max_actions_per_hour config) 12)
    (get (cfg_max_actions_per_day config) 100)
    (get (cfg_max_likes_per_hour config) 8)
    (get (cfg_max_replies_per_hour config) 3)
    (get (cfg_max_retweets_per_hour config) 2)
    (get (cfg_actions_log_file config) "actions_log.json")
    []
    (get (cfg_between_actions config) (60%Q, 600%Q))
    (get (cfg_between_searches config) (300%Q, 900%Q))
    (get (cfg_after_error config) (900%Q, 1800%Q))
    (get (cfg_weekend_mode config) true)
    (get (cfg_weekend_reduction config) 0.5%Q)
    0%nat None false [] [] in
  let s := fst (_load_actions_history s w now) in
  let (pattern, g') := _generate_daily_pattern g in
  (mkRateLimiter (max_actions_per_hour s) (max_actions_per_day s)
     (max_likes_per_hour s) (max_replies_per_hour s) (max_retweets_per_hour s)
     (actions_log_file s) (actions_history s) (delay_between_actions s)
     (delay_between_searches s) (delay_after_error s) (weekend_mode s)
     (weekend_reduction s) (consecutive_errors s) (last_error_time s)
     (burst_mode s) [(23, 6); (12, 13)] pattern,
   g').

(* ================================================================== *)
(** ** Vocabulary of the statements *)

(** An action as [record_action] leaves it in the history, and a load
    from a log that [_save_actions_history] wrote: a dict that holds a
    naive datetime under [timestamp] and some value under [type]. *)
Definition well_formed (a : pyval) : bool :=
  match a with
  | PyDict d =>
      match dict_get d "timestamp", dict_get d "type" with
      | Some (PyDatetime _), Some _ => true
      | _, _ => false
      end
  | _ => false
  end.

(** A well-formed action the counts of [can_perform_action now action_type]
    all see: newer than one hour and of the type asked about. *)
Definition qualifying (now : Z) (action_type : string) (a : pyval) : bool :=
  match a with
  | PyDict d =>
      match dict_get d "timestamp", dict_get d "type" with
      | Some (PyDatetime t), Some ty =>
          (now - timedelta_hours 1 <? t) && py_eq_str ty action_type
      | _, _ => false
      end
  | _ => false
  end.

(** What a well-formed action adds to a count. *)
Definition counts_in (cutoff : Z) (action_type : option string) (a : pyval)
  : bool :=
  match a with
  | PyDict d =>
      match dict_get d "timestamp", dict_get d "type" with
      | Some (PyDatetime t), Some ty =>
          (cutoff <? t) &&
          match action_type with
          | None => true
          | Some want => py_eq_str ty want
          end
      | _, _ => false
      end
  | _ => false
  end.

(** The history after appending the records of [extra] one by one. *)
Definition deque_extend (history extra : list pyval) : list pyval :=
  fold_left deque_append extra history.

(** The hourly cap of a tracked sub-type. *)
Definition type_cap (s : RateLimiter) (action_type : string) : option Z :=
  if String.eqb action_type "like" then Some (max_likes_per_hour s)
  else if String.eqb action_type "reply" then Some (max_replies_per_hour s)
  else if String.eqb action_type "retweet" then Some (max_retweets_per_hour s)
  else None.

(** The action with another value under [success]. *)
Definition with_success (a : pyval) (v : pyval) : pyval :=
  match a with
  | PyDict d => PyDict (dict_set d "success" v)
  | _ => a
  end.

(** Two actions that are the same but for the value under [success]. *)
Definition differ_in_success (a a' : pyval) : Prop :=
  a' = a \/ exists v, a' = with_success a v.

(** A call of [record_action] that reports a failure. *)
Definition failed_call (c : Z * string * pyval) : Z * string * bool * pyval :=
  let '(t, action_type, metadata) := c in (t, action_type, false, metadata).

(** A dict with a value under [timestamp]: what [_save_actions_history]
    needs of an action to reach the write. *)
Definition has_timestamp (a : pyval) : bool :=
  match a with
  | PyDict d => match dict_get d "timestamp" with Some _ => true | None => false end
  | _ => false
  end.

(** A dict with a naive datetime under [timestamp] that [json.dump]
    accepts once the datetime is replaced by its text. *)
Definition storable (a : pyval) : bool :=
  match a with
  | PyDict d =>
      match dict_get d "timestamp" with
      | Some (PyDatetime _) =>
          json_serialisable (PyDict (dict_set d "timestamp" (PyStr "")))
      | _ => false
      end
  | _ => false
  end.

(** Inside the retention window at [now]: strictly newer than seven days. *)
Definition retained (now : Z) (a : pyval) : bool :=
  match a with
  | PyDict d =>
      match dict_get d "timestamp" with
      | Some (PyDatetime t) => now - timedelta_days 7 <? t
      | _ => false
      end
  | _ => false
  end.

(** The (type, success, timestamp) triple of an action. *)
Definition triple (a : pyval) : option pyval * option pyval * option pyval :=
  match a with
  | PyDict d => (dict_get d "type", dict_get d "success", dict_get d "timestamp")
  | _ => (None, None, None)
  end.

(** A persisted record whose timestamp does not load: the key is absent,
    its value is falsy, or the value does not parse. *)
Definition bad_timestamp `{DatetimeText} (d : list (string * pyval)) : bool :=
  match dict_get d "timestamp" with
  | None => true
  | Some v =>
      negb (truthy v) ||
      match parse_timestamp v with Some _ => false | None => true end
  end.

(** The action as [_save_actions_history] writes it: the datetime under
    [timestamp] replaced by its text. *)
Definition persisted `{DatetimeText} (a : pyval) : pyval :=
  match a with
  | PyDict d =>
      match dict_get d "timestamp" with
      | Some (PyDatetime t) =>
          PyDict (dict_set d "timestamp" (PyStr (isoformat (Naive t))))
      | Some (PyAware t utcoffset) =>
          PyDict (dict_set d "timestamp" (PyStr (isoformat (Aware t utcoffset))))
      | _ => a
      end
  | _ => a
  end.

(** The action [_load_actions_history] appends for a persisted record that
    is a dict, if it appends one: the text under [timestamp] replaced by the
    datetime it parses to. *)
Definition revive `{DatetimeText} (a : pyval) : option pyval :=
  match a with
  | PyDict d =>
      match dict_get d "timestamp" with
      | Some v =>
          if truthy v then
            match parse_timestamp v with
            | Some t => Some (PyDict (dict_set d "timestamp" (py_datetime t)))
            | None => None
            end
          else None
      | None => None
      end
  | _ => None
  end.

Definition revived `{DatetimeText} (records : list pyval) : list pyval :=
  flat_map (fun a => match revive a with Some a' => [a'] | None => [] end)
    records.

(** The values of a dict are all accepted by [json.dump]. *)
Definition dict_serialisable (d : list (string * pyval)) : bool :=
  forallb (fun kv => json_serialisable (snd kv)) d.

(** The log file holds [data]. *)
Definition with_log (w : World) (path : string) (data : pyval) : World :=
  mkWorld (fs_put (fs w) path (Json data)) (writes w).

(** [grew r r']: the second count raises where the first does, and is no
    smaller where both return. *)
Definition grew (r r' : result Z) : Prop :=
  match r with
  | Raise _ => exists e, r' = Raise e
  | Ok m => (exists e, r' = Raise e) \/ (exists m', r' = Ok m' /\ m <= m')
  end.

(** A dict that holds a datetime under [timestamp], naive or aware. *)
Definition dated (a : pyval) : bool :=
  match a with
  | PyDict d =>
      match dict_get d "timestamp" with
      | Some (PyDatetime _) => true
      | Some (PyAware _ _) => true
      | _ => false
      end
  | _ => false
  end.

(** A dict that holds a naive datetime under [timestamp], as every action
    that [record_action] appends does. *)
Definition naive_dated (a : pyval) : bool :=
  match a with
  | PyDict d =>
      match dict_get d "timestamp" with
      | Some (PyDatetime _) => true
      | _ => false
      end
  | _ => false
  end.

(** A dict with a datetime, naive or aware, under [timestamp] that
    [json.dump] accepts once the datetime is replaced by its text. *)
Definition encodable (a : pyval) : bool :=
  match a with
  | PyDict d =>
      match dict_get d "timestamp" with
      | Some (PyDatetime _) | Some (PyAware _ _) =>
          json_serialisable (PyDict (dict_set d "timestamp" (PyStr "")))
      | _ => false
      end
  | _ => false
  end.

(** The history the clean-up of [_load_actions_history] leaves of a
    history of dated actions: the actions inside the retention window when
    every timestamp is naive; the history as it was when one is aware, the
    comparison with the naive cutoff having raised. *)
Definition cleaned_up (now : Z) (history : list pyval) : list pyval :=
  if forallb naive_dated history
  then filter (retained now) history
  else history.

Definition is_dict (a : pyval) : bool :=
  match a with
  | PyDict _ => true
  | _ => false
  end.

(** *** The specification's wording, for comparison *)

(** The table of the activity pattern as the specification gives it: the
    night trough covers hour 23 and hours 0 to 5. *)
Definition base_multiplier_spec (hour : Z) : Q :=
  if (6 <=? hour) && (hour <=? 9) then 1.5%Q
  else if (12 <=? hour) && (hour <=? 13) then 0.8%Q
  else if (17 <=? hour) && (hour <=? 22) then 1.8%Q
  else if (23 <=? hour) || (hour <=? 5) then 0.3%Q
  else 1.0%Q.

(** The load factor as the specification gives it: 1.5 from 80% of the cap
    on. *)
Definition load_factor_spec (recent_actions cap : Z) : Q :=
  if Qle_bool (inject_Z cap * 0.8) (inject_Z recent_actions) then 1.5%Q
  else if Qltb (inject_Z recent_actions) (inject_Z cap * 0.2) then 0.7%Q
  else 1.0%Q.

Definition clamp (lo hi x : Q) : Q := py_max lo (py_min hi x).

(** The delay range as the specification gives it: both bounds clamped
    into [[10, 1800]]. *)
Definition dynamic_delay_spec (s : RateLimiter) (recent_actions : Z)
    (activity_multiplier : Q) : Q * Q :=
  let (base_min, base_max) := delay_between_actions s in
  let multiplier :=
    (load_factor_spec recent_actions (max_actions_per_hour s)
     * (2.0 - activity_multiplier))%Q in
  (clamp 10 1800 (base_min * multiplier), clamp 10 1800 (base_max * multiplier)).

(* ================================================================== *)
(** ** Concrete instances *)

(** A textual form that satisfies the laws: the microsecond count in
    decimal, followed for an aware datetime by [+] and the offset in
    decimal. *)
Definition decimal (z : Z) : string := NilEmpty.string_of_int (Z.to_int z).

Definition of_decimal (str : string) : option Z :=
  option_map Z.of_int (NilEmpty.int_of_string str).

(** The text before the first [+] and the text after it. *)
Fixpoint split_plus (str : string) : option (string * string) :=
  match str with
  | EmptyString => None
  | String c rest =>
      if Ascii.eqb c "+" then Some (EmptyString, rest)
      else match split_plus rest with
           | Some (a, b) => Some (String c a, b)
           | None => None
           end
  end.

Definition decimal_text : DatetimeText := {|
  isoformat := fun d =>
    match d with
    | Naive t => decimal t
    | Aware t utcoffset => (decimal t ++ "+" ++ decimal utcoffset)%string
    end;
  fromisoformat := fun str =>
    match split_plus str with
    | None => option_map Naive (of_decimal str)
    | Some (a, b) =>
        match of_decimal a, of_decimal b with
        | Some t, Some utcoffset => Some (Aware t utcoffset)
        | _, _ => None
        end
    end
|}.

Definition constant_source (q : Q) : Random := mkRandom (fun _ => q) 0.

Definition no_files : World := mkWorld (fun _ => Missing) [].

Definition default_config : Config :=
  mkConfig None None None None None None None None None None None.

(** The configuration of the scenario: two likes an hour. *)
Definition two_likes_config : Config :=
  mkConfig None None (Some 2) None None None None None None None None.

(** The limiters [__init__] builds from these, with no log file on disk
    and every sample at 0.95. *)
Definition default_limiter : RateLimiter :=
  Eval vm_compute in
    fst (@init decimal_text default_config no_files 0 (constant_source 0.95)).

Definition two_likes_limiter : RateLimiter :=
  Eval vm_compute in
    fst (@init decimal_text two_likes_config no_files 0 (constant_source 0.95)).

Definition like_at (t : Z) (success : bool) : pyval :=
  PyDict [("type", PyStr "like"); ("success", PyBool success);
          ("timestamp", PyDatetime t); ("metadata", PyDict [])].

(** Ten actions an hour, a flat pattern, and eight likes on record. *)
Definition eight_of_ten : RateLimiter :=
  mkRateLimiter 10 100 8 3 2 "actions_log.json" (repeat (like_at 0 true) 8)
    (60%Q, 600%Q) (300%Q, 900%Q) (900%Q, 1800%Q) false 0.5%Q 0%nat None false
    [(23, 6); (12, 13)] (repeat 1%Q 24).

(** A history at the capacity of the deque. *)
Definition full_limiter : RateLimiter :=
  set_history default_limiter (repeat (like_at 0 true) (Z.to_nat maxlen)).

(** The two-likes limiter with both likes on record at time 0. *)
Definition two_likes_recorded : RateLimiter :=
  set_history two_likes_limiter [like_at 0 true; like_at 0 true].

(** Four failed calls, one second apart. *)
Definition four_failures : list (Z * string * pyval) :=
  [(0, "like", PyNone); (1 * usec_per_second, "reply", PyNone);
   (2 * usec_per_second, "like", PyNone);
   (3 * usec_per_second, "retweet", PyNone)].

Definition three_failures : list (Z * string * pyval) :=
  [(0, "like", PyNone); (1 * usec_per_second, "reply", PyNone);
   (2 * usec_per_second, "like", PyNone)].

(** A success and a failure, five minutes apart. *)
Definition mixed_limiter : RateLimiter :=
  set_history default_limiter [like_at 0 true; like_at (minutes 5) false].

(** Nine actions on record: the next one is the tenth. *)
Definition nine_recorded : RateLimiter :=
  set_history default_limiter (repeat (like_at 0 true) 9).

(** A persisted like, and a record whose timestamp is not a time. *)
Definition persisted_like : list (string * pyval) :=
  [("type", PyStr "like"); ("success", PyBool true);
   ("timestamp", PyStr "300000000"); ("metadata", PyDict [])].

Definition garbled_record : list (string * pyval) :=
  [("type", PyStr "reply"); ("success", PyBool true);
   ("timestamp", PyStr "yesterday"); ("metadata", PyDict [])].

Definition garbled_store : list (string * pyval) :=
  [("actions", PyList [PyDict garbled_record; PyDict persisted_like]);
   ("last_updated", PyStr "300000000"); ("total_actions", PyInt 2)].

Definition garbled_world : World :=
  with_log no_files "actions_log.json" (PyDict garbled_store).

(** The same store with a number between the two records. *)
Definition interrupted_world : World :=
  with_log no_files "actions_log.json"
    (PyDict [("actions", PyList [PyDict garbled_record; PyInt 5;
                                 PyDict persisted_like]);
             ("last_updated", PyStr "300000000"); ("total_actions", PyInt 3)]).

(** A reply from time 0, after the garbled record. *)
Definition stale_record : list (string * pyval) :=
  [("type", PyStr "reply"); ("success", PyBool true);
   ("timestamp", PyStr "0"); ("metadata", PyDict [])].

Definition aged_world : World :=
  with_log no_files "actions_log.json"
    (PyDict [("actions", PyList [PyDict garbled_record; PyDict stale_record]);
             ("last_updated", PyStr "0"); ("total_actions", PyInt 2)]).

(** A reply followed by 10000 likes. *)
Definition early_record : list (string * pyval) :=
  [("type", PyStr "reply"); ("success", PyBool true);
   ("timestamp", PyStr "300000000"); ("metadata", PyDict [])].

Definition crowded_world : World :=
  with_log no_files "actions_log.json"
    (PyDict [("actions",
              PyList (PyDict early_record
                      :: repeat (PyDict persisted_like) (Z.to_nat maxlen)));
             ("last_updated", PyStr "300000000");
             ("total_actions", PyInt 10001)]).

(** Six in the evening of a Thursday. *)
Definition thursday_evening : Z := 18 * usec_per_hour.

(* ================================================================== *)
(** ** The rest of the limiter *)

(** [reset_error_count]. *)
Definition reset_error_count (s : RateLimiter) : RateLimiter :=
  set_errors s 0 None.

(** [t.replace(minute=0, second=0, microsecond=0)] and
    [t.replace(hour=0, minute=0, second=0, microsecond=0)]. *)
Definition start_of_hour (t : Z) : Z := t - t mod usec_per_hour.
Definition start_of_day (t : Z) : Z := t - t mod usec_per_day.

(** The part of [get_next_action_time] that looks for what blocks the
    action, once [can_perform_action] has answered [False]. *)
Definition blocked_until (s : RateLimiter) (now : Z) (action_type : string)
  : result Z :=
  hourly_actions <- _get_actions_in_timeframe s now 1 None ;;
  daily_actions <- _get_actions_in_timeframe s now 24 None ;;
  if max_actions_per_day s <=? daily_actions then
    let tomorrow := start_of_day now + timedelta_hours 6 in
    Ok (if tomorrow <=? now then tomorrow + timedelta_days 1 else tomorrow)
  else if max_actions_per_hour s <=? hourly_actions then
    Ok (start_of_hour now + timedelta_hours 1)
  else if String.eqb action_type "like" then
    hourly_likes <- _get_actions_in_timeframe s now 1 (Some "like") ;;
    if max_likes_per_hour s <=? hourly_likes
    then Ok (start_of_hour now + timedelta_hours 1)
    else Ok (now + minutes 30)
  else Ok (now + minutes 30).

(** [get_next_action_time]: [None] when the action can be performed now. *)
Definition get_next_action_time (s : RateLimiter) (now : Z) (g : Random)
    (action_type : string) : option Z * RateLimiter * Random :=
  let '(can, s1, g1) := can_perform_action s now g action_type in
  if can then (None, s1, g1)
  else
    match blocked_until s1 now action_type with
    | Ok t => (Some t, s1, g1)
    | Raise _ => (Some (now + timedelta_hours 1), s1, g1)
    end.

(** One entry of the dict of [get_rate_limit_status]. *)
Record Usage : Type := mkUsage {
  used : Z;
  limit : Z;
  remaining : Z;
  percentage : Q
}.

(** [used / limit] raises [ZeroDivisionError] on a zero limit; the one
    caller catches every exception, so only the failure is kept. *)
Definition usage (used_count limit_value : Z) : option Usage :=
  if limit_value =? 0 then None
  else Some (mkUsage used_count limit_value
               (Z.max 0 (limit_value - used_count))
               (inject_Z used_count / inject_Z limit_value * 100)%Q).

Definition caught {A : Type} (r : result A) : option A :=
  match r with
  | Ok a => Some a
  | Raise _ => None
  end.

Module Status.
(** The dict [get_rate_limit_status] returns, key by key. *)
Record t : Type := mk {
    hourly_actions : Usage;
    daily_actions : Usage;
    hourly_likes : Usage;
    hourly_replies : Usage;
    hourly_retweets : Usage;
    consecutive_errors : nat;
    last_error_time : option string;
    activity_multiplier : Q;
    in_quiet_period : bool;
    weekend_mode : bool
  }.
End Status.

(** [get_rate_limit_status]: [None] stands for the empty dict the
    [except] clause returns. *)
Definition get_rate_limit_status `{DatetimeText} (s : RateLimiter) (now : Z)
  : option Status.t :=
  match caught (_get_actions_in_timeframe s now 1 None),
        caught (_get_actions_in_timeframe s now 24 None),
        caught (_get_actions_in_timeframe s now 1 (Some "like")),
        caught (_get_actions_in_timeframe s now 1 (Some "reply")),
        caught (_get_actions_in_timeframe s now 1 (Some "retweet")) with
  | Some hourly_actions, Some daily_actions, Some hourly_likes,
    Some hourly_replies, Some hourly_retweets =>
      match usage hourly_actions (max_actions_per_hour s),
            usage daily_actions (max_actions_per_day s),
            usage hourly_likes (max_likes_per_hour s),
            usage hourly_replies (max_replies_per_hour s),
            usage hourly_retweets (max_retweets_per_hour s),
            caught (_get_current_activity_multiplier s now) with
      | Some ha, Some da, Some hl, Some hr, Some ht, Some am =>
          Some (Status.mk ha da hl hr ht
                  (consecutive_errors s)
                  (option_map (fun t => isoformat (Naive t))
                     (last_error_time s))
                  am
                  (_is_in_quiet_period s now)
                  (is_weekend now && weekend_mode s))
      | _, _, _, _, _, _ => None
      end
  | _, _, _, _, _ => None
  end.

(** *** [get_statistics] *)

(** Whether a value can be a dict key, and when two keys are the same key:
    [True] and [1], [False] and [0] are. *)
Definition py_hashable (v : pyval) : bool :=
  match v with
  | PyList _ | PyDict _ => false
  | _ => true
  end.

Definition py_key_eqb (a b : pyval) : bool :=
  match a, b with
  | PyNone, PyNone => true
  | PyBool x, PyBool y => Bool.eqb x y
  | PyBool x, PyInt z => z =? (if x then 1 else 0)
  | PyInt z, PyBool x => z =? (if x then 1 else 0)
  | PyInt x, PyInt y => x =? y
  | PyStr x, PyStr y => String.eqb x y
  | PyDatetime x, PyDatetime y => x =? y
  | PyAware x ox, PyAware y oy => x - ox =? y - oy
  | _, _ => false
  end.

(** One value of [stats['actions_by_type']]. *)
Record TypeCount : Type := mkTypeCount {
  total : Z;
  successful : Z;
  failed : Z
}.

Definition bump (success : bool) (c : TypeCount) : TypeCount :=
  if success
  then mkTypeCount (total c + 1) (successful c + 1) (failed c)
  else mkTypeCount (total c + 1) (successful c) (failed c + 1).

(** The entry of the key is created at zero if it is not there, then
    counted up. *)
Fixpoint count_up (key : pyval) (success : bool)
    (by_type : list (pyval * TypeCount)) : list (pyval * TypeCount) :=
  match by_type with
  | [] => [(key, bump success (mkTypeCount 0 0 0))]
  | (k, c) :: rest =>
      if py_key_eqb k key then (k, bump success c) :: rest
      else (k, c) :: count_up key success rest
  end.

(** The loop of [get_statistics] over the history. *)
Fixpoint by_type_loop (history : list pyval)
    (by_type : list (pyval * TypeCount)) : result (list (pyval * TypeCount)) :=
  match history with
  | [] => Ok by_type
  | action :: rest =>
      action_type <- py_getitem action "type" ;;
      if py_hashable action_type then
        success <- py_getitem action "success" ;;
        by_type_loop rest (count_up action_type (truthy success) by_type)
      else Raise TypeError
  end.

(** [sum(1 for action in history if action['success'])]. *)
Fixpoint successful_actions (history : list pyval) : result Z :=
  match history with
  | [] => Ok 0
  | action :: rest =>
      success <- py_getitem action "success" ;;
      n <- successful_actions rest ;;
      Ok (if truthy success then 1 + n else n)
  end.

Module Statistics.
(** The dict [get_statistics] returns, key by key. *)
Record t : Type := mk {
    session_duration : string;
    total_actions : Z;
    actions_last_hour : Z;
    actions_last_day : Z;
    actions_by_type : list (pyval * TypeCount);
    success_rate : Q;
    average_actions_per_hour : Q;
    rate_limit_status : option Status.t
  }.
End Statistics.

(* ================================================================== *)
(** ** More of [utils] *)

(** [str(n)] for an integer. *)
Definition str_int (n : Z) : string := NilZero.string_of_int (Z.to_int n).

(** [utils.format_duration]; [//] and [%] are the floor division and its
    remainder. *)
Definition format_duration (seconds : Z) : string :=
  if seconds <? 60 then str_int seconds ++ "s"
  else if seconds <? 3600 then
    let minutes := seconds / 60 in
    str_int minutes ++ "m"
  else if seconds <? 86400 then
    let hours := seconds / 3600 in
    let minutes := (seconds mod 3600) / 60 in
    str_int hours ++ "h " ++ str_int minutes ++ "m"
  else
    let days := seconds / 86400 in
    let hours := (seconds mod 86400) / 3600 in
    str_int days ++ "d " ++ str_int hours ++ "h".

(** [int(td.total_seconds())]: the whole seconds of a time difference,
    rounded towards zero. *)
Definition whole_seconds (td : Z) : Z := Z.quot td usec_per_second.

(** [utils.get_time_until_next_hour] and [utils.get_time_until_next_day]. *)
Definition get_time_until_next_hour (now : Z) : Z :=
  let next_hour := start_of_hour now + timedelta_hours 1 in
  whole_seconds (next_hour - now).

Definition get_time_until_next_day (now : Z) : Z :=
  let next_day := start_of_day now + timedelta_days 1 in
  whole_seconds (next_day - now).

(** [get_statistics]; the attribute [session_start_time], which the
    record of the limiter does not carry, is an argument.  [None] stands
    for the empty dict the [except] clause returns. *)
Definition get_statistics `{DatetimeText} (s : RateLimiter)
    (session_start_time : Z) (now : Z) : option Statistics.t :=
  let elapsed := now - session_start_time in
  match caught (_get_actions_in_timeframe s now 1 None),
        caught (_get_actions_in_timeframe s now 24 None),
        caught (by_type_loop (actions_history s) []) with
  | Some last_hour, Some last_day, Some by_type =>
      let n := len (actions_history s) in
      match (if 0 <? n
             then option_map
                    (fun k => (inject_Z k / inject_Z n * 100)%Q)
                    (caught (successful_actions (actions_history s)))
             else Some 0.0%Q) with
      | Some rate =>
          let session_hours :=
            (inject_Z elapsed / inject_Z usec_per_second / 3600)%Q in
          Some (Statistics.mk
                  (format_duration (whole_seconds elapsed))
                  n last_hour last_day by_type rate
                  (if Qltb 0 session_hours
                   then (inject_Z n / session_hours)%Q else 0.0%Q)
                  (get_rate_limit_status s now))
      | None => None
      end
  | _, _, _ => None
  end.

(** The sums over the entries of [actions_by_type]. *)
Definition sum_total (by_type : list (pyval * TypeCount)) : Z :=
  fold_right (fun kc acc => total (snd kc) + acc) 0 by_type.

Definition sum_successful (by_type : list (pyval * TypeCount)) : Z :=
  fold_right (fun kc acc => successful (snd kc) + acc) 0 by_type.

(** An entry whose counts add up. *)
Definition balanced (kc : pyval * TypeCount) : bool :=
  (total (snd kc) =? successful (snd kc) + failed (snd kc))
  && (0 <=? successful (snd kc)) && (0 <=? failed (snd kc))
  && (0 <? total (snd kc)).

(** [utils.retry_with_backoff].  [func k] is what the call of [func] at
    attempt [k] does; [catches] tells the exceptions of the [exceptions]
    tuple.  The answer comes with the delays slept, in order, and the
    number of calls of [func]. *)
Fixpoint retry_attempts {A : Type} (func : nat -> result A)
    (catches : exn -> bool) (max_retries : Z) (base_delay : Q)
    (backoff_multiplier : Q) (attempts : list Z) (last_exception : option exn)
  : result A * list Q * nat :=
  match attempts with
  | [] =>
      (* [raise last_exception]; raising [None] is a [TypeError] *)
      (match last_exception with
       | Some e => Raise e
       | None => Raise TypeError
       end, [], 0%nat)
  | attempt :: rest =>
      match func (Z.to_nat attempt) with
      | Ok v => (Ok v, [], 1%nat)
      | Raise e =>
          if catches e then
            let '(r, slept, calls) :=
              retry_attempts func catches max_retries base_delay
                backoff_multiplier rest (Some e) in
            if attempt <? max_retries
            then (r, (base_delay * backoff_multiplier ^ attempt)%Q :: slept,
                  S calls)
            else (r, slept, S calls)
          else (Raise e, [], 1%nat)
      end
  end.

(** [range(n)]. *)
Definition range (n : Z) : list Z := map Z.of_nat (seq 0 (Z.to_nat n)).

Definition retry_with_backoff {A : Type} (func : nat -> result A)
    (max_retries : Z) (base_delay backoff_multiplier : Q)
    (catches : exn -> bool) : result A * list Q * nat :=
  retry_attempts func catches max_retries base_delay backoff_multiplier
    (range (max_retries + 1)) None.

(** *** [utils.RateLimitTracker] *)

Record RateLimitTracker : Type := mkTracker {
  actions : list pyval
}.

(** [RateLimitTracker.add_action], with the naive [timestamp] a caller
    passes, or the reading of the clock. *)
Definition add_action (tr : RateLimitTracker) (now : Z) (action_type : string)
    (timestamp : option Z) : RateLimitTracker :=
  let timestamp := match timestamp with
                   | None => now
                   | Some t => t
                   end in
  mkTracker (actions tr ++ [PyDict [("type", PyStr action_type);
                                    ("timestamp", PyDatetime timestamp)]]).

(** The comprehension that keeps the actions of a type. *)
Fixpoint of_type (action_type : string) (l : list pyval)
  : result (list pyval) :=
  match l with
  | [] => Ok []
  | action :: rest =>
      ty <- py_getitem action "type" ;;
      kept <- of_type action_type rest ;;
      Ok (if py_eq_str ty action_type then action :: kept else kept)
  end.

(** [RateLimitTracker.get_actions_in_period]; the filter on the type
    applies when [action_type] is truthy. *)
Definition get_actions_in_period (tr : RateLimitTracker) (now : Z)
    (hours : Z) (action_type : option string) : result Z :=
  let cutoff := now - timedelta_hours hours in
  filtered_actions <- retain_recent cutoff (actions tr) ;;
  match action_type with
  | Some ty =>
      if negb (String.eqb ty "") then
        filtered_actions <- of_type ty filtered_actions ;;
        Ok (len filtered_actions)
      else Ok (len filtered_actions)
  | None => Ok (len filtered_actions)
  end.

(** [RateLimitTracker.cleanup_old_actions]; an exception of the
    comprehension leaves the tracker as it was. *)
Definition cleanup_old_actions (tr : RateLimitTracker) (now : Z) (days : Z)
  : result RateLimitTracker :=
  let cutoff := now - timedelta_days days in
  kept <- retain_recent cutoff (actions tr) ;;
  Ok (mkTracker kept).

(* ================================================================== *)
(** ** Sessions *)

(** The calls a session makes on its limiter. *)
Inductive call : Type :=
| CallRecord (now : Z) (action_type : string) (success : bool)
    (metadata : pyval)
| CallCanPerform (now : Z) (action_type : string)
| CallNextActionTime (now : Z) (action_type : string)
| CallResetErrors.

Definition run_call `{DatetimeText} (st : RateLimiter * World * Random)
    (c : call) : RateLimiter * World * Random :=
  let '(s, w, g) := st in
  match c with
  | CallRecord now action_type success metadata =>
      let (s', w') := record_action s w now action_type success metadata in
      (s', w', g)
  | CallCanPerform now action_type =>
      let '(_, s', g') := can_perform_action s now g action_type in
      (s', w, g')
  | CallNextActionTime now action_type =>
      let '(_, s', g') := get_next_action_time s now g action_type in
      (s', w, g')
  | CallResetErrors => (reset_error_count s, w, g)
  end.

(** A session: the limiter is constructed, then called. *)
Definition session `{DatetimeText} (config : Config) (w : World)
    (started : Z) (g : Random) (calls : list call)
  : RateLimiter * World * Random :=
  let (s, g') := init config w started g in
  fold_left run_call calls (s, w, g').

(** What every session keeps of its limiter: the history is within the
    capacity of the deque, each action in it is a dict with a datetime
    under [timestamp], and a positive error count comes with the time of
    the last error. *)
Definition sound (s : RateLimiter) : bool :=
  forallb dated (actions_history s)
  && (len (actions_history s) <=? maxlen)
  && ((consecutive_errors s =? 0)%nat
      || match last_error_time s with Some _ => true | None => false end).

(** The action [record_action] appends. *)
Definition recorded (c : Z * string * bool * pyval) : pyval :=
  let '(now, action_type, success, metadata) := c in
  PyDict [("type", PyStr action_type); ("success", PyBool success);
          ("timestamp", PyDatetime now);
          ("metadata", if truthy metadata then metadata else PyDict [])].

(** An action whose type is the one asked for. *)
Definition typed (ty : string) (a : pyval) : bool :=
  match a with
  | PyDict d => match dict_get d "type" with
                | Some v => py_eq_str v ty
                | None => false
                end
  | _ => false
  end.

(** An action newer than the cutoff, whatever else it holds. *)
Definition newer (cutoff : Z) (a : pyval) : bool :=
  match a with
  | PyDict d =>
      match dict_get d "timestamp" with
      | Some (PyDatetime t) => cutoff <? t
      | _ => false
      end
  | _ => false
  end.

(* ================================================================== *)
(** ** More concrete instances *)

(** A log file whose one record has no [type]. *)
Definition untyped_record : list (string * pyval) :=
  [("success", PyBool true); ("timestamp", PyStr "300000000");
   ("metadata", PyDict [])].

Definition untyped_world : World :=
  with_log no_files "actions_log.json"
    (PyDict [("actions", PyList [PyDict untyped_record]);
             ("last_updated", PyStr "300000000"); ("total_actions", PyInt 1)]).

Definition untyped_limiter : RateLimiter :=
  Eval vm_compute in
    fst (@init decimal_text default_config untyped_world (minutes 6)
           (constant_source 0.95)).

(** No retweets at all. *)
Definition no_retweets_config : Config :=
  mkConfig None None None None (Some 0) None None None None None None.

Definition no_retweets_limiter : RateLimiter :=
  Eval vm_compute in
    fst (@init decimal_text no_retweets_config no_files 0
           (constant_source 0.95)).

(** A log file with a record from time 0, a number, and a like. *)
Definition aborting_store : list (string * pyval) :=
  [("actions", PyList [PyDict stale_record; PyInt 5; PyDict persisted_like]);
   ("last_updated", PyStr "300000000"); ("total_actions", PyInt 3)].

Definition aborting_world : World :=
  with_log no_files "actions_log.json" (PyDict aborting_store).

Definition eight_days : Z := timedelta_days 8.

(** A log file with two records from time 0; the timestamp of the first
    carries a UTC offset of one hour. *)
Definition offset_record : list (string * pyval) :=
  [("type", PyStr "reply"); ("success", PyBool true);
   ("timestamp", PyStr "0+3600000000"); ("metadata", PyDict [])].

Definition offset_store : list (string * pyval) :=
  [("actions", PyList [PyDict offset_record; PyDict stale_record]);
   ("last_updated", PyStr "0"); ("total_actions", PyInt 2)].

Definition offset_world : World :=
  with_log no_files "actions_log.json" (PyDict offset_store).

(** The limiter [__init__] builds over it eight days later. *)
Definition offset_limiter : RateLimiter :=
  Eval vm_compute in
    fst (@init decimal_text default_config offset_world eight_days
           (constant_source 0.95)).

(** A tracker with a like and a reply. *)
Definition small_tracker : RateLimitTracker :=
  add_action (add_action (mkTracker []) 0 "like" None) (minutes 5) "reply" None.

(** A function that fails twice, then answers 7. *)
Definition third_time_lucky (k : nat) : result Z :=
  if (k <? 2)%nat then Raise KeyError else Ok 7.

Definition always_failing (k : nat) : result Z := Raise KeyError.

Definition catch_all (e : exn) : bool := true.

(** Two calls that fail after one that succeeds. *)
Definition two_failures : list (Z * string * pyval) :=
  [(1 * usec_per_second, "reply", PyNone); (2 * usec_per_second, "like", PyNone)].

(* ================================================================== *)
(** ** Tactics *)

Ltac unfold_time :=
  unfold minutes, timedelta_hours, timedelta_days, cooldown_seconds,
    usec_per_day, usec_per_hour, usec_per_second in *.

(** Settle a comparison of times that appears in the goal. *)
Ltac order_true c :=
  replace c with true
    by (symmetry; first [apply Z.ltb_lt | apply Z.leb_le]; unfold_time; lia).

Ltac order_false c :=
  replace c with false
    by (symmetry; first [apply Z.ltb_ge | apply Z.leb_gt]; unfold_time; lia).

(** Keep the case of a dict; the other shapes contradict a hypothesis. *)
Ltac dict_case a d :=
  destruct a as [| | | | | | ? |d]; try discriminate.

(* ================================================================== *)
(** ** The example limiters are the ones [init] builds *)

Lemma default_limiter_init :
  default_limiter =
  fst (@init decimal_text default_config no_files 0 (constant_source 0.95)).
Proof. vm_compute. reflexivity. Qed.

Lemma two_likes_limiter_init :
  two_likes_limiter =
  fst (@init decimal_text two_likes_config no_files 0 (constant_source 0.95)).
Proof. vm_compute. reflexivity. Qed.

Lemma offset_limiter_init :
  offset_limiter =
  fst (@init decimal_text default_config offset_world eight_days
         (constant_source 0.95)).
Proof. vm_compute. reflexivity. Qed.

(* ================================================================== *)
(** ** Dicts and the bounded deque *)

Lemma dict_get_set_same (d : list (string * pyval)) (k : string) (v : pyval) :
  dict_get (dict_set d k v) k = Some v.
Proof.
  induction d as [|[k' v'] d IH]; simpl.
  - now rewrite String.eqb_refl.
  - destruct (String.eqb k' k) eqn:E; simpl.
    + now rewrite String.eqb_refl.
    + now rewrite E.
Qed.

Lemma dict_get_set_other (d : list (string * pyval)) (k k' : string)
    (v : pyval) :
  String.eqb k k' = false ->
  dict_get (dict_set d k v) k' = dict_get d k'.
Proof.
  intros Hk. induction d as [|[k0 v0] d IH]; simpl.
  - now rewrite Hk.
  - destruct (String.eqb k0 k) eqn:E; simpl.
    + apply String.eqb_eq in E. subst k0. now rewrite Hk.
    + now rewrite IH.
Qed.

Lemma dict_set_get_same (d : list (string * pyval)) (k : string) (v : pyval) :
  dict_get d k = Some v -> dict_set d k v = d.
Proof.
  induction d as [|[k' v'] d IH]; simpl; [discriminate|].
  destruct (String.eqb k' k) eqn:E.
  - intros [= ->]. apply String.eqb_eq in E. now subst.
  - intros H. now rewrite IH.
Qed.

Lemma dict_set_set (d : list (string * pyval)) (k : string) (v v' : pyval) :
  dict_set (dict_set d k v) k v' = dict_set d k v'.
Proof.
  induction d as [|[k' v0] d IH]; simpl.
  - now rewrite String.eqb_refl.
  - destruct (String.eqb k' k) eqn:E; simpl.
    + now rewrite String.eqb_refl.
    + now rewrite E, IH.
Qed.

Lemma len_app {A : Type} (l1 l2 : list A) : len (l1 ++ l2) = len l1 + len l2.
Proof. unfold len. rewrite length_app. lia. Qed.

Lemma len_cons {A : Type} (x : A) (l : list A) : len (x :: l) = 1 + len l.
Proof. unfold len. cbn [List.length]. lia. Qed.

Lemma len_nonneg {A : Type} (l : list A) : 0 <= len l.
Proof. unfold len. lia. Qed.

Lemma deque_fits {A : Type} (l : list A) : len l <= maxlen -> deque l = l.
Proof.
  intros H. unfold deque.
  replace (Z.to_nat (len l - maxlen)) with 0%nat by lia. reflexivity.
Qed.

Lemma deque_append_room {A : Type} (d : list A) (x : A) :
  len d < maxlen -> deque_append d x = d ++ [x].
Proof.
  intros H. unfold deque_append. apply deque_fits.
  rewrite len_app. unfold len at 2. simpl. lia.
Qed.

(** At capacity the oldest item leaves. *)
Lemma deque_append_full {A : Type} (d : list A) (x : A) :
  len d = maxlen -> deque_append d x = tl d ++ [x].
Proof.
  intros H. unfold deque_append, deque. rewrite len_app.
  replace (Z.to_nat (len d + len [x] - maxlen)) with 1%nat
    by (unfold len at 2; simpl; lia).
  destruct d as [|a d]; [unfold len, maxlen in H; simpl in H; lia|].
  reflexivity.
Qed.

Lemma deque_append_len {A : Type} (d : list A) (x : A) :
  len d <= maxlen -> len (deque_append d x) <= maxlen.
Proof.
  intros H. destruct (Z.eq_dec (len d) maxlen) as [E|E].
  - rewrite deque_append_full by assumption. rewrite len_app.
    destruct d as [|a d]; [unfold len, maxlen in E; simpl in E; lia|].
    unfold len in *. simpl in *. lia.
  - rewrite deque_append_room by lia. rewrite len_app.
    unfold len at 2. simpl. lia.
Qed.

(** The appended item is always the newest of the deque. *)
Lemma deque_append_last {A : Type} (d : list A) (x : A) :
  exists older, deque_append d x = older ++ [x].
Proof.
  unfold deque_append, deque.
  set (k := Z.to_nat (len (d ++ [x]) - maxlen)).
  assert (Hk : (k <= List.length d)%nat).
  { subst k. rewrite len_app. unfold len, maxlen. simpl. lia. }
  exists (skipn k d). rewrite skipn_app.
  replace (k - List.length d)%nat with 0%nat by lia. reflexivity.
Qed.

(* ================================================================== *)
(** ** Counting *)

Lemma count_loop_app (c : Z) (ty : option string) (n : Z)
    (l1 l2 : list pyval) :
  count_loop c ty n (l1 ++ l2) =
  (m <- count_loop c ty n l1 ;; count_loop c ty m l2).
Proof.
  revert n. induction l1 as [|a l1 IH]; intros n; simpl; [reflexivity|].
  destruct (count_step c ty n a); simpl; auto.
Qed.

Lemma count_step_well_formed (c : Z) (ty : option string) (n : Z)
    (a : pyval) :
  well_formed a = true ->
  count_step c ty n a = Ok (n + (if counts_in c ty a then 1 else 0)).
Proof.
  dict_case a d.
  unfold well_formed, count_step, counts_in, py_getitem.
  destruct (dict_get d "timestamp") as [[| | | |t| | |]|]; try discriminate.
  destruct (dict_get d "type") as [v|]; try discriminate.
  intros _. simpl. destruct (c <? t); simpl.
  - destruct ty as [want|]; simpl; [|reflexivity].
    destruct (py_eq_str v want); f_equal; lia.
  - f_equal; lia.
Qed.

Lemma count_loop_well_formed (c : Z) (ty : option string) (n : Z)
    (l : list pyval) :
  forallb well_formed l = true ->
  count_loop c ty n l = Ok (n + len (filter (counts_in c ty) l)).
Proof.
  revert n. induction l as [|a l IH]; intros n H; simpl.
  - f_equal. unfold len. simpl. lia.
  - simpl in H. apply andb_true_iff in H as [Ha Hl].
    rewrite (count_step_well_formed _ _ _ _ Ha). simpl.
    rewrite (IH _ Hl). f_equal.
    destruct (counts_in c ty a); unfold len; simpl; lia.
Qed.

Lemma qualifying_well_formed (now : Z) (ty : string) (a : pyval) :
  qualifying now ty a = true -> well_formed a = true.
Proof.
  dict_case a d.
  unfold qualifying, well_formed.
  destruct (dict_get d "timestamp") as [[| | | |t| | |]|]; try discriminate.
  destruct (dict_get d "type"); [reflexivity|discriminate].
Qed.

(** A qualifying action is inside every window of at least one hour, with
    or without the filter on its type. *)
Lemma qualifying_counts_in (now : Z) (ty : string) (a : pyval) (hours : Z)
    (filt : option string) :
  qualifying now ty a = true ->
  1 <= hours ->
  filt = None \/ filt = Some ty ->
  counts_in (now - timedelta_hours hours) filt a = true.
Proof.
  dict_case a d.
  unfold qualifying, counts_in.
  destruct (dict_get d "timestamp") as [[| | | |t| | |]|]; try discriminate.
  destruct (dict_get d "type") as [v|]; try discriminate.
  intros H Hh Hf. apply andb_true_iff in H as [Ht Hv].
  apply andb_true_iff. split.
  - apply Z.ltb_lt in Ht. apply Z.ltb_lt.
    unfold timedelta_hours, usec_per_hour, usec_per_second in *. lia.
  - destruct Hf as [-> | ->]; [reflexivity|exact Hv].
Qed.

Lemma forallb_qualifying_well_formed (now : Z) (ty : string)
    (l : list pyval) :
  forallb (qualifying now ty) l = true -> forallb well_formed l = true.
Proof.
  induction l as [|a l IH]; simpl; [reflexivity|].
  intros H. apply andb_true_iff in H as [Ha Hl].
  now rewrite (qualifying_well_formed _ _ _ Ha), IH.
Qed.

Lemma filter_all_qualifying (now : Z) (ty : string) (l : list pyval)
    (hours : Z) (filt : option string) :
  forallb (qualifying now ty) l = true ->
  1 <= hours ->
  filt = None \/ filt = Some ty ->
  filter (counts_in (now - timedelta_hours hours) filt) l = l.
Proof.
  intros H Hh Hf. induction l as [|a l IH]; simpl; [reflexivity|].
  simpl in H. apply andb_true_iff in H as [Ha Hl].
  rewrite (qualifying_counts_in _ _ _ _ _ Ha Hh Hf). now rewrite IH.
Qed.

Lemma count_grew_app (now : Z) (ty : string) (hours : Z)
    (filt : option string) (history extra : list pyval) :
  forallb (qualifying now ty) extra = true ->
  1 <= hours ->
  filt = None \/ filt = Some ty ->
  grew (count_loop (now - timedelta_hours hours) filt 0 history)
       (count_loop (now - timedelta_hours hours) filt 0 (history ++ extra)).
Proof.
  intros HE Hh Hf. rewrite count_loop_app. unfold grew.
  destruct (count_loop _ filt 0 history) as [m|e]; simpl.
  - right. exists (m + len extra). split; [|pose proof (len_nonneg extra); lia].
    rewrite count_loop_well_formed
      by (eapply forallb_qualifying_well_formed; eassumption).
    now rewrite (filter_all_qualifying _ _ _ _ _ HE Hh Hf).
  - now exists e.
Qed.

Lemma forallb_skipn {A : Type} (f : A -> bool) (k : nat) (l : list A) :
  forallb f l = true -> forallb f (skipn k l) = true.
Proof.
  revert l. induction k as [|k IH]; intros [|a l]; simpl; auto.
  intros H. apply andb_true_iff in H as [_ H]. auto.
Qed.

Lemma forallb_deque_append {A : Type} (f : A -> bool) (d : list A) (x : A) :
  forallb f d = true -> f x = true -> forallb f (deque_append d x) = true.
Proof.
  intros Hd Hx. unfold deque_append, deque. apply forallb_skipn.
  rewrite forallb_app, Hd. simpl. now rewrite Hx.
Qed.

Lemma filter_tl_len {A : Type} (f : A -> bool) (l : list A) :
  len (filter f l) - 1 <= len (filter f (tl l)).
Proof.
  destruct l as [|a l]; simpl; [unfold len; simpl; lia|].
  destruct (f a); unfold len; cbn [List.length]; lia.
Qed.

Lemma filter_deque_append_len (f : pyval -> bool) (d : list pyval)
    (x : pyval) :
  len d <= maxlen -> f x = true ->
  len (filter f d) <= len (filter f (deque_append d x)).
Proof.
  intros Hd Hx. destruct (Z.eq_dec (len d) maxlen) as [E|E].
  - rewrite deque_append_full by assumption.
    rewrite filter_app, len_app. simpl. rewrite Hx.
    pose proof (filter_tl_len f d). change (len [x]) with 1. lia.
  - rewrite deque_append_room by lia.
    rewrite filter_app, len_app. pose proof (len_nonneg (filter f [x])). lia.
Qed.

(** Appending qualifying records through the deque keeps a well-formed
    history well formed, within capacity, and no count smaller. *)
Lemma deque_extend_counts (now : Z) (ty : string) (hours : Z)
    (filt : option string) (extra history : list pyval) :
  forallb (qualifying now ty) extra = true ->
  1 <= hours ->
  filt = None \/ filt = Some ty ->
  forallb well_formed history = true ->
  len history <= maxlen ->
  forallb well_formed (deque_extend history extra) = true /\
  len (filter (counts_in (now - timedelta_hours hours) filt) history) <=
  len (filter (counts_in (now - timedelta_hours hours) filt)
         (deque_extend history extra)).
Proof.
  intros HE Hh Hf. revert history.
  induction extra as [|x extra IH]; intros history Hwf Hlen; simpl.
  - split; [assumption|lia].
  - simpl in HE. apply andb_true_iff in HE as [Hx HE].
    destruct (IH HE (deque_append history x)) as [Hwf' Hle].
    + apply forallb_deque_append; [assumption|].
      eapply qualifying_well_formed; eassumption.
    + now apply deque_append_len.
    + split; [exact Hwf'|].
      eapply Z.le_trans; [|exact Hle].
      apply filter_deque_append_len; [assumption|].
      eapply qualifying_counts_in; eassumption.
Qed.

Lemma count_grew_deque (now : Z) (ty : string) (hours : Z)
    (filt : option string) (history extra : list pyval) :
  forallb (qualifying now ty) extra = true ->
  1 <= hours ->
  filt = None \/ filt = Some ty ->
  forallb well_formed history = true ->
  len history <= maxlen ->
  grew (count_loop (now - timedelta_hours hours) filt 0 history)
       (count_loop (now - timedelta_hours hours) filt 0
          (deque_extend history extra)).
Proof.
  intros HE Hh Hf Hwf Hlen.
  destruct (deque_extend_counts _ _ _ _ _ _ HE Hh Hf Hwf Hlen) as [Hwf' Hle].
  rewrite !count_loop_well_formed by assumption.
  right. eexists. split; [reflexivity|lia].
Qed.

(* ================================================================== *)
(** ** The quota check under a growing history *)

(** One limit of [quota_checks]: a count that grew keeps a reached limit
    reached. *)
Lemma limit_stage (cap : Z) (r r' : result Z) (k k' : result bool) :
  grew r r' ->
  (k <> Ok true -> k' <> Ok true) ->
  (n <- r ;; if cap <=? n then Ok false else k) <> Ok true ->
  (n <- r' ;; if cap <=? n then Ok false else k') <> Ok true.
Proof.
  unfold grew. intros G K.
  destruct r as [m|e].
  - destruct G as [[e' ->]|[m' [-> Hle]]]; cbn [bind]; [discriminate|].
    destruct (cap <=? m) eqn:E; destruct (cap <=? m') eqn:E';
      try discriminate; [|assumption].
    apply Z.leb_le in E. apply Z.leb_gt in E'. lia.
  - destruct G as [e' ->]. cbn [bind]. discriminate.
Qed.

Lemma quota_checks_monotone (s : RateLimiter) (now : Z) (ty : string)
    (h' : list pyval) :
  (forall hours filt, 1 <= hours -> filt = None \/ filt = Some ty ->
     grew (_get_actions_in_timeframe s now hours filt)
          (_get_actions_in_timeframe (set_history s h') now hours filt)) ->
  quota_checks s now ty <> Ok true ->
  quota_checks (set_history s h') now ty <> Ok true.
Proof.
  intros G.
  assert (G24 := G 24 None ltac:(lia) (or_introl eq_refl)).
  assert (G1 := G 1 None ltac:(lia) (or_introl eq_refl)).
  assert (GT := G 1 (Some ty) ltac:(lia) (or_intror eq_refl)).
  unfold quota_checks.
  change (max_actions_per_day (set_history s h')) with (max_actions_per_day s).
  change (max_actions_per_hour (set_history s h')) with (max_actions_per_hour s).
  change (max_likes_per_hour (set_history s h')) with (max_likes_per_hour s).
  change (max_replies_per_hour (set_history s h'))
    with (max_replies_per_hour s).
  change (max_retweets_per_hour (set_history s h'))
    with (max_retweets_per_hour s).
  apply limit_stage; [exact G24|].
  apply limit_stage; [exact G1|].
  destruct (String.eqb ty "like") eqn:E1.
  { apply String.eqb_eq in E1. subst ty.
    apply (limit_stage _ _ _ (Ok true) (Ok true)); [exact GT|auto]. }
  destruct (String.eqb ty "reply") eqn:E2.
  { apply String.eqb_eq in E2. subst ty.
    apply (limit_stage _ _ _ (Ok true) (Ok true)); [exact GT|auto]. }
  destruct (String.eqb ty "retweet") eqn:E3.
  { apply String.eqb_eq in E3. subst ty.
    apply (limit_stage _ _ _ (Ok true) (Ok true)); [exact GT|auto]. }
  auto.
Qed.

Lemma checks_after_cooldown_monotone (s : RateLimiter) (now : Z) (g : Random)
    (ty : string) (h' : list pyval) :
  (forall hours filt, 1 <= hours -> filt = None \/ filt = Some ty ->
     grew (_get_actions_in_timeframe s now hours filt)
          (_get_actions_in_timeframe (set_history s h') now hours filt)) ->
  allowed (checks_after_cooldown s now g ty) = false ->
  allowed (checks_after_cooldown (set_history s h') now g ty) = false.
Proof.
  intros G. pose proof (quota_checks_monotone s now ty h' G) as Q.
  unfold checks_after_cooldown.
  change (quiet_periods (set_history s h')) with (quiet_periods s).
  destruct (quota_checks (set_history s h') now ty) as [[|]|e'];
    try (intros _; reflexivity).
  destruct (quota_checks s now ty) as [[|]|e].
  - destruct (quiet_loop (quiet_periods s) (hour_of now) g). auto.
  - exfalso. apply Q; [discriminate|reflexivity].
  - exfalso. apply Q; [discriminate|reflexivity].
Qed.

Lemma can_perform_action_monotone_gen (s : RateLimiter) (now : Z)
    (g : Random) (ty : string) (h' : list pyval) :
  (forall hours filt, 1 <= hours -> filt = None \/ filt = Some ty ->
     grew (_get_actions_in_timeframe s now hours filt)
          (_get_actions_in_timeframe (set_history s h') now hours filt)) ->
  allowed (can_perform_action s now g ty) = false ->
  allowed (can_perform_action (set_history s h') now g ty) = false.
Proof.
  intros G. unfold can_perform_action.
  change (consecutive_errors (set_history s h')) with (consecutive_errors s).
  change (last_error_time (set_history s h')) with (last_error_time s).
  change (set_errors (set_history s h') 0 (last_error_time s))
    with (set_history (set_errors s 0 (last_error_time s)) h').
  destruct (5 <=? consecutive_errors s)%nat.
  - destruct (last_error_time s) as [t|].
    + destruct (now - t <? cooldown_seconds * usec_per_second); [auto|].
      apply checks_after_cooldown_monotone. exact G.
    + apply checks_after_cooldown_monotone. exact G.
  - apply checks_after_cooldown_monotone. exact G.
Qed.

(** C4: monotonicity of [can_perform_action].  With the configuration, the
    error state, the clock reading and the random samples held fixed, a
    denial on a history stays a denial when records that qualify (newer than
    one hour, of the type asked about) are added to it: for every history
    when they are added at its end, and for every well-formed history within
    the capacity of the deque when they are appended the way the code
    appends, the oldest records leaving a full deque. *)
Theorem can_perform_action_monotone (s : RateLimiter) (now : Z) (g : Random)
    (action_type : string) (extra : list pyval) :
  forallb (qualifying now action_type) extra = true ->
  allowed (can_perform_action s now g action_type) = false ->
  allowed (can_perform_action
             (set_history s (actions_history s ++ extra))
             now g action_type) = false /\
  (forallb well_formed (actions_history s) = true ->
   len (actions_history s) <= maxlen ->
   allowed (can_perform_action
              (set_history s (deque_extend (actions_history s) extra))
              now g action_type) = false).
Proof.
  intros HE Hdeny. split.
  - apply can_perform_action_monotone_gen; [|exact Hdeny].
    intros hours filt Hh Hf. unfold _get_actions_in_timeframe.
    change (actions_history (set_history s (actions_history s ++ extra)))
      with (actions_history s ++ extra).
    eapply count_grew_app; eassumption.
  - intros Hwf Hlen.
    apply can_perform_action_monotone_gen; [|exact Hdeny].
    intros hours filt Hh Hf. unfold _get_actions_in_timeframe.
    change (actions_history
              (set_history s (deque_extend (actions_history s) extra)))
      with (deque_extend (actions_history s) extra).
    eapply count_grew_deque; eassumption.
Qed.

(* ================================================================== *)
(** ** The success flag *)

Lemma count_step_differ_in_success (c : Z) (ty : option string) (n : Z)
    (a a' : pyval) :
  differ_in_success a a' -> count_step c ty n a' = count_step c ty n a.
Proof.
  intros [-> | [v ->]]; [reflexivity|].
  destruct a as [| | | | | |l|d]; try reflexivity.
  unfold with_success, count_step, py_getitem.
  rewrite !dict_get_set_other by reflexivity. reflexivity.
Qed.

Lemma count_loop_differ_in_success (c : Z) (ty : option string) (n : Z)
    (l l' : list pyval) :
  Forall2 differ_in_success l l' -> count_loop c ty n l' = count_loop c ty n l.
Proof.
  intros F. revert n. induction F as [|a a' l l' Ha F IH]; intros n; simpl.
  - reflexivity.
  - rewrite (count_step_differ_in_success _ _ _ _ _ Ha).
    destruct (count_step c ty n a); simpl; auto.
Qed.

Lemma Forall2_refl_differ (l : list pyval) : Forall2 differ_in_success l l.
Proof. induction l; constructor; auto. now left. Qed.

Lemma Forall2_skipn {A : Type} (R : A -> A -> Prop) (k : nat) (l l' : list A) :
  Forall2 R l l' -> Forall2 R (skipn k l) (skipn k l').
Proof.
  intros F. revert k. induction F; intros [|k]; simpl; auto.
Qed.

Lemma Forall2_len {A : Type} (R : A -> A -> Prop) (l l' : list A) :
  Forall2 R l l' -> len l = len l'.
Proof. intros F. unfold len. now rewrite (Forall2_length F). Qed.

Lemma record_action_limiter `{DatetimeText} (s : RateLimiter) (w : World)
    (now : Z) (ty : string) (ok : bool) (md : pyval) :
  fst (record_action s w now ty ok md) =
  let action := PyDict [("type", PyStr ty); ("success", PyBool ok);
                        ("timestamp", PyDatetime now);
                        ("metadata", if truthy md then md else PyDict [])] in
  let s1 := set_history s (deque_append (actions_history s) action) in
  if ok then set_errors s1 0 None
  else set_errors s1 (S (consecutive_errors s)) (Some now).
Proof.
  unfold record_action. cbv zeta.
  destruct ok; cbn [negb];
    match goal with |- context [if ?c then (_, _) else _] => destruct c end;
    cbn [fst]; try reflexivity.
  all: unfold set_errors, set_history; cbn; f_equal; lia.
Qed.

Lemma quota_checks_same_counts (s s' : RateLimiter) (now : Z) (ty : string) :
  max_actions_per_day s' = max_actions_per_day s ->
  max_actions_per_hour s' = max_actions_per_hour s ->
  max_likes_per_hour s' = max_likes_per_hour s ->
  max_replies_per_hour s' = max_replies_per_hour s ->
  max_retweets_per_hour s' = max_retweets_per_hour s ->
  (forall hours filt, _get_actions_in_timeframe s' now hours filt =
                      _get_actions_in_timeframe s now hours filt) ->
  quota_checks s' now ty = quota_checks s now ty.
Proof.
  intros E1 E2 E3 E4 E5 C. unfold quota_checks.
  now rewrite E1, E2, E3, E4, E5, !C.
Qed.

(** C10: quota counting ignores the success flag.  Two histories that
    differ only in the values under [success] give the same count for every
    window and every type filter, hence the same daily, hourly and per-type
    verdict of the quota check; and whether [record_action] is told of a
    success or of a failure, every later count is the same. *)
Theorem quota_counting_ignores_success `{DatetimeText} (s : RateLimiter)
    (history' : list pyval) (now hours : Z) (filt : option string)
    (action_type : string) :
  Forall2 differ_in_success (actions_history s) history' ->
  _get_actions_in_timeframe (set_history s history') now hours filt =
    _get_actions_in_timeframe s now hours filt /\
  quota_checks (set_history s history') now action_type =
    quota_checks s now action_type /\
  (forall w t ty md,
     _get_actions_in_timeframe (fst (record_action s w t ty false md))
       now hours filt =
     _get_actions_in_timeframe (fst (record_action s w t ty true md))
       now hours filt).
Proof.
  intros F. split; [|split].
  - unfold _get_actions_in_timeframe.
    now apply count_loop_differ_in_success.
  - apply quota_checks_same_counts; try reflexivity.
    intros h fl. unfold _get_actions_in_timeframe.
    now apply count_loop_differ_in_success.
  - intros w t ty md. rewrite !record_action_limiter. cbv zeta.
    unfold _get_actions_in_timeframe.
    cbn [actions_history set_errors set_history].
    apply count_loop_differ_in_success.
    unfold deque_append, deque.
    rewrite !len_app. change (len [_]) with 1.
    apply Forall2_skipn. apply Forall2_app; [apply Forall2_refl_differ|].
    constructor; [|constructor]. right. exists (PyBool false). reflexivity.
Qed.

(* ================================================================== *)
(** ** Recording and the error state *)

Lemma record_action_fst_world `{DatetimeText} (s : RateLimiter) (w w' : World)
    (now : Z) (ty : string) (ok : bool) (md : pyval) :
  fst (record_action s w now ty ok md) = fst (record_action s w' now ty ok md).
Proof. now rewrite !record_action_limiter. Qed.

Lemma record_all_app `{DatetimeText} (s : RateLimiter) (w : World)
    (l1 l2 : list (Z * string * bool * pyval)) :
  record_all s w (l1 ++ l2) =
  record_all (fst (record_all s w l1)) (snd (record_all s w l1)) l2.
Proof.
  revert s w. induction l1 as [|[[[t ty] ok] md] l1 IH]; intros s w; simpl.
  - reflexivity.
  - destruct (record_action s w t ty ok md) as [s' w']. apply IH.
Qed.

Lemma record_failure_errors `{DatetimeText} (s : RateLimiter) (w : World)
    (t : Z) (ty : string) (md : pyval) :
  consecutive_errors (fst (record_action s w t ty false md)) =
    S (consecutive_errors s) /\
  last_error_time (fst (record_action s w t ty false md)) = Some t.
Proof. rewrite record_action_limiter. split; reflexivity. Qed.

Lemma record_failures_errors `{DatetimeText} (calls : list (Z * string * pyval))
    (s : RateLimiter) (w : World) :
  consecutive_errors (fst (record_all s w (map failed_call calls))) =
  (consecutive_errors s + List.length calls)%nat.
Proof.
  revert s w. induction calls as [|[[t ty] md] calls IH]; intros s w; simpl.
  - lia.
  - destruct (record_action s w t ty false md) as [s' w'] eqn:E.
    rewrite IH.
    pose proof (record_failure_errors s w t ty md) as [Hc _].
    rewrite E in Hc. simpl in Hc. lia.
Qed.

Lemma quiet_loop_outside (periods : list (Z * Z)) (hour : Z) (g : Random) :
  existsb (fun p => in_period (fst p) (snd p) hour) periods = false ->
  quiet_loop periods hour g = (true, g).
Proof.
  induction periods as [|[qs qe] periods IH]; simpl; [reflexivity|].
  intros H. apply orb_false_iff in H as [H1 H2].
  rewrite H1. auto.
Qed.

Lemma checks_after_cooldown_errors (s : RateLimiter) (now : Z) (g : Random)
    (ty : string) :
  limiter_after (checks_after_cooldown s now g ty) = s.
Proof.
  unfold checks_after_cooldown, limiter_after.
  destruct (quota_checks s now ty) as [[|]|e]; try reflexivity.
  now destruct (quiet_loop (quiet_periods s) (hour_of now) g).
Qed.

Lemma checks_after_cooldown_pass (s : RateLimiter) (now : Z) (g : Random)
    (ty : string) :
  quota_checks s now ty = Ok true ->
  allowed (checks_after_cooldown s now g ty) =
  fst (quiet_loop (quiet_periods s) (hour_of now) g).
Proof.
  intros Q. unfold checks_after_cooldown, allowed. rewrite Q.
  now destruct (quiet_loop (quiet_periods s) (hour_of now) g).
Qed.

(** C1: the error cooldown.  After five calls of [record_action] that report
    a failure in a row, the last of them at time [t]: while fewer than 30
    minutes have passed since [t], [can_perform_action] answers [False] for
    every action type and leaves the limiter as it is; from 30 minutes on it
    sets [consecutive_errors] to 0 and, when the daily, hourly and per-type
    limits are not reached and the quiet-period draw does not skip, answers
    [True]. *)
Theorem error_cooldown `{DatetimeText} (s : RateLimiter) (w : World)
    (calls : list (Z * string * pyval)) (t : Z) (ty : string) (md : pyval)
    (now : Z) (g : Random) (action_type : string) :
  List.length calls = 4%nat ->
  let s5 := fst (record_all s w (map failed_call (calls ++ [(t, ty, md)]))) in
  (now - t < minutes 30 ->
   can_perform_action s5 now g action_type = (false, s5, g)) /\
  (minutes 30 <= now - t ->
   consecutive_errors
     (limiter_after (can_perform_action s5 now g action_type)) = 0%nat /\
   (quota_checks s5 now action_type = Ok true ->
    fst (quiet_loop (quiet_periods s5) (hour_of now) g) = true ->
    allowed (can_perform_action s5 now g action_type) = true)).
Proof.
  intros Hlen s5.
  assert (Hce : (5 <=? consecutive_errors s5)%nat = true).
  { subst s5. rewrite record_failures_errors, length_app, Hlen.
    apply Nat.leb_le. cbn [List.length]. lia. }
  assert (Hlast : last_error_time s5 = Some t).
  { subst s5. rewrite map_app, record_all_app. simpl.
    destruct (record_all s w (map failed_call calls)) as [s4 w4]. simpl.
    pose proof (record_failure_errors s4 w4 t ty md) as [_ Hl].
    destruct (record_action s4 w4 t ty false md). exact Hl. }
  unfold can_perform_action. rewrite Hce, Hlast. split.
  - intros Hnow.
    order_true (now - t <? cooldown_seconds * usec_per_second).
    reflexivity.
  - intros Hnow.
    order_false (now - t <? cooldown_seconds * usec_per_second).
    split.
    + rewrite checks_after_cooldown_errors. reflexivity.
    + intros Q G. rewrite checks_after_cooldown_pass; [exact G|exact Q].
Qed.

(* ================================================================== *)
(** ** The per-type cap *)

Lemma can_perform_action_quota_denies (s : RateLimiter) (now : Z)
    (g : Random) (ty : string) :
  quota_checks s now ty <> Ok true ->
  allowed (can_perform_action s now g ty) = false.
Proof.
  intros Q.
  assert (C : forall s1, quota_checks s1 now ty = quota_checks s now ty ->
                         allowed (checks_after_cooldown s1 now g ty) = false).
  { intros s1 E. unfold checks_after_cooldown. rewrite E.
    destruct (quota_checks s now ty) as [[|]|e]; try reflexivity.
    now elim Q. }
  unfold can_perform_action.
  destruct (5 <=? consecutive_errors s)%nat; [|now apply C].
  destruct (last_error_time s) as [t|]; [|now apply C].
  destruct (now - t <? cooldown_seconds * usec_per_second);
    [reflexivity|now apply C].
Qed.

Lemma quota_checks_type_cap (s : RateLimiter) (now : Z) (ty : string)
    (cap n : Z) :
  type_cap s ty = Some cap ->
  _get_actions_in_timeframe s now 1 (Some ty) = Ok n ->
  cap <= n ->
  quota_checks s now ty <> Ok true.
Proof.
  unfold type_cap, quota_checks. intros Hcap Hn Hle.
  destruct (_get_actions_in_timeframe s now 24 None) as [d|e];
    cbn [bind]; [|discriminate].
  destruct (max_actions_per_day s <=? d); [discriminate|].
  destruct (_get_actions_in_timeframe s now 1 None) as [h|e];
    cbn [bind]; [|discriminate].
  destruct (max_actions_per_hour s <=? h); [discriminate|].
  assert (L : forall c, c = cap ->
            (k <- Ok n ;; if c <=? k then Ok false else Ok true) <> Ok true).
  { intros c ->. cbn [bind].
    replace (cap <=? n) with true by (symmetry; now apply Z.leb_le).
    discriminate. }
  destruct (String.eqb ty "like") eqn:E1.
  { apply String.eqb_eq in E1. subst ty. rewrite Hn. apply L. congruence. }
  destruct (String.eqb ty "reply") eqn:E2.
  { apply String.eqb_eq in E2. subst ty. rewrite Hn. apply L. congruence. }
  destruct (String.eqb ty "retweet") eqn:E3.
  { apply String.eqb_eq in E3. subst ty. rewrite Hn. apply L. congruence. }
  discriminate.
Qed.

(** The history of a limiter that started empty and recorded two likes. *)
Lemma two_likes_history `{DatetimeText} (s0 : RateLimiter) (w : World)
    (t0 : Z) (md1 md2 : pyval) :
  actions_history s0 = [] ->
  let s2 := fst (record_all s0 w [(t0, "like", true, md1);
                                  (t0, "like", true, md2)]) in
  actions_history s2 =
    [PyDict [("type", PyStr "like"); ("success", PyBool true);
             ("timestamp", PyDatetime t0);
             ("metadata", if truthy md1 then md1 else PyDict [])];
     PyDict [("type", PyStr "like"); ("success", PyBool true);
             ("timestamp", PyDatetime t0);
             ("metadata", if truthy md2 then md2 else PyDict [])]] /\
  consecutive_errors s2 = 0%nat /\
  max_actions_per_day s2 = max_actions_per_day s0 /\
  max_actions_per_hour s2 = max_actions_per_hour s0 /\
  max_likes_per_hour s2 = max_likes_per_hour s0 /\
  quiet_periods s2 = quiet_periods s0.
Proof.
  intros H0 s2. subst s2. cbn [record_all].
  destruct (record_action s0 w t0 "like" true md1) as [s1 w1] eqn:E1.
  destruct (record_action s1 w1 t0 "like" true md2) as [s2 w2] eqn:E2.
  cbn [fst].
  assert (F1 := record_action_limiter s0 w t0 "like" true md1).
  rewrite E1 in F1. cbn [fst] in F1. cbv zeta in F1.
  assert (F2 := record_action_limiter s1 w1 t0 "like" true md2).
  rewrite E2 in F2. cbn [fst] in F2. cbv zeta in F2.
  rewrite F2, F1. cbn [actions_history set_errors set_history
    consecutive_errors max_actions_per_day max_actions_per_hour
    max_likes_per_hour quiet_periods]. rewrite H0.
  repeat split; reflexivity.
Qed.

Lemma count_recorded (c : Z) (filt : option string) (n : Z) (ty : string)
    (b md : pyval) (t : Z) :
  count_step c filt n
    (PyDict [("type", PyStr ty); ("success", b);
             ("timestamp", PyDatetime t); ("metadata", md)]) =
  Ok (if c <? t
      then match filt with
           | None => n + 1
           | Some want => if String.eqb ty want then n + 1 else n
           end
      else n).
Proof.
  unfold count_step, py_getitem. cbn [dict_get String.eqb Ascii.eqb Bool.eqb].
  cbn [bind py_gt_datetime]. destruct (c <? t); [|reflexivity].
  destruct filt as [want|]; [|reflexivity].
  cbn [dict_get String.eqb Ascii.eqb Bool.eqb bind py_eq_str].
  destruct (String.eqb ty want); reflexivity.
Qed.

(** C3: the per-type hourly cap.  For a tracked sub-type (like, reply,
    retweet), [can_perform_action] counts the records of that sub-type newer
    than one hour — on a well-formed history, the records whose type is the
    sub-type and whose timestamp is after [now] minus one hour — and answers
    [False] when the count has reached the cap of the sub-type.  In the
    scenario, a limiter with [max_likes_per_hour = 2], larger overall limits
    and an empty history records two successful likes at [t0]: asked about a
    like ten minutes later it answers [False]; asked 61 minutes later only
    the quiet-period draw is left to decide, so outside the quiet periods it
    answers [True]. *)
Theorem per_type_hourly_cap `{DatetimeText} :
  (forall s now g ty cap n,
     type_cap s ty = Some cap ->
     _get_actions_in_timeframe s now 1 (Some ty) = Ok n ->
     cap <= n ->
     allowed (can_perform_action s now g ty) = false) /\
  (forall s now ty,
     forallb well_formed (actions_history s) = true ->
     _get_actions_in_timeframe s now 1 (Some ty) =
     Ok (len (filter (counts_in (now - timedelta_hours 1) (Some ty))
                (actions_history s)))) /\
  (forall s0 w t0 md1 md2 g,
     actions_history s0 = [] ->
     max_likes_per_hour s0 = 2 ->
     2 < max_actions_per_hour s0 ->
     2 < max_actions_per_day s0 ->
     let s2 := fst (record_all s0 w [(t0, "like", true, md1);
                                     (t0, "like", true, md2)]) in
     allowed (can_perform_action s2 (t0 + minutes 10) g "like") = false /\
     allowed (can_perform_action s2 (t0 + minutes 61) g "like") =
       fst (quiet_loop (quiet_periods s0) (hour_of (t0 + minutes 61)) g) /\
     (_is_in_quiet_period s0 (t0 + minutes 61) = false ->
      allowed (can_perform_action s2 (t0 + minutes 61) g "like") = true)).
Proof.
  split; [|split].
  - intros s now g ty cap n Hcap Hn Hle.
    apply can_perform_action_quota_denies.
    eapply quota_checks_type_cap; eassumption.
  - intros s now ty Hwf. unfold _get_actions_in_timeframe.
    now rewrite count_loop_well_formed.
  - intros s0 w t0 md1 md2 g H0 Hlikes Hhour Hday s2.
    destruct (two_likes_history s0 w t0 md1 md2 H0)
      as (Hh & Hce & Hd & Hm & Hl & Hq).
    fold s2 in Hh, Hce, Hd, Hm, Hl, Hq.
    assert (C : forall now hours filt,
              _get_actions_in_timeframe s2 now hours filt =
              Ok (if now - timedelta_hours hours <? t0
                  then match filt with
                       | None => 2
                       | Some want => if String.eqb "like" want then 2 else 0
                       end
                  else 0)).
    { intros now hours filt. unfold _get_actions_in_timeframe. rewrite Hh.
      cbn [count_loop]. rewrite count_recorded. cbn [bind].
      rewrite count_recorded.
      destruct (now - timedelta_hours hours <? t0); [|reflexivity].
      destruct filt as [want|]; [|reflexivity].
      destruct (String.eqb "like" want); reflexivity. }
    assert (Q10 : quota_checks s2 (t0 + minutes 10) "like" = Ok false).
    { unfold quota_checks. rewrite !C, Hd, Hm, Hl, Hlikes.
      order_true (t0 + minutes 10 - timedelta_hours 24 <? t0).
      order_true (t0 + minutes 10 - timedelta_hours 1 <? t0).
      cbn [bind String.eqb Ascii.eqb Bool.eqb].
      order_false (max_actions_per_day s0 <=? 2).
      order_false (max_actions_per_hour s0 <=? 2).
      reflexivity. }
    assert (Q61 : quota_checks s2 (t0 + minutes 61) "like" = Ok true).
    { unfold quota_checks. rewrite !C, Hd, Hm, Hl, Hlikes.
      order_true (t0 + minutes 61 - timedelta_hours 24 <? t0).
      order_false (t0 + minutes 61 - timedelta_hours 1 <? t0).
      cbn [bind String.eqb Ascii.eqb Bool.eqb].
      order_false (max_actions_per_day s0 <=? 2).
      order_false (max_actions_per_hour s0 <=? 0).
      reflexivity. }
    assert (A61 : allowed (can_perform_action s2 (t0 + minutes 61) g "like") =
                  fst (quiet_loop (quiet_periods s0)
                         (hour_of (t0 + minutes 61)) g)).
    { unfold can_perform_action. rewrite Hce. cbn [Nat.leb].
      rewrite checks_after_cooldown_pass by exact Q61. now rewrite Hq. }
    split; [|split].
    + apply can_perform_action_quota_denies. rewrite Q10. discriminate.
    + exact A61.
    + intros Hquiet. rewrite A61.
      unfold _is_in_quiet_period in Hquiet.
      now rewrite (quiet_loop_outside _ _ g Hquiet).
Qed.

(* ================================================================== *)
(** ** The activity pattern *)

(** C2: the generated daily pattern.  Every entry is the table value of its
    hour times a factor [0.8 + r * 0.4] for the sample [r] of that hour, a
    factor inside [[0.8, 1.2]]; the table agrees with the specification's on
    the hours 6 to 22; on the night hours 23 and 0 to 5 the test
    [23 <= hour <= 5] never holds, and the table gives the baseline 1.0
    where the specification has 0.3. *)
Theorem generated_pattern_night_hours (g : Random) :
  fst (_generate_daily_pattern g) =
    map (fun h => (base_multiplier (Z.of_nat h)
                   * (0.8 + sample g (h + cursor g) * 0.4))%Q) (seq 0 24) /\
  Forall (fun r => (0 <= r /\ r < 1 -> 0.8 <= 0.8 + r * 0.4 <= 1.2)%Q)
    (map (fun h => sample g (h + cursor g)) (seq 0 24)) /\
  Forall (fun h => base_multiplier h = base_multiplier_spec h)
    (map Z.of_nat (seq 6 17)) /\
  Forall (fun h => base_multiplier h = 1.0%Q /\
                   base_multiplier_spec h = 0.3%Q)
    [23; 0; 1; 2; 3; 4; 5].
Proof.
  split; [reflexivity|]. split; [|split].
  - apply Forall_forall. intros r _ [H0 H1]. split; lra.
  - repeat constructor.
  - repeat constructor.
Qed.

(* ================================================================== *)
(** ** Pacing *)

Lemma Qgtb_lt (a b : Q) : Qgtb a b = true <-> (b < a)%Q.
Proof.
  unfold Qgtb. rewrite negb_true_iff. split.
  - intros H. apply Qnot_le_lt. intros L.
    apply Qle_bool_iff in L. congruence.
  - intros H. destruct (Qle_bool a b) eqn:E; [|reflexivity].
    apply Qle_bool_iff in E. exfalso. apply (Qlt_not_le _ _ H E).
Qed.

Lemma Qltb_lt (a b : Q) : Qltb a b = true <-> (a < b)%Q.
Proof. unfold Qltb. apply (Qgtb_lt b a). Qed.

Lemma py_max_lower (a b : Q) : (a <= py_max a b)%Q.
Proof. unfold py_max. destruct (Qlt_le_dec a b); lra. Qed.

Lemma py_min_upper (a b : Q) : (py_min a b <= a)%Q.
Proof. unfold py_min. destruct (Qlt_le_dec b a); lra. Qed.

Lemma load_factor_cases (n cap : Z) :
  ((inject_Z cap * 0.8 < inject_Z n)%Q -> load_factor n cap = 1.5%Q) /\
  (~ (inject_Z cap * 0.8 < inject_Z n)%Q ->
   (inject_Z n < inject_Z cap * 0.2)%Q -> load_factor n cap = 0.7%Q) /\
  (~ (inject_Z cap * 0.8 < inject_Z n)%Q ->
   ~ (inject_Z n < inject_Z cap * 0.2)%Q -> load_factor n cap = 1.0%Q).
Proof.
  unfold load_factor.
  destruct (Qgtb (inject_Z n) (inject_Z cap * 0.8)) eqn:E1.
  - apply Qgtb_lt in E1. repeat split; intros; first [contradiction|reflexivity].
  - assert (N1 : ~ (inject_Z cap * 0.8 < inject_Z n)%Q).
    { intros L. apply Qgtb_lt in L. congruence. }
    destruct (Qltb (inject_Z n) (inject_Z cap * 0.2)) eqn:E2.
    + apply Qltb_lt in E2.
      repeat split; intros; first [contradiction|reflexivity].
    + assert (N2 : ~ (inject_Z n < inject_Z cap * 0.2)%Q).
      { intros L. apply Qltb_lt in L. congruence. }
      repeat split; intros; first [contradiction|reflexivity].
Qed.

(** C7, as the code has it: the load factor is 1.5 when the last-hour
    count is strictly above 80% of the hourly cap, 0.7 when it is below 20%
    of the cap, and 1.0 otherwise; the configured between-actions bounds
    are multiplied by it and by 2.0 minus the activity multiplier; the
    lower bound of the range is at least 10 seconds and the upper bound at
    most 1800 seconds; and when the scaled lower bound is at most 1800
    seconds and the scaled upper bound at least 10 seconds, the range is
    the scaled bounds clamped into [[10, 1800]], as the specification
    words it. *)
Theorem dynamic_delay_range (s : RateLimiter) (now : Z) (am : Q) (n : Z) :
  _get_current_activity_multiplier s now = Ok am ->
  _get_actions_in_timeframe s now 1 None = Ok n ->
  let cap := max_actions_per_hour s in
  let m := (load_factor n cap * (2.0 - am))%Q in
  let scaled_min := (fst (delay_between_actions s) * m)%Q in
  let scaled_max := (snd (delay_between_actions s) * m)%Q in
  ((inject_Z cap * 0.8 < inject_Z n)%Q -> load_factor n cap = 1.5%Q) /\
  (~ (inject_Z cap * 0.8 < inject_Z n)%Q ->
   (inject_Z n < inject_Z cap * 0.2)%Q -> load_factor n cap = 0.7%Q) /\
  (~ (inject_Z cap * 0.8 < inject_Z n)%Q ->
   ~ (inject_Z n < inject_Z cap * 0.2)%Q -> load_factor n cap = 1.0%Q) /\
  exists lo hi,
    _calculate_dynamic_delay s now = Ok (lo, hi) /\
    (10 <= lo)%Q /\ (hi <= 1800)%Q /\
    ((scaled_min <= 1800)%Q -> (10 <= scaled_max)%Q ->
     (lo == clamp 10 1800 scaled_min)%Q /\
     (hi == clamp 10 1800 scaled_max)%Q /\
     (lo <= 1800)%Q /\ (10 <= hi)%Q).
Proof.
  intros Ham Hn cap m scaled_min scaled_max.
  pose proof (load_factor_cases n cap) as (L1 & L2 & L3).
  split; [exact L1|]. split; [exact L2|]. split; [exact L3|].
  exists (py_max 10 scaled_min), (py_min 1800 scaled_max).
  split; [|split; [apply py_max_lower|split; [apply py_min_upper|]]].
  - unfold _calculate_dynamic_delay. subst scaled_min scaled_max m cap.
    destruct (delay_between_actions s) as [base_min base_max].
    rewrite Ham, Hn. reflexivity.
  - clearbody scaled_min scaled_max.
    intros Hmin Hmax. unfold clamp, py_max, py_min.
    destruct (Qlt_le_dec scaled_min 1800), (Qlt_le_dec scaled_max 1800).
    all: repeat match goal with
           | |- context [Qlt_le_dec ?a ?b] => destruct (Qlt_le_dec a b)
           end; repeat split; lra.
Qed.

Lemma record_action_delay_after_error `{DatetimeText} (s : RateLimiter)
    (w : World) (t : Z) (ty : string) (ok : bool) (md : pyval) :
  delay_after_error (fst (record_action s w t ty ok md)) = delay_after_error s.
Proof. rewrite record_action_limiter. now destruct ok. Qed.

Lemma record_all_delay_after_error `{DatetimeText}
    (calls : list (Z * string * bool * pyval)) (s : RateLimiter) (w : World) :
  delay_after_error (fst (record_all s w calls)) = delay_after_error s.
Proof.
  revert s w. induction calls as [|[[[t ty] ok] md] calls IH]; intros s w.
  - reflexivity.
  - simpl. pose proof (record_action_delay_after_error s w t ty ok md) as E.
    destruct (record_action s w t ty ok md) as [s' w']. rewrite IH. exact E.
Qed.

(** C6: the backoff of [wait_after_error].  Both configured [after_error]
    bounds are scaled by 1 + 0.5 times [consecutive_errors], and the delay
    is drawn between the scaled bounds; after exactly three failures in a
    row both bounds are the configured ones times 2.5, strictly larger than
    the configured ones when those are positive. *)
Theorem wait_after_error_scaling `{DatetimeText} (s : RateLimiter) (w : World)
    (calls : list (Z * string * pyval)) (g : Random) :
  let base_min := fst (delay_after_error s) in
  let base_max := snd (delay_after_error s) in
  let errors := inject_Z (Z.of_nat (consecutive_errors s)) in
  let lo := fst (error_delay_range s) in
  let hi := snd (error_delay_range s) in
  let delay := fst (fst (wait_after_error s g)) in
  (lo == base_min * (1 + 0.5 * errors) /\
   hi == base_max * (1 + 0.5 * errors))%Q /\
  (delay == lo + (hi - lo) * sample g (cursor g))%Q /\
  (unit_samples g -> lo <= hi -> lo <= delay /\ delay <= hi)%Q /\
  (consecutive_errors s = 0%nat ->
   List.length calls = 3%nat ->
   let s3 := fst (record_all s w (map failed_call calls)) in
   (fst (error_delay_range s3) == base_min * 2.5 /\
    snd (error_delay_range s3) == base_max * 2.5 /\
    (0 < base_min -> base_min < fst (error_delay_range s3)) /\
    (0 < base_max -> base_max < snd (error_delay_range s3)))%Q).
Proof.
  intros base_min base_max errors lo hi delay.
  assert (Hd : (delay == lo + (hi - lo) * sample g (cursor g))%Q).
  { subst delay lo hi. unfold wait_after_error.
    destruct (error_delay_range s) as [a b]. cbn [fst snd].
    unfold random_uniform, random_random.
    destruct (human_like_delay _ _ _). cbn [fst]. reflexivity. }
  split; [|split; [exact Hd|split]].
  - subst lo hi base_min base_max errors. unfold error_delay_range.
    destruct (delay_after_error s) as [a b]. cbn [fst snd]. split; ring.
  - intros Hu Hle. destruct (Hu (cursor g)) as [H0 H1].
    rewrite Hd. split; nra.
  - intros H0 Hlen s3.
    assert (He : consecutive_errors s3 = 3%nat).
    { subst s3. rewrite record_failures_errors, H0, Hlen. reflexivity. }
    assert (Hb : delay_after_error s3 = delay_after_error s).
    { subst s3. apply record_all_delay_after_error. }
    unfold error_delay_range. rewrite He, Hb. subst base_min base_max.
    destruct (delay_after_error s) as [a b]. cbn [fst snd].
    change (inject_Z (Z.of_nat 3)) with 3%Q.
    repeat split; try ring; intros; lra.
Qed.

(** Against C7 as worded.  The boundary of the load factor: with eight
    actions in the last hour against a cap of ten, exactly 80% of it, the
    code keeps the factor 1.0 and the range (60, 600), where the
    specification's wording gives the factor 1.5 and the range
    (90, 900). *)
Lemma dynamic_delay_counterexample :
  _get_actions_in_timeframe eight_of_ten (minutes 10) 1 None = Ok 8 /\
  max_actions_per_hour eight_of_ten = 10 /\
  _get_current_activity_multiplier eight_of_ten (minutes 10) = Ok 1%Q /\
  load_factor 8 10 = 1.0%Q /\
  load_factor_spec 8 10 = 1.5%Q /\
  exists lo hi,
    _calculate_dynamic_delay eight_of_ten (minutes 10) = Ok (lo, hi) /\
    (lo == 60)%Q /\ (hi == 600)%Q /\
    (fst (dynamic_delay_spec eight_of_ten 8 1) == 90)%Q /\
    (snd (dynamic_delay_spec eight_of_ten 8 1) == 900)%Q /\
    ~ (lo == fst (dynamic_delay_spec eight_of_ten 8 1))%Q /\
    ~ (hi == snd (dynamic_delay_spec eight_of_ten 8 1))%Q.
Proof.
  split; [reflexivity|]. split; [reflexivity|]. split; [reflexivity|].
  split; [reflexivity|]. split; [reflexivity|].
  eexists. eexists. split; [vm_compute; reflexivity|].
  repeat split; try reflexivity; vm_compute; discriminate.
Qed.

(** Outside the documented range of the activity multiplier, 0.0 to 2.0:
    an evening entry of the pattern is 1.8 times up to 1.2, and on the
    default limiter at six in the evening of a Thursday it is above 2.0;
    the factor 2.0 minus the multiplier is then negative, and so is the
    upper bound of the range, below the lower bound. *)
Lemma evening_multiplier_above_two :
  exists am lo hi,
    _get_current_activity_multiplier default_limiter thursday_evening = Ok am /\
    (2 < am)%Q /\
    _calculate_dynamic_delay default_limiter thursday_evening = Ok (lo, hi) /\
    (hi < 0)%Q /\ (hi < lo)%Q.
Proof.
  eexists. eexists. eexists.
  split; [vm_compute; reflexivity|]. split; [reflexivity|].
  split; [vm_compute; reflexivity|]. split; reflexivity.
Qed.

(* ================================================================== *)
(** ** Saving *)

Lemma json_serialisable_dict (d : list (string * pyval)) :
  json_serialisable (PyDict d) = dict_serialisable d.
Proof.
  unfold dict_serialisable.
  induction d as [|[k v] d IH]; [reflexivity|].
  cbn [forallb snd]. rewrite <- IH. reflexivity.
Qed.

Lemma dict_serialisable_set (d : list (string * pyval)) (k : string)
    (v1 v2 : pyval) :
  dict_serialisable (dict_set d k v1) = true ->
  json_serialisable v2 = true ->
  dict_serialisable (dict_set d k v2) = true.
Proof.
  unfold dict_serialisable. intros H1 H2.
  induction d as [|[k' v'] d IH]; simpl in *.
  - now rewrite H2.
  - destruct (String.eqb k' k); simpl in *.
    + apply andb_true_iff in H1 as [_ H1]. now rewrite H2, H1.
    + apply andb_true_iff in H1 as [Hv H1]. now rewrite Hv, IH.
Qed.

Lemma save_loop_has_timestamp `{DatetimeText} (l : list pyval) :
  forallb has_timestamp l = true -> save_loop l = Ok (map persisted l).
Proof.
  induction l as [|a l IH]; simpl; [reflexivity|].
  intros H'. apply andb_true_iff in H' as [Ha Hl]. rewrite (IH Hl).
  dict_case a d.
  unfold has_timestamp in Ha. unfold persisted, py_copy, py_getitem.
  cbn [bind]. destruct (dict_get d "timestamp") as [v|]; [|discriminate].
  cbn [bind]. destruct v; reflexivity.
Qed.

(** With a timestamp in every action, saving reaches the write. *)
Lemma save_writes `{DatetimeText} (s : RateLimiter) (w : World) (now : Z) :
  forallb has_timestamp (actions_history s) = true ->
  writes (_save_actions_history s w now) = actions_log_file s :: writes w.
Proof.
  intros Hts. unfold _save_actions_history.
  rewrite (save_loop_has_timestamp _ Hts). unfold save_json_file.
  match goal with |- context [if ?c then _ else _] => destruct c end;
    reflexivity.
Qed.

Lemma forallb_impl {A : Type} (f g : A -> bool) (l : list A) :
  (forall a, f a = true -> g a = true) ->
  forallb f l = true -> forallb g l = true.
Proof.
  intros Hfg Hf. apply forallb_forall. intros x Hx. apply Hfg.
  revert x Hx. now apply forallb_forall.
Qed.

Lemma storable_encodable (a : pyval) :
  storable a = true -> encodable a = true.
Proof.
  dict_case a d. unfold storable, encodable.
  now destruct (dict_get d "timestamp") as [[| | | |t| | |]|].
Qed.

Lemma storable_naive_dated (a : pyval) :
  storable a = true -> naive_dated a = true.
Proof.
  dict_case a d. unfold storable, naive_dated.
  now destruct (dict_get d "timestamp") as [[| | | |t| | |]|].
Qed.

Lemma encodable_has_timestamp (l : list pyval) :
  forallb encodable l = true -> forallb has_timestamp l = true.
Proof.
  apply forallb_impl. intros a. dict_case a d.
  unfold encodable, has_timestamp.
  destruct (dict_get d "timestamp"); [reflexivity|discriminate].
Qed.

Lemma persisted_serialisable `{DatetimeText} (l : list pyval) :
  forallb encodable l = true ->
  forallb json_serialisable (map persisted l) = true.
Proof.
  induction l as [|a l IH]; simpl; [reflexivity|].
  intros H'. apply andb_true_iff in H' as [Ha Hl]. rewrite (IH Hl).
  rewrite andb_true_r.
  dict_case a d.
  unfold encodable in Ha. unfold persisted.
  destruct (dict_get d "timestamp") as [[| | | |t| | |]|]; try discriminate;
    rewrite json_serialisable_dict in *;
    (eapply dict_serialisable_set; [exact Ha|reflexivity]).
Qed.

(** An action as [record_action] builds it is storable exactly when its
    metadata is accepted by [json.dump]. *)
Lemma recorded_action_storable (ty : string) (ok : bool) (t : Z)
    (md : pyval) :
  storable (PyDict [("type", PyStr ty); ("success", PyBool ok);
                    ("timestamp", PyDatetime t); ("metadata", md)])
  = json_serialisable md.
Proof.
  unfold storable. cbn [dict_get dict_set String.eqb Ascii.eqb Bool.eqb].
  rewrite json_serialisable_dict. unfold dict_serialisable.
  cbn [forallb snd json_serialisable]. now rewrite andb_true_r.
Qed.

(** What a save leaves in the log file when [json.dump] accepts every
    action of the history once its datetime is text. *)
Lemma save_encodable `{DatetimeText} (s : RateLimiter) (w : World) (now : Z) :
  forallb encodable (actions_history s) = true ->
  fs (_save_actions_history s w now) (actions_log_file s) =
  Json (PyDict [("actions", PyList (map persisted (actions_history s)));
                ("last_updated", PyStr (get_current_timestamp now));
                ("total_actions",
                 PyInt (len (map persisted (actions_history s))))]).
Proof.
  intros Hst. unfold _save_actions_history.
  rewrite (save_loop_has_timestamp _ (encodable_has_timestamp _ Hst)).
  unfold save_json_file.
  match goal with |- context [if ?c then _ else _] => replace c with true end.
  - cbn [snd fs]. unfold fs_put. now rewrite String.eqb_refl.
  - symmetry. cbn [json_serialisable].
    rewrite (persisted_serialisable _ Hst). reflexivity.
Qed.

(* ================================================================== *)
(** ** When recording saves *)

Lemma record_action_append `{DatetimeText} (s : RateLimiter) (w : World)
    (now : Z) (ty : string) (ok : bool) (md : pyval) :
  actions_history (fst (record_action s w now ty ok md)) =
  deque_append (actions_history s)
    (PyDict [("type", PyStr ty); ("success", PyBool ok);
             ("timestamp", PyDatetime now);
             ("metadata", if truthy md then md else PyDict [])]).
Proof. rewrite record_action_limiter. now destruct ok. Qed.

Lemma record_action_log_file `{DatetimeText} (s : RateLimiter) (w : World)
    (now : Z) (ty : string) (ok : bool) (md : pyval) :
  actions_log_file (fst (record_action s w now ty ok md)) = actions_log_file s.
Proof. rewrite record_action_limiter. now destruct ok. Qed.

(** The world after [record_action]: saved when the length of the history
    after the append is a multiple of ten. *)
Lemma record_action_world `{DatetimeText} (s : RateLimiter) (w : World)
    (now : Z) (ty : string) (ok : bool) (md : pyval) :
  let s' := fst (record_action s w now ty ok md) in
  snd (record_action s w now ty ok md) =
  if len (actions_history s') mod 10 =? 0
  then _save_actions_history s' w now
  else w.
Proof.
  unfold record_action. cbv zeta.
  match goal with |- context [if ?c then (_, _) else _] => destruct c eqn:E end;
    cbn [fst snd]; rewrite E; reflexivity.
Qed.

Lemma record_action_below_capacity `{DatetimeText} (s : RateLimiter)
    (w : World) (now : Z) (ty : string) (ok : bool) (md : pyval) :
  forallb has_timestamp (actions_history s) = true ->
  len (actions_history s) < maxlen ->
  let action := PyDict [("type", PyStr ty); ("success", PyBool ok);
                        ("timestamp", PyDatetime now);
                        ("metadata", if truthy md then md else PyDict [])] in
  let s' := fst (record_action s w now ty ok md) in
  let w' := snd (record_action s w now ty ok md) in
  actions_history s' = actions_history s ++ [action] /\
  forallb has_timestamp (actions_history s') = true /\
  ((len (actions_history s) + 1) mod 10 = 0 ->
   writes w' = actions_log_file s :: writes w) /\
  ((len (actions_history s) + 1) mod 10 <> 0 -> w' = w).
Proof.
  intros Hts Hroom action s' w'.
  assert (Hh : actions_history s' = actions_history s ++ [action]).
  { subst s'. rewrite record_action_append. now apply deque_append_room. }
  assert (Hts' : forallb has_timestamp (actions_history s') = true).
  { rewrite Hh, forallb_app, Hts. reflexivity. }
  assert (Hlen : len (actions_history s') = len (actions_history s) + 1).
  { rewrite Hh, len_app. reflexivity. }
  split; [exact Hh|]. split; [exact Hts'|].
  subst w'. rewrite record_action_world. cbv zeta. fold s'. rewrite Hlen.
  split; intros Hmod.
  - rewrite Hmod. cbn [Z.eqb]. rewrite save_writes by exact Hts'.
    subst s'. now rewrite record_action_log_file.
  - apply Z.eqb_neq in Hmod. now rewrite Hmod.
Qed.

Lemma div10_step (m : Z) :
  (m + 1) / 10 = m / 10 + (if (m + 1) mod 10 =? 0 then 1 else 0).
Proof.
  destruct ((m + 1) mod 10 =? 0) eqn:E.
  - apply Z.eqb_eq in E. Z.div_mod_to_equations. lia.
  - apply Z.eqb_neq in E. Z.div_mod_to_equations. lia.
Qed.

Lemma record_all_saves `{DatetimeText}
    (calls : list (Z * string * bool * pyval)) (s : RateLimiter) (w : World) :
  forallb has_timestamp (actions_history s) = true ->
  len (actions_history s) + len calls <= maxlen ->
  len (writes (snd (record_all s w calls))) =
  len (writes w)
  + ((len (actions_history s) + len calls) / 10 - len (actions_history s) / 10).
Proof.
  revert s w. induction calls as [|[[[t ty] ok] md] calls IH]; intros s w Hts Hcap.
  - cbn [record_all snd]. change (len []) with 0.
    rewrite Z.add_0_r. lia.
  - cbn [record_all].
    rewrite len_cons in *. pose proof (len_nonneg calls) as Hnn.
    destruct (record_action_below_capacity s w t ty ok md Hts ltac:(lia))
      as (Hh & Hts' & Hsave & Hskip).
    destruct (record_action s w t ty ok md) as [s' w'] eqn:E.
    cbn [fst snd] in *.
    assert (Hlen : len (actions_history s') = len (actions_history s) + 1).
    { rewrite Hh, len_app. reflexivity. }
    rewrite IH by (try assumption; lia). rewrite Hlen.
    replace (len (actions_history s) + 1 + len calls)
      with (len (actions_history s) + (1 + len calls)) by lia.
    rewrite (div10_step (len (actions_history s))).
    destruct ((len (actions_history s) + 1) mod 10 =? 0) eqn:Em.
    + apply Z.eqb_eq in Em. rewrite (Hsave Em).
      rewrite len_cons. lia.
    + apply Z.eqb_neq in Em. rewrite (Hskip Em). lia.
Qed.



(* ================================================================== *)
(** ** Loading *)

Lemma deque_extend_room (l h0 : list pyval) :
  len h0 + len l <= maxlen -> deque_extend h0 l = h0 ++ l.
Proof.
  revert h0. induction l as [|x l IH]; intros h0 Hcap.
  - simpl. now rewrite app_nil_r.
  - rewrite len_cons in Hcap. pose proof (len_nonneg l).
    unfold deque_extend in *. cbn [fold_left].
    rewrite deque_append_room by lia.
    rewrite IH.
    + now rewrite <- app_assoc.
    + rewrite len_app. change (len [x]) with 1. lia.
Qed.

Lemma filter_len_le {A : Type} (f : A -> bool) (l : list A) :
  len (filter f l) <= len l.
Proof.
  induction l as [|a l IH]; simpl; [lia|].
  destruct (f a); rewrite ?len_cons; lia.
Qed.

Lemma revived_len `{DatetimeText} (l : list pyval) : len (revived l) <= len l.
Proof.
  induction l as [|a l IH]; [simpl; lia|].
  unfold revived in *. cbn [flat_map]. rewrite len_app, len_cons.
  destruct (revive a); [change (len [p]) with 1|change (len []) with 0]; lia.
Qed.

Lemma revive_dated `{DatetimeText} (a a' : pyval) :
  revive a = Some a' -> dated a' = true.
Proof.
  dict_case a d.
  unfold revive. destruct (dict_get d "timestamp") as [v|]; [|discriminate].
  destruct (truthy v); [|discriminate].
  destruct (parse_timestamp v) as [[t|t o]|]; [| |discriminate];
    intros [= <-]; unfold dated; now rewrite dict_get_set_same.
Qed.

Lemma revived_dated `{DatetimeText} (l : list pyval) :
  forallb dated (revived l) = true.
Proof.
  induction l as [|a l IH]; [reflexivity|].
  unfold revived in *. cbn [flat_map]. rewrite forallb_app, IH, andb_true_r.
  destruct (revive a) as [a'|] eqn:E; [|reflexivity].
  cbn [forallb]. now rewrite (revive_dated _ _ E).
Qed.

(** The clean-up on naive timestamps keeps the retention window. *)
Lemma retain_recent_naive (now : Z) (l : list pyval) :
  forallb naive_dated l = true ->
  retain_recent (now - timedelta_days 7) l = Ok (filter (retained now) l).
Proof.
  induction l as [|a l IH]; [reflexivity|].
  cbn [forallb]. intros H. apply andb_true_iff in H as [Ha Hl].
  cbn [retain_recent filter]. rewrite (IH Hl).
  dict_case a d.
  unfold naive_dated in Ha. unfold py_getitem, retained.
  destruct (dict_get d "timestamp") as [[| | | |t| | |]|]; try discriminate.
  cbn [bind py_gt_datetime].
  destruct (now - timedelta_days 7 <? t); reflexivity.
Qed.

(** With an aware timestamp among dated actions the comparison with the
    naive cutoff raises. *)
Lemma retain_recent_aware (cutoff : Z) (l : list pyval) :
  forallb dated l = true -> forallb naive_dated l = false ->
  retain_recent cutoff l = Raise TypeError.
Proof.
  induction l as [|a l IH]; [discriminate|].
  cbn [forallb]. intros Hd Hn. apply andb_true_iff in Hd as [Ha Hl].
  cbn [retain_recent]. dict_case a d.
  unfold dated in Ha. unfold naive_dated at 1 in Hn. unfold py_getitem.
  destruct (dict_get d "timestamp") as [[| | | |t|t o| |]|]; try discriminate.
  - cbn [bind py_gt_datetime]. cbn [andb] in Hn. now rewrite (IH Hl Hn).
  - reflexivity.
Qed.

Lemma cleaned_up_naive (now : Z) (l : list pyval) :
  forallb naive_dated l = true -> cleaned_up now l = filter (retained now) l.
Proof. intros Hn. unfold cleaned_up. now rewrite Hn. Qed.

Lemma cleaned_up_aware (now : Z) (l : list pyval) :
  forallb naive_dated l = false -> cleaned_up now l = l.
Proof. intros Hn. unfold cleaned_up. now rewrite Hn. Qed.

Lemma cleaned_up_len (now : Z) (l : list pyval) :
  len (cleaned_up now l) <= len l.
Proof.
  unfold cleaned_up. destruct (forallb naive_dated l); [|lia].
  apply filter_len_le.
Qed.

Lemma cleaned_up_forallb (f : pyval -> bool) (now : Z) (l : list pyval) :
  forallb f l = true -> forallb f (cleaned_up now l) = true.
Proof.
  intros Hf. unfold cleaned_up. destruct (forallb naive_dated l); [|exact Hf].
  apply forallb_forall. intros x Hx. apply filter_In in Hx as [Hx _].
  revert x Hx. now apply forallb_forall.
Qed.

Lemma cleaned_up_In (now : Z) (l : list pyval) (a : pyval) :
  In a l -> retained now a = true \/ naive_dated a = false ->
  In a (cleaned_up now l).
Proof.
  intros Hin Ha. unfold cleaned_up.
  destruct (forallb naive_dated l) eqn:E; [|exact Hin].
  apply filter_In. split; [exact Hin|].
  destruct Ha as [Ha|Ha]; [exact Ha|].
  rewrite forallb_forall in E. rewrite (E a Hin) in Ha. discriminate.
Qed.

Lemma cleaned_up_twice (now : Z) (l : list pyval) :
  cleaned_up now (cleaned_up now l) = cleaned_up now l.
Proof.
  destruct (forallb naive_dated l) eqn:E.
  - rewrite (cleaned_up_naive now l E).
    assert (E' : forallb naive_dated (filter (retained now) l) = true).
    { apply forallb_forall. intros x Hx. apply filter_In in Hx as [Hx _].
      revert x Hx. now apply forallb_forall. }
    rewrite (cleaned_up_naive _ _ E').
    induction l as [|a l IH]; [reflexivity|].
    cbn [forallb] in E. apply andb_true_iff in E as [_ E].
    cbn [filter]. destruct (retained now a) eqn:R; cbn [filter];
      rewrite ?R; [f_equal|]; apply IH; try exact E;
      apply forallb_forall; intros x Hx; apply filter_In in Hx as [Hx _];
      revert x Hx; now apply forallb_forall.
  - rewrite (cleaned_up_aware now l E). now apply cleaned_up_aware.
Qed.

(** The clean-up of the load on dated actions. *)
Lemma retain_recent_cleaned_up (now : Z) (l : list pyval) :
  forallb dated l = true ->
  match retain_recent (now - timedelta_days 7) l with
  | Ok kept => kept = cleaned_up now l
  | Raise _ => l = cleaned_up now l
  end.
Proof.
  intros Hd. destruct (forallb naive_dated l) eqn:E.
  - rewrite (retain_recent_naive _ _ E). symmetry. now apply cleaned_up_naive.
  - rewrite (retain_recent_aware _ _ Hd E). symmetry. now apply cleaned_up_aware.
Qed.

(** The loop over persisted records that are all dicts never raises and
    appends the revived ones, in order. *)
Lemma load_loop_dicts `{DatetimeText} (records h0 : list pyval) :
  forallb is_dict records = true ->
  load_loop records h0 = (deque_extend h0 (revived records), Ok tt).
Proof.
  revert h0. induction records as [|a records IH]; intros h0 Hd.
  - reflexivity.
  - simpl in Hd. apply andb_true_iff in Hd as [Ha Hd].
    dict_case a d.
    unfold revived, deque_extend in *. cbn [load_loop flat_map py_get revive].
    destruct (dict_get d "timestamp") as [v|].
    + destruct (truthy v); [|now rewrite IH].
      destruct (parse_timestamp v) as [t|]; [|now rewrite IH].
      cbn [py_setitem app fold_left]. now rewrite IH.
    + cbn [truthy]. now rewrite IH.
Qed.

(** A record whose timestamp does not load leaves the loop as if it were
    not in the store, whatever surrounds it. *)
Lemma load_loop_bad `{DatetimeText} (before after : list pyval)
    (bad : list (string * pyval)) (h0 : list pyval) :
  bad_timestamp bad = true ->
  load_loop (before ++ PyDict bad :: after) h0 = load_loop (before ++ after) h0.
Proof.
  intros Hbad. revert h0. induction before as [|a before IH]; intros h0.
  - cbn [app load_loop py_get]. unfold bad_timestamp in Hbad.
    destruct (dict_get bad "timestamp") as [v|]; [|reflexivity].
    destruct (truthy v); [|reflexivity].
    destruct (parse_timestamp v); [discriminate|reflexivity].
  - cbn [app load_loop].
    destruct (py_get a "timestamp" PyNone) as [v|e]; [|reflexivity].
    destruct (truthy v); [|apply IH].
    destruct (parse_timestamp v) as [t|]; [|apply IH].
    destruct (py_setitem a "timestamp" (py_datetime t)); [apply IH|reflexivity].
Qed.

Lemma load_try_dicts `{DatetimeText} (s : RateLimiter) (w : World) (now : Z)
    (store : list (string * pyval)) (records : list pyval) :
  fs w (actions_log_file s) = Json (PyDict store) ->
  dict_get store "actions" = Some (PyList records) ->
  forallb is_dict records = true ->
  len records <= maxlen ->
  actions_history s = [] ->
  fst (load_try s w now) = set_history s (cleaned_up now (revived records)).
Proof.
  intros Hfs Hget Hd Hlen H0. unfold load_try, load_json_file.
  rewrite Hfs.
  assert (Ht : truthy (PyDict store) = true)
    by (destruct store; [discriminate|reflexivity]).
  rewrite Ht. cbn [negb py_get]. rewrite Hget. cbn [py_iter].
  rewrite (load_loop_dicts _ _ Hd), H0.
  pose proof (revived_len records) as Hr.
  rewrite deque_extend_room by (change (len []) with 0; lia).
  cbn [app].
  pose proof (retain_recent_cleaned_up now _ (revived_dated records)) as Hc.
  destruct (retain_recent (now - timedelta_days 7) (revived records))
    as [kept|e]; cbn [fst].
  - subst kept. rewrite deque_fits
      by (pose proof (cleaned_up_len now (revived records)); lia).
    reflexivity.
  - now rewrite <- Hc.
Qed.

Lemma load_fst `{DatetimeText} (s : RateLimiter) (w : World) (now : Z) :
  fst (_load_actions_history s w now) = fst (load_try s w now).
Proof.
  unfold _load_actions_history.
  destruct (load_try s w now) as [s' [u|e]]; reflexivity.
Qed.

Lemma revive_persisted `{D : DatetimeText} {L : DatetimeTextLaws D}
    (a : pyval) :
  encodable a = true -> revive (persisted a) = Some a.
Proof.
  dict_case a d.
  unfold encodable, persisted.
  assert (Hne : forall dt, String.eqb (isoformat dt) "" = false)
    by (intros dt; apply String.eqb_neq, isoformat_nonempty).
  destruct (dict_get d "timestamp") as [[| | | |t|t o| |]|] eqn:E;
    try discriminate;
    intros _; unfold revive; rewrite dict_get_set_same;
    cbn [truthy parse_timestamp]; rewrite Hne; cbn [negb];
    rewrite fromisoformat_isoformat, dict_set_set; cbn [py_datetime];
    now rewrite (dict_set_get_same _ _ _ E).
Qed.

Lemma revived_persisted `{D : DatetimeText} {L : DatetimeTextLaws D}
    (l : list pyval) :
  forallb encodable l = true -> revived (map persisted l) = l.
Proof.
  induction l as [|a l IH]; [reflexivity|].
  simpl. intros H. apply andb_true_iff in H as [Ha Hl].
  unfold revived in *. cbn [flat_map].
  now rewrite (revive_persisted _ Ha), IH.
Qed.

Lemma persisted_is_dict `{DatetimeText} (l : list pyval) :
  forallb encodable l = true -> forallb is_dict (map persisted l) = true.
Proof.
  induction l as [|a l IH]; [reflexivity|].
  simpl. intros H'. apply andb_true_iff in H' as [Ha Hl]. rewrite (IH Hl).
  dict_case a d.
  unfold persisted. now destruct (dict_get d "timestamp") as [[| | | |t| | |]|].
Qed.

(** What saving a history and loading it into an empty one gives, when
    [json.dump] accepts the actions once their datetime is text. *)
Lemma save_then_load `{D : DatetimeText} {L : DatetimeTextLaws D}
    (s fresh : RateLimiter) (w : World) (saved_at now : Z) :
  forallb encodable (actions_history s) = true ->
  len (actions_history s) <= maxlen ->
  actions_history fresh = [] ->
  actions_log_file fresh = actions_log_file s ->
  actions_history
    (fst (_load_actions_history fresh (_save_actions_history s w saved_at) now))
  = cleaned_up now (actions_history s).
Proof.
  intros Hst Hlen H0 Hpath. rewrite load_fst.
  erewrite load_try_dicts.
  - cbn [fst actions_history set_history].
    now rewrite (revived_persisted _ Hst).
  - rewrite Hpath. apply save_encodable. exact Hst.
  - reflexivity.
  - apply persisted_is_dict. exact Hst.
  - unfold len in *. now rewrite length_map.
  - exact H0.
Qed.


(** C9, as the code has it: what [_load_actions_history] is resilient
    to.  No exception reaches the caller; a log file that is missing, does
    not decode or does not hold a dict leaves the limiter as it was, so an
    empty history stays empty; a persisted record that is a dict whose
    timestamp is absent, falsy or does not parse is dropped on its own, the
    load going on as if the record were not in the store; and from a store
    of at most 10000 records that are all dicts, every record whose
    timestamp parses to a time inside the retention window is in the loaded
    history (as is every record whose timestamp parses to an aware
    datetime, no clean-up taking place then). *)
Theorem load_resilient `{DatetimeText} (s : RateLimiter) (w : World)
    (now : Z) :
  snd (_load_actions_history s w now) = Ok tt /\
  (fs w (actions_log_file s) = Missing \/
   fs w (actions_log_file s) = Undecodable ->
   fst (_load_actions_history s w now) = s /\
   (actions_history s = [] ->
    actions_history (fst (_load_actions_history s w now)) = [])) /\
  (forall data,
     fs w (actions_log_file s) = Json data ->
     is_dict data = false ->
     fst (_load_actions_history s w now) = s) /\
  (forall store before bad after,
     fs w (actions_log_file s) = Json (PyDict store) ->
     dict_get store "actions" = Some (PyList (before ++ PyDict bad :: after)) ->
     bad_timestamp bad = true ->
     _load_actions_history s w now =
     _load_actions_history s
       (with_log w (actions_log_file s)
          (PyDict (dict_set store "actions" (PyList (before ++ after)))))
       now) /\
  (forall store records d str dt,
     fs w (actions_log_file s) = Json (PyDict store) ->
     dict_get store "actions" = Some (PyList records) ->
     actions_history s = [] ->
     forallb is_dict records = true ->
     len records <= maxlen ->
     In (PyDict d) records ->
     dict_get d "timestamp" = Some (PyStr str) ->
     str <> "" ->
     fromisoformat str = Some dt ->
     match dt with
     | Naive t => now - timedelta_days 7 < t
     | Aware _ _ => True
     end ->
     In (PyDict (dict_set d "timestamp" (py_datetime dt)))
        (actions_history (fst (_load_actions_history s w now)))).
Proof.
  split; [|split; [|split; [|split]]].
  - unfold _load_actions_history.
    destruct (load_try s w now) as [s' [u|e]]; reflexivity.
  - intros Hfs.
    assert (E : fst (_load_actions_history s w now) = s).
    { rewrite load_fst. unfold load_try, load_json_file.
      destruct Hfs as [-> | ->]; reflexivity. }
    split; [exact E|]. intros H0. now rewrite E.
  - intros data Hfs Hd. rewrite load_fst. unfold load_try, load_json_file.
    rewrite Hfs.
    destruct data; try discriminate;
      destruct (truthy _); reflexivity.
  - intros store before bad after Hfs Hget Hbad.
    assert (Ht : forall st v, dict_get st "actions" = Some v ->
                              truthy (PyDict st) = true)
      by (intros [|] v; [discriminate|reflexivity]).
    unfold _load_actions_history, load_try, load_json_file, with_log.
    cbn [fs]. unfold fs_put. rewrite String.eqb_refl, Hfs.
    rewrite (Ht _ _ Hget), (Ht _ _ (dict_get_set_same store "actions" _)).
    cbn [negb py_get]. rewrite Hget, dict_get_set_same. cbn [py_iter].
    rewrite (load_loop_bad _ _ _ _ Hbad). reflexivity.
  - intros store records d str dt Hfs Hget H0 Hd Hlen Hin Hts Hne Hparse Hnew.
    rewrite load_fst.
    rewrite (load_try_dicts s w now store records Hfs Hget Hd Hlen H0).
    cbn [actions_history set_history].
    apply cleaned_up_In.
    + unfold revived. apply in_flat_map. exists (PyDict d). split; [exact Hin|].
      unfold revive. rewrite Hts. cbn [truthy parse_timestamp].
      apply String.eqb_neq in Hne. rewrite Hne, Hparse. now left.
    + unfold retained, naive_dated. rewrite dict_get_set_same.
      destruct dt as [t|t o]; cbn [py_datetime];
        [left; now apply Z.ltb_lt|now right].
Qed.

(** Against C9 as worded.  Well-formed records of a store that are not
    loaded.  A like that follows a number: the record with the garbled
    timestamp is dropped, the number then aborts the load, and the like,
    whose timestamp parses to a time inside the retention window, is not
    in the history.  A reply from eight days ago: it is dropped with the
    garbled record.  The first of 10001 records: the deque keeps the last
    10000. *)
Lemma load_counterexample :
  (@bad_timestamp decimal_text garbled_record = true /\
   @revive decimal_text (PyDict persisted_like) = Some (like_at 300000000 true) /\
   retained (minutes 6) (like_at 300000000 true) = true /\
   actions_history
     (fst (@_load_actions_history decimal_text default_limiter
             interrupted_world (minutes 6))) = []) /\
  (@revive decimal_text (PyDict stale_record)
   = Some (PyDict (dict_set stale_record "timestamp" (PyDatetime 0))) /\
   actions_history
     (fst (@_load_actions_history decimal_text default_limiter
             aged_world eight_days)) = []) /\
  (let loaded :=
     actions_history
       (fst (@_load_actions_history decimal_text default_limiter
               crowded_world (minutes 6))) in
   @revive decimal_text (PyDict early_record)
   = Some (PyDict (dict_set early_record "timestamp" (PyDatetime 300000000))) /\
   len loaded = maxlen /\
   forallb (typed "like") loaded = true /\
   typed "like" (PyDict (dict_set early_record "timestamp"
                           (PyDatetime 300000000))) = false).
Proof.
  split; [|split].
  - vm_compute. repeat split; reflexivity.
  - vm_compute. split; reflexivity.
  - vm_compute. repeat split; reflexivity.
Qed.


(* ================================================================== *)
(** ** The decimal text satisfies the laws *)

Lemma of_decimal_decimal (z : Z) : of_decimal (decimal z) = Some z.
Proof.
  unfold of_decimal, decimal. rewrite NilEmpty.isi. cbn [option_map].
  now rewrite DecimalZ.of_to.
Qed.

Lemma decimal_nonempty (z : Z) : decimal z <> "".
Proof.
  intros E. pose proof (of_decimal_decimal z) as R. rewrite E in R.
  assert (N : of_decimal "" = Some 0) by reflexivity.
  rewrite N in R. injection R as <-. discriminate E.
Qed.

Lemma split_plus_uint (d : Decimal.uint) :
  split_plus (NilEmpty.string_of_uint d) = None.
Proof.
  induction d; cbn [NilEmpty.string_of_uint split_plus Ascii.eqb Bool.eqb];
    [reflexivity|now rewrite IHd..].
Qed.

Lemma split_plus_decimal (z : Z) : split_plus (decimal z) = None.
Proof.
  unfold decimal. destruct (Z.to_int z) as [d|d];
    cbn [NilEmpty.string_of_int split_plus Ascii.eqb Bool.eqb];
    now rewrite split_plus_uint.
Qed.

Lemma split_plus_app (a b : string) :
  split_plus a = None ->
  split_plus (a ++ "+" ++ b)%string = Some (a, b).
Proof.
  induction a as [|c a IH]; [reflexivity|].
  intros Hs. cbn [split_plus] in Hs.
  change (String c a ++ "+" ++ b)%string
    with (String c (a ++ "+" ++ b)%string).
  cbn [split_plus].
  destruct (Ascii.eqb c "+"); [discriminate|].
  destruct (split_plus a) as [[x y]|]; [discriminate|].
  now rewrite IH.
Qed.

Lemma decimal_text_laws : DatetimeTextLaws decimal_text.
Proof.
  split.
  - intros [t|t o]; cbn [fromisoformat isoformat decimal_text].
    + rewrite split_plus_decimal, of_decimal_decimal. reflexivity.
    + rewrite (split_plus_app _ _ (split_plus_decimal t)).
      now rewrite !of_decimal_decimal.
  - intros [t|t o]; cbn [isoformat decimal_text].
    + apply decimal_nonempty.
    + pose proof (decimal_nonempty t) as N.
      destruct (decimal t); [now elim N|discriminate].
Defined.

(* ================================================================== *)
(** ** The statements at concrete inputs *)

(** [error_cooldown] on the default limiter after five failures, the last
    at second 4: denied ten minutes in, allowed again at minute 40. *)
Lemma error_cooldown_witness :
  let s5 := fst (@record_all decimal_text default_limiter no_files
                   (map failed_call
                      (four_failures ++ [(4 * usec_per_second, "like", PyNone)]))) in
  let g := constant_source 0.95 in
  List.length four_failures = 4%nat /\
  can_perform_action s5 (minutes 10) g "reply" = (false, s5, g) /\
  consecutive_errors
    (limiter_after (can_perform_action s5 (minutes 40) g "reply")) = 0%nat /\
  allowed (can_perform_action s5 (minutes 40) g "reply") = true.
Proof.
  intros s5 g.
  pose proof (fun now =>
    @error_cooldown decimal_text default_limiter no_files four_failures
      (4 * usec_per_second) "like" PyNone now g "reply" eq_refl) as C.
  split; [reflexivity|]. split; [|split].
  - apply (proj1 (C (minutes 10))). reflexivity.
  - apply (proj2 (C (minutes 40))). discriminate.
  - apply (proj2 (C (minutes 40))); [discriminate|reflexivity|reflexivity].
Defined.

(** [per_type_hourly_cap] on the two-likes limiter, the likes recorded at
    ten in the morning. *)
Lemma per_type_hourly_cap_witness :
  let g := constant_source 0.95 in
  let t0 := minutes 600 in
  let s2 := fst (@record_all decimal_text two_likes_limiter no_files
                   [(t0, "like", true, PyNone); (t0, "like", true, PyNone)]) in
  type_cap two_likes_recorded "like" = Some 2 /\
  _get_actions_in_timeframe two_likes_recorded (minutes 10) 1 (Some "like")
    = Ok 2 /\
  allowed (can_perform_action two_likes_recorded (minutes 10) g "like")
    = false /\
  max_likes_per_hour two_likes_limiter = 2 /\
  _is_in_quiet_period two_likes_limiter (t0 + minutes 61) = false /\
  allowed (can_perform_action s2 (t0 + minutes 10) g "like") = false /\
  allowed (can_perform_action s2 (t0 + minutes 61) g "like") = true.
Proof.
  intros g t0 s2.
  destruct (@per_type_hourly_cap decimal_text) as (Hcap & _ & Hscenario).
  destruct (Hscenario two_likes_limiter no_files t0 PyNone PyNone g
              eq_refl eq_refl eq_refl eq_refl) as (H10 & _ & H61).
  split; [reflexivity|]. split; [reflexivity|]. split.
  { apply (Hcap two_likes_recorded (minutes 10) g "like" 2 2);
      [reflexivity|reflexivity|discriminate]. }
  split; [reflexivity|]. split; [reflexivity|]. split; [exact H10|].
  apply H61. reflexivity.
Defined.

(** [can_perform_action_monotone]: a third like keeps the denial. *)
Lemma can_perform_action_monotone_witness :
  let g := constant_source 0.95 in
  let extra := [like_at (minutes 5) true] in
  forallb (qualifying (minutes 10) "like") extra = true /\
  allowed (can_perform_action two_likes_recorded (minutes 10) g "like")
    = false /\
  allowed (can_perform_action
             (set_history two_likes_recorded
                (actions_history two_likes_recorded ++ extra))
             (minutes 10) g "like") = false /\
  allowed (can_perform_action
             (set_history two_likes_recorded
                (deque_extend (actions_history two_likes_recorded) extra))
             (minutes 10) g "like") = false.
Proof.
  intros g extra.
  destruct (can_perform_action_monotone two_likes_recorded (minutes 10) g
              "like" extra eq_refl eq_refl) as [Happ Hdeque].
  split; [reflexivity|]. split; [reflexivity|]. split; [exact Happ|].
  apply Hdeque; [reflexivity|discriminate].
Defined.


(** [wait_after_error_scaling] on the default bounds (900, 1800) after
    three failures. *)
Lemma wait_after_error_scaling_witness :
  let s3 := fst (@record_all decimal_text default_limiter no_files
                   (map failed_call three_failures)) in
  consecutive_errors default_limiter = 0%nat /\
  List.length three_failures = 3%nat /\
  (fst (error_delay_range s3) == 900 * 2.5 /\
   snd (error_delay_range s3) == 1800 * 2.5 /\
   900 < fst (error_delay_range s3) /\
   1800 < snd (error_delay_range s3))%Q.
Proof.
  intros s3.
  destruct (@wait_after_error_scaling decimal_text default_limiter no_files
              three_failures (constant_source 0.5))
    as (_ & _ & _ & H3).
  destruct (H3 eq_refl eq_refl) as (Hlo & Hhi & Hlo' & Hhi').
  split; [reflexivity|]. split; [reflexivity|].
  split; [exact Hlo|]. split; [exact Hhi|].
  split; [apply Hlo'|apply Hhi']; reflexivity.
Defined.

(** [dynamic_delay_range] with eight actions against a cap of ten. *)
Lemma dynamic_delay_range_witness :
  _get_current_activity_multiplier eight_of_ten (minutes 10) = Ok 1%Q /\
  _get_actions_in_timeframe eight_of_ten (minutes 10) 1 None = Ok 8 /\
  exists lo hi,
    _calculate_dynamic_delay eight_of_ten (minutes 10) = Ok (lo, hi) /\
    (10 <= lo)%Q /\ (hi <= 1800)%Q /\ (lo <= 1800)%Q /\ (10 <= hi)%Q.
Proof.
  split; [reflexivity|]. split; [reflexivity|].
  destruct (dynamic_delay_range eight_of_ten (minutes 10) 1%Q 8
              eq_refl eq_refl) as (_ & _ & _ & lo & hi & E & Hlo & Hhi & Hin).
  assert (Hmin : (fst (delay_between_actions eight_of_ten)
                  * (load_factor 8 (max_actions_per_hour eight_of_ten)
                     * (2.0 - 1)) <= 1800)%Q)
    by (vm_compute; discriminate).
  assert (Hmax : (10 <= snd (delay_between_actions eight_of_ten)
                        * (load_factor 8 (max_actions_per_hour eight_of_ten)
                           * (2.0 - 1)))%Q)
    by (vm_compute; discriminate).
  destruct (Hin Hmin Hmax) as (_ & _ & H1 & H2).
  exists lo, hi. split; [exact E|]. split; [exact Hlo|]. split; [exact Hhi|].
  split; [exact H1|exact H2].
Defined.


(** [load_resilient]: the like next to a garbled record is loaded. *)
Lemma load_resilient_witness :
  @bad_timestamp decimal_text garbled_record = true /\
  In (PyDict (dict_set persisted_like "timestamp"
                (py_datetime (Naive 300000000))))
     (actions_history
        (fst (@_load_actions_history decimal_text default_limiter
                garbled_world (minutes 6)))).
Proof.
  split; [reflexivity|].
  destruct (@load_resilient decimal_text default_limiter garbled_world
              (minutes 6)) as (_ & _ & _ & _ & Hloaded).
  apply (Hloaded garbled_store
           [PyDict garbled_record; PyDict persisted_like]
           persisted_like "300000000" (Naive 300000000)).
  - reflexivity.
  - reflexivity.
  - reflexivity.
  - reflexivity.
  - discriminate.
  - right. left. reflexivity.
  - reflexivity.
  - discriminate.
  - vm_compute. reflexivity.
  - reflexivity.
Defined.

(** [quota_counting_ignores_success]: a success turned into a failure. *)
Lemma quota_counting_ignores_success_witness :
  Forall2 differ_in_success (actions_history mixed_limiter)
    [like_at 0 false; like_at (minutes 5) false] /\
  _get_actions_in_timeframe
    (set_history mixed_limiter [like_at 0 false; like_at (minutes 5) false])
    (minutes 10) 1 (Some "like") =
  _get_actions_in_timeframe mixed_limiter (minutes 10) 1 (Some "like").
Proof.
  assert (F : Forall2 differ_in_success (actions_history mixed_limiter)
                [like_at 0 false; like_at (minutes 5) false]).
  { constructor; [right; exists (PyBool false); reflexivity|].
    constructor; [left; reflexivity|constructor]. }
  split; [exact F|].
  apply (proj1 (@quota_counting_ignores_success decimal_text mixed_limiter
                  [like_at 0 false; like_at (minutes 5) false]
                  (minutes 10) 1 (Some "like") "like" F)).
Defined.

(* ================================================================== *)
(** ** What a session keeps *)

Lemma sound_iff (s : RateLimiter) :
  sound s = true <->
  forallb dated (actions_history s) = true /\
  len (actions_history s) <= maxlen /\
  (consecutive_errors s = 0%nat \/ last_error_time s <> None).
Proof.
  unfold sound. rewrite !andb_true_iff, orb_true_iff, Z.leb_le, Nat.eqb_eq.
  split.
  - intros [[Hd Hl] He]. repeat split; try assumption.
    destruct He as [He|He]; [now left|right].
    destruct (last_error_time s); [discriminate|discriminate].
  - intros (Hd & Hl & He). repeat split; try assumption.
    destruct He as [He|He]; [now left|right].
    destruct (last_error_time s); [reflexivity|now elim He].
Qed.

Lemma deque_len {A : Type} (l : list A) : len (deque l) <= maxlen.
Proof.
  unfold deque, len. rewrite length_skipn. unfold len, maxlen. lia.
Qed.

Lemma record_action_sound `{DatetimeText} (s : RateLimiter) (w : World)
    (now : Z) (ty : string) (ok : bool) (md : pyval) :
  sound s = true -> sound (fst (record_action s w now ty ok md)) = true.
Proof.
  rewrite !sound_iff. intros (Hd & Hl & _).
  rewrite record_action_append. split; [|split].
  - apply forallb_deque_append; [exact Hd|reflexivity].
  - now apply deque_append_len.
  - rewrite record_action_limiter. destruct ok; [now left|right; discriminate].
Qed.

(** [can_perform_action] leaves the limiter as it was, or with the error
    count at 0. *)
Lemma can_perform_action_limiter (s : RateLimiter) (now : Z) (g : Random)
    (ty : string) :
  limiter_after (can_perform_action s now g ty) = s \/
  limiter_after (can_perform_action s now g ty)
  = set_errors s 0 (last_error_time s).
Proof.
  unfold can_perform_action.
  destruct (5 <=? consecutive_errors s)%nat.
  - destruct (last_error_time s) as [t|].
    + destruct (now - t <? cooldown_seconds * usec_per_second);
        [now left|right; apply checks_after_cooldown_errors].
    + right. apply checks_after_cooldown_errors.
  - left. apply checks_after_cooldown_errors.
Qed.

Lemma can_perform_action_sound (s : RateLimiter) (now : Z) (g : Random)
    (ty : string) :
  sound s = true ->
  sound (limiter_after (can_perform_action s now g ty)) = true.
Proof.
  intros Hs. destruct (can_perform_action_limiter s now g ty) as [-> | ->];
    [exact Hs|].
  apply sound_iff in Hs as (Hd & Hl & _). apply sound_iff.
  repeat split; try assumption. now left.
Qed.

Lemma get_next_action_time_limiter (s : RateLimiter) (now : Z) (g : Random)
    (ty : string) :
  snd (fst (get_next_action_time s now g ty))
  = limiter_after (can_perform_action s now g ty) /\
  snd (get_next_action_time s now g ty)
  = snd (can_perform_action s now g ty).
Proof.
  unfold get_next_action_time, limiter_after.
  destruct (can_perform_action s now g ty) as [[can s1] g1].
  destruct can; [split; reflexivity|].
  destruct (blocked_until s1 now ty); split; reflexivity.
Qed.

Lemma retain_recent_forallb (f : pyval -> bool) (cutoff : Z)
    (l kept : list pyval) :
  retain_recent cutoff l = Ok kept ->
  forallb f l = true -> forallb f kept = true.
Proof.
  revert kept. induction l as [|a l IH]; intros kept.
  - intros [= <-]. reflexivity.
  - cbn [retain_recent forallb].
    destruct (py_getitem a "timestamp") as [ts|]; [|discriminate].
    cbn [bind]. destruct (py_gt_datetime ts cutoff) as [keep|]; [|discriminate].
    cbn [bind]. destruct (retain_recent cutoff l) as [k|]; [|discriminate].
    cbn [bind]. intros [= <-] Hf. apply andb_true_iff in Hf as [Ha Hl].
    specialize (IH k eq_refl Hl).
    destruct keep; cbn [forallb]; rewrite ?Ha; exact IH.
Qed.

(** Whatever the store holds, the loop of the load appends only dicts
    with a datetime under [timestamp], through the deque. *)
Lemma load_loop_sound `{DatetimeText} (records h0 : list pyval) :
  forallb dated h0 = true ->
  len h0 <= maxlen ->
  forallb dated (fst (load_loop records h0)) = true /\
  len (fst (load_loop records h0)) <= maxlen.
Proof.
  revert h0. induction records as [|a records IH]; intros h0 Hd Hl.
  - now split.
  - cbn [load_loop].
    destruct (py_get a "timestamp" PyNone) as [v|e]; [|now split].
    destruct (truthy v); [|now apply IH].
    destruct (parse_timestamp v) as [t|]; [|now apply IH].
    destruct a as [| | | | | | ? |d]; cbn [py_setitem]; try (now split).
    apply IH.
    + apply forallb_deque_append; [exact Hd|].
      unfold dated. rewrite dict_get_set_same. now destruct t.
    + now apply deque_append_len.
Qed.

Lemma load_sound `{DatetimeText} (s : RateLimiter) (w : World) (now : Z) :
  sound s = true -> sound (fst (_load_actions_history s w now)) = true.
Proof.
  rewrite load_fst, !sound_iff. intros (Hd & Hl & He).
  unfold load_try.
  destruct (negb (truthy (load_json_file w (actions_log_file s) (PyDict []))));
    [now repeat split|].
  destruct (py_get _ "actions" (PyList [])) as [acts|e]; [|now repeat split].
  destruct (py_iter acts) as [items|e]; [|now repeat split].
  destruct (load_loop_sound items (actions_history s) Hd Hl) as [Hd' Hl'].
  destruct (load_loop items (actions_history s)) as [h r]. cbn [fst] in *.
  destruct r as [u|e]; [|now repeat split].
  destruct (retain_recent (now - timedelta_days 7) h) as [kept|e] eqn:E;
    [|now repeat split].
  cbn [fst actions_history set_history consecutive_errors last_error_time].
  repeat split; [| apply deque_len | exact He].
  unfold deque. apply forallb_skipn.
  eapply retain_recent_forallb; eassumption.
Qed.

Lemma init_sound `{DatetimeText} (config : Config) (w : World) (now : Z)
    (g : Random) :
  sound (fst (init config w now g)) = true.
Proof.
  unfold init.
  match goal with
  | |- context [_load_actions_history ?s0 w now] =>
      assert (Hs : sound (fst (_load_actions_history s0 w now)) = true)
        by (apply load_sound; reflexivity);
      destruct (_load_actions_history s0 w now) as [s1 r]
  end.
  cbn [fst] in *. destruct (_generate_daily_pattern g) as [pattern g'].
  exact Hs.
Qed.

Lemma run_call_sound `{DatetimeText} (st : RateLimiter * World * Random)
    (c : call) :
  sound (fst (fst st)) = true -> sound (fst (fst (run_call st c))) = true.
Proof.
  destruct st as [[s w] g]. cbn [fst]. intros Hs.
  destruct c as [now ty ok md|now ty|now ty|]; cbn [run_call].
  - pose proof (record_action_sound s w now ty ok md Hs) as R.
    destruct (record_action s w now ty ok md). exact R.
  - pose proof (can_perform_action_sound s now g ty Hs) as R.
    unfold limiter_after in R.
    destruct (can_perform_action s now g ty) as [[b s'] g']. exact R.
  - pose proof (can_perform_action_sound s now g ty Hs) as R.
    destruct (get_next_action_time_limiter s now g ty) as [E _].
    rewrite <- E in R.
    destruct (get_next_action_time s now g ty) as [[b s'] g']. exact R.
  - apply sound_iff in Hs as (Hd & Hl & _). apply sound_iff.
    repeat split; try assumption. now left.
Qed.

(** X1: the invariant of a session.  Whatever the configuration, the log
    file on disk, the random source and the calls made, the limiter of a
    session is sound after every call: its history is within the capacity
    of the deque, every action in it is a dict with a datetime under
    [timestamp], and a positive [consecutive_errors] comes with a
    [last_error_time]. *)
Theorem session_sound `{DatetimeText} (config : Config) (w : World)
    (started : Z) (g : Random) (calls : list call) :
  sound (fst (fst (session config w started g calls))) = true.
Proof.
  unfold session.
  pose proof (init_sound config w started g) as Hs.
  destruct (init config w started g) as [s g']. cbn [fst] in Hs.
  assert (G : forall st, sound (fst (fst st)) = true ->
                         sound (fst (fst (fold_left run_call calls st))) = true).
  { induction calls as [|c calls IH]; intros st Hst; [exact Hst|].
    cbn [fold_left]. apply IH. now apply run_call_sound. }
  now apply G.
Qed.

(* ================================================================== *)
(** ** Counting on the history of a session *)

Lemma count_step_naive (c : Z) (n : Z) (a : pyval) :
  naive_dated a = true ->
  count_step c None n a = Ok (n + (if newer c a then 1 else 0)).
Proof.
  dict_case a d. unfold naive_dated, count_step, newer, py_getitem.
  destruct (dict_get d "timestamp") as [[| | | |t| | |]|]; try discriminate.
  intros _. cbn [bind py_gt_datetime].
  destruct (c <? t); f_equal; lia.
Qed.

Lemma count_loop_naive (c : Z) (n : Z) (l : list pyval) :
  forallb naive_dated l = true ->
  count_loop c None n l = Ok (n + len (filter (newer c) l)).
Proof.
  revert n. induction l as [|a l IH]; intros n Hd.
  - cbn. f_equal. change (len []) with 0. lia.
  - cbn [forallb] in Hd. apply andb_true_iff in Hd as [Ha Hl].
    cbn [count_loop filter]. rewrite (count_step_naive _ _ _ Ha).
    cbn [bind]. rewrite (IH _ Hl). f_equal.
    destruct (newer c a); rewrite ?len_cons; lia.
Qed.

(** An action that is not a dict with a naive datetime under [timestamp]
    makes the count raise, with or without a filter on the type. *)
Lemma count_step_not_naive (c : Z) (ty : option string) (n : Z) (a : pyval) :
  naive_dated a = false -> exists e, count_step c ty n a = Raise e.
Proof.
  unfold naive_dated, count_step, py_getitem.
  destruct a as [| | | | | | ? |d]; try (intros _; eexists; reflexivity).
  destruct (dict_get d "timestamp") as [[| | | |t| | |]|]; try discriminate;
    intros _; eexists; reflexivity.
Qed.

Lemma count_loop_not_naive (c : Z) (ty : option string) (n : Z)
    (l : list pyval) :
  forallb naive_dated l = false -> exists e, count_loop c ty n l = Raise e.
Proof.
  revert n. induction l as [|a l IH]; intros n; [discriminate|].
  cbn [forallb count_loop]. intros Hn.
  destruct (naive_dated a) eqn:Ea.
  - cbn [andb] in Hn.
    destruct (count_step c ty n a) as [k|e]; cbn [bind];
      [now apply IH|now exists e].
  - destruct (count_step_not_naive c ty n a Ea) as [e ->]. now exists e.
Qed.

(** On dated actions the count without a filter stops at the first aware
    timestamp. *)
Lemma count_loop_aware (c : Z) (n : Z) (l : list pyval) :
  forallb dated l = true -> forallb naive_dated l = false ->
  count_loop c None n l = Raise TypeError.
Proof.
  revert n. induction l as [|a l IH]; intros n; [discriminate|].
  cbn [forallb count_loop]. intros Hd Hn.
  apply andb_true_iff in Hd as [Ha Hl].
  destruct (naive_dated a) eqn:Ea.
  - rewrite (count_step_naive _ _ _ Ea). cbn [bind andb] in *. now apply IH.
  - dict_case a d. unfold dated in Ha. unfold naive_dated in Ea.
    unfold count_step, py_getitem.
    destruct (dict_get d "timestamp") as [[| | | |t|t o| |]|];
      try discriminate.
    reflexivity.
Qed.

(** The calls of a session add naive timestamps only. *)
Lemma run_call_naive `{DatetimeText} (st : RateLimiter * World * Random)
    (c : call) :
  forallb naive_dated (actions_history (fst (fst st))) = true ->
  forallb naive_dated (actions_history (fst (fst (run_call st c)))) = true.
Proof.
  destruct st as [[s w] g]. cbn [fst]. intros Hn.
  destruct c as [now ty ok md|now ty|now ty|]; cbn [run_call].
  - pose proof (record_action_append s w now ty ok md) as E.
    destruct (record_action s w now ty ok md) as [s' w']. cbn [fst] in *.
    rewrite E. apply forallb_deque_append; [exact Hn|reflexivity].
  - pose proof (can_perform_action_limiter s now g ty) as E.
    unfold limiter_after in E.
    destruct (can_perform_action s now g ty) as [[b s'] g'].
    cbn [fst snd] in *. destruct E as [-> | ->]; exact Hn.
  - destruct (get_next_action_time_limiter s now g ty) as [E _].
    pose proof (can_perform_action_limiter s now g ty) as E'.
    rewrite <- E in E'.
    destruct (get_next_action_time s now g ty) as [[b s'] g'].
    cbn [fst snd] in *. destruct E' as [-> | ->]; exact Hn.
  - exact Hn.
Qed.

Lemma count_step_typed_bounds (c : Z) (ty : string) (n m : Z) (a : pyval) :
  count_step c (Some ty) n a = Ok m ->
  n <= m <= n + (if newer c a then 1 else 0).
Proof.
  unfold count_step, newer, py_getitem.
  destruct a as [| | | | | | ? |d]; try discriminate.
  destruct (dict_get d "timestamp") as [[| | | |t| | |]|]; try discriminate.
  cbn [bind py_gt_datetime]. destruct (c <? t).
  - destruct (dict_get d "type") as [v|]; [|discriminate]. cbn [bind].
    destruct (py_eq_str v ty); intros [= <-]; lia.
  - intros [= <-]. lia.
Qed.

Lemma count_loop_typed_bounds (c : Z) (ty : string) (l : list pyval)
    (n m : Z) :
  count_loop c (Some ty) n l = Ok m ->
  n <= m <= n + len (filter (newer c) l).
Proof.
  revert n. induction l as [|a l IH]; intros n.
  - cbn. intros [= <-]. lia.
  - cbn [count_loop filter].
    destruct (count_step c (Some ty) n a) as [k|] eqn:E; [|discriminate].
    cbn [bind]. intros Hm. apply IH in Hm.
    apply count_step_typed_bounds in E.
    destruct (newer c a); rewrite ?len_cons; lia.
Qed.

Lemma filter_len_mono {A : Type} (f g : A -> bool) (l : list A) :
  (forall a, f a = true -> g a = true) ->
  len (filter f l) <= len (filter g l).
Proof.
  intros Hfg. induction l as [|a l IH]; [cbn; lia|].
  cbn [filter]. destruct (f a) eqn:Ef.
  - rewrite (Hfg a Ef), !len_cons. lia.
  - destruct (g a); rewrite ?len_cons; lia.
Qed.

Lemma newer_mono (c c' : Z) (a : pyval) :
  c' <= c -> newer c a = true -> newer c' a = true.
Proof.
  intros Hc. unfold newer. destruct a as [| | | | | | ? |d]; try discriminate.
  destruct (dict_get d "timestamp") as [[| | | |t| | |]|]; try discriminate.
  rewrite !Z.ltb_lt. lia.
Qed.

(** X2: counting on a sound limiter.  When every timestamp of the history
    is naive, the count without a filter on the type returns the number of
    actions whose timestamp is strictly after [now] minus the window.  When
    one is aware, as the load makes it from a text with a UTC offset, the
    comparison with the naive cutoff fails: the count without a filter
    raises [TypeError], and the count with a filter raises too.  The number
    of actions in the window is at most the length of the history and does
    not shrink when the window grows; a count with a filter on the type,
    when it returns, is at most that number.  The calls of a session keep a
    history of naive timestamps one. *)
Theorem sound_counts `{DatetimeText} (s : RateLimiter) (now hours hours' : Z)
    (ty : string) (n : Z) :
  sound s = true ->
  let count h := len (filter (newer (now - timedelta_hours h))
                        (actions_history s)) in
  (forallb naive_dated (actions_history s) = true ->
   _get_actions_in_timeframe s now hours None = Ok (count hours)) /\
  (forallb naive_dated (actions_history s) = false ->
   _get_actions_in_timeframe s now hours None = Raise TypeError /\
   exists e, _get_actions_in_timeframe s now hours (Some ty) = Raise e) /\
  0 <= count hours <= len (actions_history s) /\
  (hours <= hours' -> count hours <= count hours') /\
  (_get_actions_in_timeframe s now hours (Some ty) = Ok n ->
   0 <= n <= count hours) /\
  (forall w g calls,
     forallb naive_dated (actions_history s) = true ->
     forallb naive_dated
       (actions_history (fst (fst (fold_left run_call calls (s, w, g)))))
     = true).
Proof.
  intros Hs count. apply sound_iff in Hs as (Hd & _ & _).
  split; [|split; [|split; [|split; [|split]]]].
  - intros Hn. unfold _get_actions_in_timeframe. now rewrite count_loop_naive.
  - intros Hn. unfold _get_actions_in_timeframe. split.
    + now apply count_loop_aware.
    + now apply count_loop_not_naive.
  - subst count. cbv beta. split; [apply len_nonneg|apply filter_len_le].
  - intros Hh. subst count. cbv beta. apply filter_len_mono.
    intros a. apply newer_mono. unfold_time. lia.
  - unfold _get_actions_in_timeframe. intros Hn.
    apply count_loop_typed_bounds in Hn. exact Hn.
  - intros w g calls.
    assert (G : forall st,
              forallb naive_dated (actions_history (fst (fst st))) = true ->
              forallb naive_dated
                (actions_history (fst (fst (fold_left run_call calls st))))
              = true).
    { induction calls as [|c calls IH]; intros st Hst; [exact Hst|].
      cbn [fold_left]. apply IH. now apply run_call_naive. }
    apply (G (s, w, g)).
Qed.

Lemma count_loop_missing_type (c : Z) (ty : string)
    (d : list (string * pyval)) (l : list pyval) (n : Z) :
  In (PyDict d) l ->
  dict_get d "type" = None ->
  newer c (PyDict d) = true ->
  exists e, count_loop c (Some ty) n l = Raise e.
Proof.
  intros Hin Hty Hnew. revert n.
  induction l as [|a l IH]; intros n; [contradiction|].
  cbn [count_loop]. destruct Hin as [-> | Hin].
  - exists KeyError. unfold count_step, py_getitem. unfold newer in Hnew.
    destruct (dict_get d "timestamp") as [[| | | |t| | |]|]; try discriminate.
    cbn [bind py_gt_datetime]. rewrite Hnew, Hty. reflexivity.
  - destruct (count_step c (Some ty) n a) as [k|e]; cbn [bind].
    + now apply IH.
    + now exists e.
Qed.

Lemma quota_checks_typed_raise (s : RateLimiter) (now : Z) (ty : string) :
  type_cap s ty <> None ->
  (exists e, _get_actions_in_timeframe s now 1 (Some ty) = Raise e) ->
  quota_checks s now ty <> Ok true.
Proof.
  unfold type_cap, quota_checks. intros Hcap [e He].
  destruct (_get_actions_in_timeframe s now 24 None) as [dn|];
    cbn [bind]; [|discriminate].
  destruct (max_actions_per_day s <=? dn); [discriminate|].
  destruct (_get_actions_in_timeframe s now 1 None) as [hn|];
    cbn [bind]; [|discriminate].
  destruct (max_actions_per_hour s <=? hn); [discriminate|].
  destruct (String.eqb ty "like") eqn:E1.
  { apply String.eqb_eq in E1. subst ty. rewrite He. discriminate. }
  destruct (String.eqb ty "reply") eqn:E2.
  { apply String.eqb_eq in E2. subst ty. rewrite He. discriminate. }
  destruct (String.eqb ty "retweet") eqn:E3.
  { apply String.eqb_eq in E3. subst ty. rewrite He. discriminate. }
  now elim Hcap.
Qed.

(** X3: a record without a type.  When the history holds an action newer
    than one hour that has no [type] key — the load keeps such a record of
    the log file — the [KeyError] of the count by type is caught:
    [can_perform_action] answers [False] for like, reply and retweet, and
    [get_rate_limit_status] returns the empty dict. *)
Theorem missing_type_blocks_tracked `{DatetimeText} (s : RateLimiter)
    (now : Z) (g : Random) (d : list (string * pyval)) (ty : string) :
  In (PyDict d) (actions_history s) ->
  dict_get d "type" = None ->
  newer (now - timedelta_hours 1) (PyDict d) = true ->
  type_cap s ty <> None ->
  allowed (can_perform_action s now g ty) = false /\
  get_rate_limit_status s now = None.
Proof.
  intros Hin Hty Hnew Hcap.
  assert (R : forall t, exists e,
            _get_actions_in_timeframe s now 1 (Some t) = Raise e).
  { intros t. unfold _get_actions_in_timeframe.
    eapply count_loop_missing_type; eassumption. }
  split.
  - apply can_perform_action_quota_denies.
    apply quota_checks_typed_raise; [exact Hcap|apply R].
  - unfold get_rate_limit_status. destruct (R "like") as [e ->].
    cbn [caught].
    destruct (caught (_get_actions_in_timeframe s now 1 None));
      [|reflexivity].
    destruct (caught (_get_actions_in_timeframe s now 24 None)); reflexivity.
Qed.

(* ================================================================== *)
(** ** The next action time *)

Lemma start_of_hour_bounds (t : Z) :
  start_of_hour t <= t < start_of_hour t + timedelta_hours 1.
Proof.
  unfold start_of_hour, timedelta_hours.
  pose proof (Z.mod_pos_bound t usec_per_hour ltac:(reflexivity)). lia.
Qed.

Lemma start_of_day_bounds (t : Z) :
  start_of_day t <= t < start_of_day t + timedelta_days 1.
Proof.
  unfold start_of_day, timedelta_days.
  pose proof (Z.mod_pos_bound t usec_per_day ltac:(reflexivity)). lia.
Qed.

Lemma six_o_clock (t : Z) (k : Z) :
  hour_of (start_of_day t + timedelta_hours 6 + timedelta_days k) = 6 /\
  (start_of_day t + timedelta_hours 6 + timedelta_days k) mod usec_per_hour = 0.
Proof.
  unfold hour_of, start_of_day.
  assert (E : t - t mod usec_per_day + timedelta_hours 6 + timedelta_days k
              = (24 * (t / usec_per_day + k) + 6) * usec_per_hour).
  { pose proof (Z.div_mod t usec_per_day ltac:(discriminate)).
    unfold_time. lia. }
  rewrite E. split.
  - rewrite Z.div_mul by discriminate.
    rewrite Z.add_comm, Z.mul_comm, Z.mod_add by discriminate. reflexivity.
  - apply Z.mod_mul. discriminate.
Qed.

Lemma blocked_until_bounds (s : RateLimiter) (now : Z) (ty : string) (t : Z) :
  blocked_until s now ty = Ok t ->
  now < t <= now + timedelta_hours 24.
Proof.
  unfold blocked_until.
  pose proof (start_of_hour_bounds now) as Hh.
  pose proof (start_of_day_bounds now) as Hd.
  destruct (_get_actions_in_timeframe s now 1 None) as [hn|];
    cbn [bind]; [|discriminate].
  destruct (_get_actions_in_timeframe s now 24 None) as [dn|];
    cbn [bind]; [|discriminate].
  destruct (max_actions_per_day s <=? dn).
  { destruct (start_of_day now + timedelta_hours 6 <=? now) eqn:E;
      intros [= <-];
      [apply Z.leb_le in E|apply Z.leb_gt in E]; unfold_time; lia. }
  destruct (max_actions_per_hour s <=? hn).
  { intros [= <-]. unfold_time. lia. }
  destruct (String.eqb ty "like").
  - destruct (_get_actions_in_timeframe s now 1 (Some "like")) as [ln|];
      cbn [bind]; [|discriminate].
    destruct (max_likes_per_hour s <=? ln); intros [= <-]; unfold_time; lia.
  - intros [= <-]. unfold_time. lia.
Qed.

(** X4: [get_next_action_time].  It answers [None] exactly when
    [can_perform_action] allows the action, and leaves the limiter and the
    random source as that call leaves them; otherwise the time it gives is
    strictly after [now] and at most 24 hours ahead; and when the daily
    limit is what blocks, that time is a six o'clock sharp. *)
Theorem next_action_time_spec (s : RateLimiter) (now : Z) (g : Random)
    (ty : string) :
  let r := get_next_action_time s now g ty in
  (fst (fst r) = None <-> allowed (can_perform_action s now g ty) = true) /\
  snd (fst r) = limiter_after (can_perform_action s now g ty) /\
  snd r = snd (can_perform_action s now g ty) /\
  (forall t, fst (fst r) = Some t -> now < t <= now + timedelta_hours 24) /\
  (forall t hn dn,
     fst (fst r) = Some t ->
     _get_actions_in_timeframe s now 1 None = Ok hn ->
     _get_actions_in_timeframe s now 24 None = Ok dn ->
     max_actions_per_day s <= dn ->
     hour_of t = 6 /\ t mod usec_per_hour = 0).
Proof.
  intros r. subst r.
  destruct (get_next_action_time_limiter s now g ty) as [El Eg].
  pose proof (can_perform_action_limiter s now g ty) as Hlim.
  unfold get_next_action_time, allowed, limiter_after in *.
  destruct (can_perform_action s now g ty) as [[can s1] g1].
  cbn [fst snd] in *.
  split; [|split; [exact El|split; [exact Eg|]]].
  - destruct can; [now split|].
    destruct (blocked_until s1 now ty); cbn [fst]; split; discriminate.
  - destruct can; [split; intros; discriminate|].
    split.
    + intros t. destruct (blocked_until s1 now ty) as [t'|] eqn:E;
        cbn [fst]; intros [= <-].
      * now apply blocked_until_bounds in E.
      * unfold_time. lia.
    + intros t hn dn Ht Hh Hd Hcap.
      assert (B : blocked_until s1 now ty = blocked_until s now ty)
        by (destruct Hlim as [-> | ->]; reflexivity).
      rewrite B in Ht. unfold blocked_until in Ht. rewrite Hh, Hd in Ht.
      cbn [bind] in Ht.
      replace (max_actions_per_day s <=? dn) with true in Ht
        by (symmetry; now apply Z.leb_le).
      cbn [fst] in Ht. injection Ht as <-.
      match goal with
      | |- context [if ?c then _ else _] => destruct c
      end.
      * exact (six_o_clock now 1).
      * pose proof (six_o_clock now 0) as S6.
        replace (start_of_day now + timedelta_hours 6 + timedelta_days 0)
          with (start_of_day now + timedelta_hours 6) in S6
          by (unfold timedelta_days; lia).
        exact S6.
Qed.

(* ================================================================== *)
(** ** The status report *)

Lemma usage_some (u l : Z) (e : Usage) :
  usage u l = Some e ->
  l <> 0 /\ used e = u /\ limit e = l /\ remaining e = Z.max 0 (l - u) /\
  (percentage e == inject_Z u / inject_Z l * 100)%Q.
Proof.
  unfold usage. destruct (l =? 0) eqn:E; [discriminate|].
  apply Z.eqb_neq in E. intros [= <-]. cbn [used limit remaining percentage].
  split; [exact E|]. split; [reflexivity|]. split; [reflexivity|].
  split; reflexivity.
Qed.

Lemma limit_check_remaining (cap n : Z) :
  (cap <=? n) = false <-> 0 < Z.max 0 (cap - n).
Proof. rewrite Z.leb_gt. lia. Qed.

(** X5: the status report agrees with the quota check.  When
    [get_rate_limit_status] returns a report, each of its five entries has
    the count of its window (and type) as [used], its cap, which is not 0,
    as [limit], [remaining = max(0, limit - used)], which is not negative,
    and [percentage = used / limit * 100]; and the daily, hourly and
    per-type limits let an action type through exactly when the report
    shows something remaining in the daily entry, in the hourly entry and,
    for like, reply and retweet, in the entry of that type. *)
Theorem status_agrees_with_quota `{DatetimeText} (s : RateLimiter) (now : Z)
    (st : Status.t) (ty : string) :
  get_rate_limit_status s now = Some st ->
  (_get_actions_in_timeframe s now 1 None
   = Ok (used (Status.hourly_actions st)) /\
   _get_actions_in_timeframe s now 24 None
   = Ok (used (Status.daily_actions st)) /\
   _get_actions_in_timeframe s now 1 (Some "like")
   = Ok (used (Status.hourly_likes st)) /\
   _get_actions_in_timeframe s now 1 (Some "reply")
   = Ok (used (Status.hourly_replies st)) /\
   _get_actions_in_timeframe s now 1 (Some "retweet")
   = Ok (used (Status.hourly_retweets st))) /\
  (limit (Status.hourly_actions st) = max_actions_per_hour s /\
   limit (Status.daily_actions st) = max_actions_per_day s /\
   limit (Status.hourly_likes st) = max_likes_per_hour s /\
   limit (Status.hourly_replies st) = max_replies_per_hour s /\
   limit (Status.hourly_retweets st) = max_retweets_per_hour s) /\
  (forall e,
     In e [Status.hourly_actions st; Status.daily_actions st;
           Status.hourly_likes st; Status.hourly_replies st;
           Status.hourly_retweets st] ->
     limit e <> 0 /\
     remaining e = Z.max 0 (limit e - used e) /\
     0 <= remaining e /\
     (percentage e == inject_Z (used e) / inject_Z (limit e) * 100)%Q) /\
  (quota_checks s now ty = Ok true <->
   0 < remaining (Status.daily_actions st) /\
   0 < remaining (Status.hourly_actions st) /\
   (ty = "like" -> 0 < remaining (Status.hourly_likes st)) /\
   (ty = "reply" -> 0 < remaining (Status.hourly_replies st)) /\
   (ty = "retweet" -> 0 < remaining (Status.hourly_retweets st))).
Proof.
  unfold get_rate_limit_status.
  destruct (_get_actions_in_timeframe s now 1 None) as [hn|] eqn:Eh;
    cbn [caught]; [|discriminate].
  destruct (_get_actions_in_timeframe s now 24 None) as [dn|] eqn:Ed;
    cbn [caught]; [|discriminate].
  destruct (_get_actions_in_timeframe s now 1 (Some "like")) as [ln|] eqn:El;
    cbn [caught]; [|discriminate].
  destruct (_get_actions_in_timeframe s now 1 (Some "reply")) as [rn|] eqn:Er;
    cbn [caught]; [|discriminate].
  destruct (_get_actions_in_timeframe s now 1 (Some "retweet")) as [tn|] eqn:Et;
    cbn [caught]; [|discriminate].
  destruct (usage hn (max_actions_per_hour s)) as [ha|] eqn:Uh; [|discriminate].
  destruct (usage dn (max_actions_per_day s)) as [da|] eqn:Ud; [|discriminate].
  destruct (usage ln (max_likes_per_hour s)) as [hl|] eqn:Ul; [|discriminate].
  destruct (usage rn (max_replies_per_hour s)) as [hr|] eqn:Ur; [|discriminate].
  destruct (usage tn (max_retweets_per_hour s)) as [ht|] eqn:Ut; [|discriminate].
  destruct (caught (_get_current_activity_multiplier s now)) as [am|];
    [|discriminate].
  intros [= <-]. cbn [Status.hourly_actions Status.daily_actions
    Status.hourly_likes Status.hourly_replies Status.hourly_retweets].
  assert (Entry : forall u l e, usage u l = Some e ->
            limit e <> 0 /\
            remaining e = Z.max 0 (limit e - used e) /\
            0 <= remaining e /\
            (percentage e == inject_Z (used e) / inject_Z (limit e) * 100)%Q).
  { intros u l e U. apply usage_some in U as (U0 & U1 & U2 & U3 & U4).
    rewrite U1, U2, U3. repeat split; [exact U0|lia|exact U4]. }
  pose proof (Entry _ _ _ Uh) as Xh. pose proof (Entry _ _ _ Ud) as Xd.
  pose proof (Entry _ _ _ Ul) as Xl. pose proof (Entry _ _ _ Ur) as Xr.
  pose proof (Entry _ _ _ Ut) as Xt.
  apply usage_some in Uh as (_ & Uh1 & Uh2 & Uh3 & _).
  apply usage_some in Ud as (_ & Ud1 & Ud2 & Ud3 & _).
  apply usage_some in Ul as (_ & Ul1 & Ul2 & Ul3 & _).
  apply usage_some in Ur as (_ & Ur1 & Ur2 & Ur3 & _).
  apply usage_some in Ut as (_ & Ut1 & Ut2 & Ut3 & _).
  split; [rewrite Uh1, Ud1, Ul1, Ur1, Ut1; repeat split|].
  split; [rewrite Uh2, Ud2, Ul2, Ur2, Ut2; repeat split|].
  split.
  { intros e [<-|[<-|[<-|[<-|[<-|[]]]]]]; assumption. }
  rewrite Uh3, Ud3, Ul3, Ur3, Ut3.
  unfold quota_checks. rewrite Ed, Eh. cbn [bind].
  rewrite <- !limit_check_remaining.
  destruct (max_actions_per_day s <=? dn);
    [split; [discriminate|intros [? _]; discriminate]|].
  destruct (max_actions_per_hour s <=? hn);
    [split; [discriminate|intros (_ & ? & _); discriminate]|].
  destruct (String.eqb ty "like") eqn:E1.
  { apply String.eqb_eq in E1. subst ty. rewrite El. cbn [bind].
    destruct (max_likes_per_hour s <=? ln).
    - split; [discriminate|]. intros (_ & _ & L & _). now specialize (L eq_refl).
    - split; [|reflexivity]. intros _. repeat split; discriminate. }
  destruct (String.eqb ty "reply") eqn:E2.
  { apply String.eqb_eq in E2. subst ty. rewrite Er. cbn [bind].
    destruct (max_replies_per_hour s <=? rn).
    - split; [discriminate|]. intros (_ & _ & _ & L & _).
      now specialize (L eq_refl).
    - split; [|reflexivity]. intros _. repeat split; discriminate. }
  destruct (String.eqb ty "retweet") eqn:E3.
  { apply String.eqb_eq in E3. subst ty. rewrite Et. cbn [bind].
    destruct (max_retweets_per_hour s <=? tn).
    - split; [discriminate|]. intros (_ & _ & _ & _ & L).
      now specialize (L eq_refl).
    - split; [|reflexivity]. intros _. repeat split; discriminate. }
  apply String.eqb_neq in E1, E2, E3.
  split; [|reflexivity]. intros _. repeat split; try reflexivity;
    intros ->; contradiction.
Qed.

(** X6: a zero cap silences the status report.  With any of the five caps
    at 0 the percentage divides by zero, the exception is caught, and
    [get_rate_limit_status] returns the empty dict, whatever the history. *)
Theorem status_zero_cap `{DatetimeText} (s : RateLimiter) (now : Z) :
  max_actions_per_hour s = 0 \/ max_actions_per_day s = 0 \/
  max_likes_per_hour s = 0 \/ max_replies_per_hour s = 0 \/
  max_retweets_per_hour s = 0 ->
  get_rate_limit_status s now = None.
Proof.
  intros Hz. unfold get_rate_limit_status.
  destruct (caught (_get_actions_in_timeframe s now 1 None)); [|reflexivity].
  destruct (caught (_get_actions_in_timeframe s now 24 None)); [|reflexivity].
  destruct (caught (_get_actions_in_timeframe s now 1 (Some "like")));
    [|reflexivity].
  destruct (caught (_get_actions_in_timeframe s now 1 (Some "reply")));
    [|reflexivity].
  destruct (caught (_get_actions_in_timeframe s now 1 (Some "retweet")));
    [|reflexivity].
  unfold usage.
  destruct Hz as [-> | [-> | [-> | [-> | ->]]]]; cbn [Z.eqb];
    repeat match goal with
           | |- context [if ?c =? 0 then _ else _] => destruct (c =? 0)
           end; reflexivity.
Qed.

(* ================================================================== *)
(** ** Runs of [record_action] *)

Lemma last_cons_default {A : Type} (a d : A) (l : list A) :
  last (a :: l) d = last l a.
Proof.
  revert a d. induction l as [|b l IH]; intros a d; [reflexivity|].
  change (last (a :: b :: l) d) with (last (b :: l) d).
  now rewrite !IH.
Qed.

Lemma record_failures_last `{DatetimeText} (fails : list (Z * string * pyval))
    (s : RateLimiter) (w : World) :
  last_error_time (fst (record_all s w (map failed_call fails))) =
  last (map (fun c => Some (fst (fst c))) fails) (last_error_time s).
Proof.
  revert s w. induction fails as [|[[t ty] md] fails IH]; intros s w.
  - reflexivity.
  - cbn [map failed_call record_all fst].
    pose proof (record_failure_errors s w t ty md) as [_ Hl].
    destruct (record_action s w t ty false md) as [s' w']. cbn [fst] in Hl.
    rewrite IH, Hl. now rewrite last_cons_default.
Qed.

Lemma record_success_errors `{DatetimeText} (s : RateLimiter) (w : World)
    (t : Z) (ty : string) (md : pyval) :
  consecutive_errors (fst (record_action s w t ty true md)) = 0%nat /\
  last_error_time (fst (record_action s w t ty true md)) = None.
Proof. rewrite record_action_limiter. split; reflexivity. Qed.

(** X7: [consecutive_errors] counts the failures since the last success.
    After a run of [record_action] calls that are all failures the count
    has grown by their number; after a run whose last success is followed
    by [fails] failures the count is the number of [fails], whatever it
    was before; and [last_error_time] is the time of the last call when
    that call failed, and is cleared when it succeeded. *)
Theorem consecutive_errors_since_success `{DatetimeText} (s : RateLimiter)
    (w : World) (before : list (Z * string * bool * pyval))
    (t : Z) (ty : string) (md : pyval) (fails : list (Z * string * pyval)) :
  let all_fail := fst (record_all s w (map failed_call fails)) in
  let mixed := fst (record_all s w
                      (before ++ (t, ty, true, md) :: map failed_call fails)) in
  consecutive_errors all_fail
    = (consecutive_errors s + List.length fails)%nat /\
  last_error_time all_fail
    = last (map (fun c => Some (fst (fst c))) fails) (last_error_time s) /\
  consecutive_errors mixed = List.length fails /\
  last_error_time mixed = last (map (fun c => Some (fst (fst c))) fails) None.
Proof.
  intros all_fail mixed. subst all_fail mixed.
  split; [apply record_failures_errors|].
  split; [apply record_failures_last|].
  rewrite record_all_app.
  destruct (record_all s w before) as [s1 w1]. cbn [fst snd record_all].
  pose proof (record_success_errors s1 w1 t ty md) as [Hc Hl].
  destruct (record_action s1 w1 t ty true md) as [s2 w2]. cbn [fst] in *.
  rewrite record_failures_errors, record_failures_last, Hc, Hl.
  split; reflexivity.
Qed.

Lemma deque_app_deque {A : Type} (a l : list A) :
  deque (deque a ++ l) = deque (a ++ l).
Proof.
  destruct (Z_le_gt_dec (len a) maxlen) as [Hle|Hgt].
  - now rewrite (deque_fits a Hle).
  - unfold deque at 2.
    set (k1 := Z.to_nat (len a - maxlen)).
    assert (Hk1 : (k1 <= List.length a)%nat)
      by (subst k1; unfold len, maxlen in *; lia).
    unfold deque. rewrite !len_app.
    assert (Hs : len (skipn k1 a) = maxlen).
    { unfold len. rewrite length_skipn. subst k1.
      unfold len, maxlen in *. lia. }
    rewrite Hs.
    replace (Z.to_nat (maxlen + len l - maxlen)) with (List.length l)
      by (unfold len; lia).
    replace (Z.to_nat (len a + len l - maxlen))
      with (List.length l + k1)%nat
      by (subst k1; unfold len, maxlen in *; lia).
    rewrite <- skipn_skipn. f_equal.
    rewrite skipn_app.
    replace (k1 - List.length a)%nat with 0%nat by lia. reflexivity.
Qed.

Lemma deque_extend_deque (l h : list pyval) :
  len h <= maxlen -> deque_extend h l = deque (h ++ l).
Proof.
  revert h. induction l as [|x l IH]; intros h Hh.
  - cbn. rewrite app_nil_r. symmetry. now apply deque_fits.
  - unfold deque_extend in *. cbn [fold_left].
    rewrite IH by now apply deque_append_len.
    unfold deque_append. rewrite deque_app_deque.
    now rewrite <- app_assoc.
Qed.

Lemma record_all_extend `{DatetimeText}
    (calls : list (Z * string * bool * pyval)) (s : RateLimiter) (w : World) :
  actions_history (fst (record_all s w calls)) =
  deque_extend (actions_history s) (map recorded calls).
Proof.
  revert s w. induction calls as [|[[[t ty] ok] md] calls IH]; intros s w.
  - reflexivity.
  - cbn [record_all map]. unfold deque_extend. cbn [fold_left].
    pose proof (record_action_append s w t ty ok md) as E.
    destruct (record_action s w t ty ok md) as [s' w']. cbn [fst] in E.
    rewrite IH, E. reflexivity.
Qed.

(** X8: the history holds the most recent actions.  After any run of
    [record_action] calls on a history within capacity, the history is the
    old history followed by the recorded actions in the order of the
    calls, cut to its last 10000 items. *)
Theorem record_all_history `{DatetimeText} (s : RateLimiter) (w : World)
    (calls : list (Z * string * bool * pyval)) :
  len (actions_history s) <= maxlen ->
  actions_history (fst (record_all s w calls)) =
    deque (actions_history s ++ map recorded calls) /\
  len (actions_history (fst (record_all s w calls))) <= maxlen /\
  (len (actions_history s) + len calls <= maxlen ->
   actions_history (fst (record_all s w calls)) =
     actions_history s ++ map recorded calls).
Proof.
  intros Hlen.
  assert (E : actions_history (fst (record_all s w calls)) =
              deque (actions_history s ++ map recorded calls)).
  { rewrite record_all_extend. now apply deque_extend_deque. }
  split; [exact E|]. split.
  - rewrite E. apply deque_len.
  - intros Hroom. rewrite E. apply deque_fits.
    rewrite len_app. unfold len in *. rewrite length_map. lia.
Qed.

(* ================================================================== *)
(** ** The quiet-period draw *)

Lemma hour_of_range (t : Z) : 0 <= hour_of t < 24.
Proof. unfold hour_of. apply Z.mod_pos_bound. reflexivity. Qed.

(** X9: the quiet-period draw.  Outside the quiet periods
    [can_perform_action] reads no random sample and its answer does not
    depend on the random source.  With the periods [__init__] sets, (23, 6)
    and (12, 13), the quiet hours are 23, 0 to 6, 12 and 13; in one of them,
    when no cooldown is due and no limit is reached, exactly one sample is
    read and the action is allowed exactly when that sample is not below
    0.7. *)
Theorem quiet_period_draw (s : RateLimiter) (now : Z) (g g' : Random)
    (ty : string) :
  (_is_in_quiet_period s now = false ->
   snd (can_perform_action s now g ty) = g /\
   allowed (can_perform_action s now g ty)
   = allowed (can_perform_action s now g' ty)) /\
  (quiet_periods s = [(23, 6); (12, 13)] ->
   let h := hour_of now in
   _is_in_quiet_period s now
   = (23 <=? h) || (h <=? 6) || ((12 <=? h) && (h <=? 13)) /\
   (_is_in_quiet_period s now = true ->
    (consecutive_errors s < 5)%nat ->
    quota_checks s now ty = Ok true ->
    allowed (can_perform_action s now g ty)
    = negb (Qltb (sample g (cursor g)) 0.7) /\
    cursor (snd (can_perform_action s now g ty)) = S (cursor g))).
Proof.
  split.
  - intros Hq. unfold _is_in_quiet_period in Hq.
    assert (C : forall s1 gg, quiet_periods s1 = quiet_periods s ->
              checks_after_cooldown s1 now gg ty =
              (match quota_checks s1 now ty with
               | Ok true => true
               | _ => false
               end, s1, gg)).
    { intros s1 gg E. unfold checks_after_cooldown. rewrite E.
      rewrite (quiet_loop_outside _ _ gg Hq).
      destruct (quota_checks s1 now ty) as [[|]|]; reflexivity. }
    unfold can_perform_action, allowed.
    destruct (5 <=? consecutive_errors s)%nat.
    + destruct (last_error_time s) as [t|].
      * destruct (now - t <? cooldown_seconds * usec_per_second);
          [split; reflexivity|].
        rewrite !C by reflexivity. split; reflexivity.
      * rewrite !C by reflexivity. split; reflexivity.
    + rewrite !C by reflexivity. split; reflexivity.
  - intros Hp h.
    assert (Hin : _is_in_quiet_period s now
                  = (23 <=? h) || (h <=? 6) || ((12 <=? h) && (h <=? 13))).
    { unfold _is_in_quiet_period. rewrite Hp. subst h.
      cbn [existsb fst snd in_period Z.ltb Z.compare Pos.compare
           Pos.compare_cont].
      now rewrite orb_false_r. }
    split; [exact Hin|].
    intros Hq Hce Hquota. rewrite Hin in Hq.
    unfold can_perform_action.
    replace (5 <=? consecutive_errors s)%nat with false
      by (symmetry; apply Nat.leb_gt; exact Hce).
    unfold checks_after_cooldown, allowed. rewrite Hquota, Hp.
    fold h. pose proof (hour_of_range now) as Hr. fold h in Hr.
    cbn [quiet_loop in_period Z.ltb Z.compare Pos.compare Pos.compare_cont].
    destruct ((23 <=? h) || (h <=? 6)) eqn:E1.
    + unfold random_random.
      destruct (Qltb (sample g (cursor g)) 0.7); [split; reflexivity|].
      replace ((12 <=? h) && (h <=? 13)) with false; [split; reflexivity|].
      symmetry. apply andb_false_iff.
      apply orb_true_iff in E1 as [E1|E1];
        [apply Z.leb_le in E1|apply Z.leb_le in E1].
      * right. apply Z.leb_gt. lia.
      * left. apply Z.leb_gt. lia.
    + cbn [orb] in Hq. rewrite Hq. unfold random_random.
      destruct (Qltb (sample g (cursor g)) 0.7); split; reflexivity.
Qed.

(* ================================================================== *)
(** ** How long the waits sleep *)

Lemma py_max_cases (a b : Q) :
  (a < b /\ py_max a b = b)%Q \/ (b <= a /\ py_max a b = a)%Q.
Proof. unfold py_max. destruct (Qlt_le_dec a b); [left|right]; now split. Qed.

Lemma human_like_delay_bounds (base v : Q) (g : Random) :
  let slept := fst (human_like_delay base v g) in
  (0.1 <= slept)%Q /\
  (unit_samples g -> 0 <= base -> 0 <= v ->
   base * (1 - v) <= slept /\ slept <= py_max 0.1 (base * (1 + v)))%Q.
Proof.
  unfold human_like_delay, random_uniform, random_random. cbn [fst].
  split; [apply py_max_lower|].
  intros Hu Hb Hv. destruct (Hu (cursor g)) as [H0 H1].
  set (r := sample g (cursor g)) in *.
  set (delay := (base * (1 + (- v + (v - - v) * r)))%Q).
  assert (Hp : (0 <= base * v)%Q) by nra.
  assert (Hpr : (0 <= base * v * r /\ base * v * r <= base * v)%Q)
    by (split; nra).
  assert (E : (delay == base - base * v + 2 * (base * v * r))%Q)
    by (subst delay; ring).
  assert (Hd : (base * (1 - v) <= delay /\ delay <= base * (1 + v))%Q)
    by (rewrite E; split; lra).
  destruct (py_max_cases 0.1 delay) as [[Hlt ->]|[Hle ->]];
  destruct (py_max_cases 0.1 (base * (1 + v))) as [[Hlt' ->]|[Hle' ->]];
    split; lra.
Qed.

Lemma human_like_delay_source (base v : Q) (g : Random) :
  sample (snd (human_like_delay base v g)) = sample g.
Proof. reflexivity. Qed.

(** X10: how long the waits sleep.  [wait_before_action] and
    [wait_after_error] never sleep less than 0.1 seconds.  With samples in
    [[0, 1)]: when the range of [_calculate_dynamic_delay] is ordered,
    [wait_before_action] sleeps between 8 and 2160 seconds; and with
    configured error bounds [0 <= min <= max], [wait_after_error] sleeps at
    least 0.9 times the scaled lower bound and at most 1.1 times the scaled
    upper bound (or 0.1 seconds). *)
Theorem wait_durations (s : RateLimiter) (now : Z) (g : Random) :
  (0.1 <= fst (wait_before_action s now g))%Q /\
  (0.1 <= snd (fst (wait_after_error s g)))%Q /\
  (unit_samples g ->
   forall lo hi,
     _calculate_dynamic_delay s now = Ok (lo, hi) ->
     (lo <= hi ->
      8 <= fst (wait_before_action s now g) /\
      fst (wait_before_action s now g) <= 2160)%Q) /\
  (unit_samples g ->
   (0 <= fst (delay_after_error s) ->
    fst (delay_after_error s) <= snd (delay_after_error s) ->
    0.9 * fst (error_delay_range s) <= snd (fst (wait_after_error s g)) /\
    snd (fst (wait_after_error s g))
    <= py_max 0.1 (1.1 * snd (error_delay_range s)))%Q).
Proof.
  split; [|split; [|split]].
  - unfold wait_before_action.
    destruct (_calculate_dynamic_delay s now) as [[lo hi]|e];
      [|cbn [fst]; lra].
    destruct (random_uniform lo hi g) as [delay g1].
    apply human_like_delay_bounds.
  - unfold wait_after_error.
    destruct (error_delay_range s) as [lo hi].
    destruct (random_uniform lo hi g) as [delay g1].
    pose proof (human_like_delay_bounds delay 0.1 g1) as [B _].
    destruct (human_like_delay delay 0.1 g1). exact B.
  - intros Hu lo hi Hc Hle.
    assert (Hlo : (10 <= lo)%Q /\ (hi <= 1800)%Q).
    { unfold _calculate_dynamic_delay in Hc.
      destruct (delay_between_actions s) as [bmin bmax].
      destruct (_get_current_activity_multiplier s now); [|discriminate].
      destruct (_get_actions_in_timeframe s now 1 None); [|discriminate].
      cbn [bind] in Hc. injection Hc as <- <-.
      split; [apply py_max_lower|apply py_min_upper]. }
    destruct Hlo as [Hlo Hhi].
    unfold wait_before_action. rewrite Hc.
    unfold random_uniform, random_random.
    destruct (Hu (cursor g)) as [H0 H1].
    set (r := sample g (cursor g)) in *.
    set (g1 := mkRandom (sample g) (S (cursor g))).
    assert (Hu1 : unit_samples g1) by (intros n; apply Hu).
    set (delay := (lo + (hi - lo) * r)%Q).
    assert (Hd : (lo <= delay /\ delay <= hi)%Q) by (subst delay; split; nra).
    destruct (human_like_delay_bounds delay 0.2 g1) as [_ B].
    destruct (B Hu1 ltac:(lra) ltac:(lra)) as [B1 B2].
    destruct (py_max_cases 0.1 (delay * (1 + 0.2))) as [[_ E]|[_ E]];
      rewrite E in B2; split; lra.
  - intros Hu Hmin Hord.
    unfold wait_after_error, error_delay_range in *.
    destruct (delay_after_error s) as [bmin bmax]. cbn [fst snd] in *.
    set (m := (1.0 + inject_Z (Z.of_nat (consecutive_errors s)) * 0.5)%Q).
    assert (Hm : (1 <= m)%Q).
    { subst m.
      assert (0 <= inject_Z (Z.of_nat (consecutive_errors s)))%Q
        by (rewrite <- (Qle_bool_iff 0); unfold Qle_bool; cbn;
            apply Z.leb_le; lia).
      lra. }
    unfold random_uniform, random_random.
    destruct (Hu (cursor g)) as [H0 H1].
    set (r := sample g (cursor g)) in *.
    set (g1 := mkRandom (sample g) (S (cursor g))).
    assert (Hu1 : unit_samples g1) by (intros n; apply Hu).
    set (lo := (bmin * m)%Q). set (hi := (bmax * m)%Q).
    set (delay := (lo + (hi - lo) * r)%Q).
    assert (Hlh : (0 <= lo /\ lo <= hi)%Q) by (subst lo hi; split; nra).
    assert (Hd : (lo <= delay /\ delay <= hi)%Q) by (subst delay; split; nra).
    pose proof (human_like_delay_bounds delay 0.1 g1) as [_ B].
    destruct (B Hu1 ltac:(lra) ltac:(lra)) as [B1 B2].
    destruct (human_like_delay delay 0.1 g1) as [slept g2]. cbn [fst snd] in *.
    split; [lra|].
    destruct (py_max_cases 0.1 (delay * (1 + 0.1))) as [[L E]|[L E]];
      rewrite E in B2;
      destruct (py_max_cases 0.1 (1.1 * hi)) as [[L' E']|[L' E']];
      rewrite E'; lra.
Qed.

(* ================================================================== *)
(** ** More on loading *)

(** The loop of the load over a run of dicts, then the rest. *)
Lemma load_loop_dicts_app `{DatetimeText} (before rest h0 : list pyval) :
  forallb is_dict before = true ->
  load_loop (before ++ rest) h0 =
  load_loop rest (deque_extend h0 (revived before)).
Proof.
  revert h0. induction before as [|a before IH]; intros h0 Hd.
  - reflexivity.
  - cbn [forallb] in Hd. apply andb_true_iff in Hd as [Ha Hd].
    dict_case a d.
    unfold revived, deque_extend in *.
    cbn [app load_loop flat_map py_get revive].
    destruct (dict_get d "timestamp") as [v|].
    + destruct (truthy v); [|now rewrite IH].
      destruct (parse_timestamp v) as [t|]; [|now rewrite IH].
      cbn [py_setitem app fold_left]. now rewrite IH.
    + cbn [truthy]. now rewrite IH.
Qed.

Lemma deque_extend_dated `{DatetimeText} (records h0 : list pyval) :
  forallb dated h0 = true ->
  forallb dated (deque_extend h0 (revived records)) = true.
Proof.
  intros Hd. unfold deque_extend.
  assert (G : forall l h, forallb dated h = true -> forallb dated l = true ->
                          forallb dated (fold_left deque_append l h) = true).
  { induction l as [|x l IH]; intros h Hh Hl; [exact Hh|].
    cbn [forallb] in Hl. apply andb_true_iff in Hl as [Hx Hl].
    cbn [fold_left]. apply IH; [|exact Hl].
    now apply forallb_deque_append. }
  apply G; [exact Hd|apply revived_dated].
Qed.

Lemma filter_forallb {A : Type} (f : A -> bool) (l : list A) :
  forallb f (filter f l) = true.
Proof.
  apply forallb_forall. intros x Hx. now apply filter_In in Hx.
Qed.

(** X11: the retention of a load.  When the records of the log file are
    all dicts, a load into an empty history takes the last 10000 records
    whose timestamp parses.  If the timestamps of these are all naive, it
    keeps those strictly newer than seven days before [now]: after it no
    action of the history is outside the retention window.  If one of them
    is aware, its text carrying a UTC offset, the comparison with the naive
    cutoff raises, the exception is caught and the clean-up does not take
    place: all of them stay, whatever their age. *)
Theorem load_retention `{DatetimeText} (s : RateLimiter) (w : World)
    (now : Z) (store : list (string * pyval)) (records : list pyval) :
  fs w (actions_log_file s) = Json (PyDict store) ->
  dict_get store "actions" = Some (PyList records) ->
  forallb is_dict records = true ->
  actions_history s = [] ->
  let parsed := deque (revived records) in
  let loaded := actions_history (fst (_load_actions_history s w now)) in
  (forallb naive_dated parsed = true ->
   loaded = filter (retained now) parsed /\
   forallb (retained now) loaded = true) /\
  (forallb naive_dated parsed = false -> loaded = parsed).
Proof.
  intros Hfs Hget Hd H0 parsed loaded.
  assert (E : loaded = cleaned_up now parsed).
  { subst loaded parsed. rewrite load_fst. unfold load_try, load_json_file.
    rewrite Hfs.
    assert (Ht : truthy (PyDict store) = true)
      by (destruct store; [discriminate|reflexivity]).
    rewrite Ht. cbn [negb py_get]. rewrite Hget. cbn [py_iter].
    rewrite (load_loop_dicts _ _ Hd), H0.
    rewrite deque_extend_deque by (change (len []) with 0; unfold maxlen; lia).
    cbn [app].
    assert (Hdt : forallb dated (deque (revived records)) = true)
      by (unfold deque; apply forallb_skipn, revived_dated).
    pose proof (retain_recent_cleaned_up now _ Hdt) as Hc.
    destruct (retain_recent (now - timedelta_days 7) (deque (revived records)))
      as [kept|e]; cbn [fst actions_history set_history].
    - subst kept. apply deque_fits.
      pose proof (cleaned_up_len now (deque (revived records))).
      pose proof (deque_len (revived records)). lia.
    - exact Hc. }
  split.
  - intros Hn. rewrite E, (cleaned_up_naive _ _ Hn).
    split; [reflexivity|apply filter_forallb].
  - intros Hn. rewrite E. now apply cleaned_up_aware.
Qed.

(** X12: a record that is not a dict aborts the load.  When the records
    before it are dicts, the [AttributeError] it raises is caught after
    those records were appended and before the clean-up: the history is
    left with every record before it whose timestamp parses, those outside
    the retention window included, and with none of the records after
    it. *)
Theorem load_aborted_by_non_dict `{DatetimeText} (s : RateLimiter)
    (w : World) (now : Z) (store : list (string * pyval))
    (before after : list pyval) (x : pyval) :
  fs w (actions_log_file s) = Json (PyDict store) ->
  dict_get store "actions" = Some (PyList (before ++ x :: after)) ->
  forallb is_dict before = true ->
  is_dict x = false ->
  actions_history s = [] ->
  actions_history (fst (_load_actions_history s w now))
  = deque (revived before).
Proof.
  intros Hfs Hget Hd Hx H0.
  rewrite load_fst. unfold load_try, load_json_file. rewrite Hfs.
  assert (Ht : truthy (PyDict store) = true)
    by (destruct store; [discriminate|reflexivity]).
  rewrite Ht. cbn [negb py_get]. rewrite Hget. cbn [py_iter].
  rewrite (load_loop_dicts_app _ _ _ Hd), H0.
  rewrite deque_extend_deque by (change (len []) with 0; unfold maxlen; lia).
  cbn [app load_loop].
  destruct x; try discriminate; reflexivity.
Qed.

Lemma dict_serialisable_get (d : list (string * pyval)) (k : string)
    (v : pyval) :
  dict_serialisable d = true -> dict_get d k = Some v ->
  json_serialisable v = true.
Proof.
  unfold dict_serialisable.
  induction d as [|[k' v'] d IH]; cbn [forallb dict_get snd]; [discriminate|].
  intros Hs. apply andb_true_iff in Hs as [Hv Hs].
  destruct (String.eqb k' k); [now intros [= <-]|now apply IH].
Qed.

Lemma dict_serialisable_put (d : list (string * pyval)) (k : string)
    (v : pyval) :
  dict_serialisable d = true -> json_serialisable v = true ->
  dict_serialisable (dict_set d k v) = true.
Proof.
  unfold dict_serialisable. intros Hs Hv.
  induction d as [|[k' v'] d IH]; cbn [dict_set forallb snd].
  - now rewrite Hv.
  - cbn [forallb snd] in Hs. apply andb_true_iff in Hs as [Hv' Hs].
    destruct (String.eqb k' k); cbn [forallb snd].
    + now rewrite Hv, Hs.
    + now rewrite Hv', IH.
Qed.

Lemma revive_encodable `{DatetimeText} (a a' : pyval) :
  json_serialisable a = true -> revive a = Some a' -> encodable a' = true.
Proof.
  dict_case a d; try (intros _; discriminate).
  rewrite json_serialisable_dict. intros Hs. unfold revive.
  destruct (dict_get d "timestamp") as [v|]; [|discriminate].
  destruct (truthy v); [|discriminate].
  destruct (parse_timestamp v) as [[t|t o]|]; [| |discriminate];
    intros [= <-]; unfold encodable;
    rewrite dict_get_set_same, dict_set_set; cbn [py_datetime];
    rewrite json_serialisable_dict; now apply dict_serialisable_put.
Qed.

Lemma revived_encodable `{DatetimeText} (l : list pyval) :
  forallb json_serialisable l = true -> forallb encodable (revived l) = true.
Proof.
  induction l as [|a l IH]; [reflexivity|].
  cbn [forallb]. intros Hs. apply andb_true_iff in Hs as [Ha Hl].
  unfold revived in *. cbn [flat_map]. rewrite forallb_app, (IH Hl), andb_true_r.
  destruct (revive a) as [a'|] eqn:E; [|reflexivity].
  cbn [forallb]. now rewrite (revive_encodable _ _ Ha E).
Qed.

Lemma filter_filter_same {A : Type} (f : A -> bool) (l : list A) :
  filter f (filter f l) = filter f l.
Proof.
  induction l as [|a l IH]; [reflexivity|].
  cbn [filter]. destruct (f a) eqn:E; cbn [filter]; rewrite ?E, IH; reflexivity.
Qed.

Lemma forallb_filter_sub {A : Type} (f g : A -> bool) (l : list A) :
  forallb f l = true -> forallb f (filter g l) = true.
Proof.
  intros Hf. apply forallb_forall. intros x Hx. apply filter_In in Hx as [Hx _].
  revert x Hx. now apply forallb_forall.
Qed.

(** X13: reloading changes nothing.  Load a log file that holds JSON with
    at most 10000 records, all dicts; save the loaded history; load it
    again at the same clock reading: the history is the one of the first
    load. *)
Theorem reload_idempotent `{D : DatetimeText} {L : DatetimeTextLaws D}
    (s fresh : RateLimiter) (w : World) (now saved_at : Z)
    (store : list (string * pyval)) (records : list pyval) :
  fs w (actions_log_file s) = Json (PyDict store) ->
  json_serialisable (PyDict store) = true ->
  dict_get store "actions" = Some (PyList records) ->
  forallb is_dict records = true ->
  len records <= maxlen ->
  actions_history s = [] ->
  actions_history fresh = [] ->
  actions_log_file fresh = actions_log_file s ->
  let s1 := fst (_load_actions_history s w now) in
  let w1 := _save_actions_history s1 w saved_at in
  actions_history (fst (_load_actions_history fresh w1 now))
  = actions_history s1.
Proof.
  intros Hfs Hjson Hget Hd Hlen H0 Hf0 Hpath s1 w1.
  assert (E1 : s1 = set_history s (cleaned_up now (revived records))).
  { subst s1. rewrite load_fst.
    now rewrite (load_try_dicts s w now store records Hfs Hget Hd Hlen H0). }
  assert (Hrec : forallb json_serialisable records = true).
  { rewrite json_serialisable_dict in Hjson.
    apply (dict_serialisable_get _ _ _ Hjson) in Hget. exact Hget. }
  subst w1. rewrite save_then_load.
  - rewrite E1. cbn [actions_history set_history]. apply cleaned_up_twice.
  - rewrite E1. cbn [actions_history set_history].
    apply cleaned_up_forallb, revived_encodable, Hrec.
  - rewrite E1. cbn [actions_history set_history].
    pose proof (cleaned_up_len now (revived records)).
    pose proof (revived_len records). lia.
  - exact Hf0.
  - rewrite Hpath, E1. reflexivity.
Qed.

(* ================================================================== *)
(** ** Durations and the time to the next hour *)

(** X14: [format_duration] shows no seconds from one minute on.  Two
    durations of at least a minute that agree to the minute are formatted
    alike; so are two durations of at least a day that agree to the hour;
    in particular a duration of at least a minute is formatted like itself
    rounded down to the minute. *)
Theorem format_duration_truncates (seconds seconds' : Z) :
  (60 <= seconds -> 60 <= seconds' -> seconds / 60 = seconds' / 60 ->
   format_duration seconds = format_duration seconds') /\
  (86400 <= seconds -> 86400 <= seconds' ->
   seconds / 3600 = seconds' / 3600 ->
   format_duration seconds = format_duration seconds') /\
  (60 <= seconds ->
   format_duration seconds = format_duration (seconds - seconds mod 60)).
Proof.
  assert (M : forall a b, 60 <= a -> 60 <= b -> a / 60 = b / 60 ->
                          format_duration a = format_duration b).
  { intros a b Ha Hb E. unfold format_duration.
    order_false (a <? 60). order_false (b <? 60).
    assert (E1 : (a <? 3600) = (b <? 3600)).
    { destruct (a <? 3600) eqn:Ea; destruct (b <? 3600) eqn:Eb;
        try reflexivity;
        rewrite ?Z.ltb_lt, ?Z.ltb_ge in *; Z.div_mod_to_equations; lia. }
    assert (E2 : (a <? 86400) = (b <? 86400)).
    { destruct (a <? 86400) eqn:Ea; destruct (b <? 86400) eqn:Eb;
        try reflexivity;
        rewrite ?Z.ltb_lt, ?Z.ltb_ge in *; Z.div_mod_to_equations; lia. }
    assert (E3 : a / 3600 = b / 3600) by (Z.div_mod_to_equations; lia).
    assert (E4 : a mod 3600 / 60 = b mod 3600 / 60)
      by (Z.div_mod_to_equations; lia).
    assert (E5 : a / 86400 = b / 86400) by (Z.div_mod_to_equations; lia).
    assert (E6 : a mod 86400 / 3600 = b mod 86400 / 3600)
      by (Z.div_mod_to_equations; lia).
    now rewrite E, E1, E2, E3, E4, E5, E6. }
  split; [apply M|]. split.
  - intros Ha Hb E. unfold format_duration.
    order_false (seconds <? 60). order_false (seconds' <? 60).
    order_false (seconds <? 3600). order_false (seconds' <? 3600).
    order_false (seconds <? 86400). order_false (seconds' <? 86400).
    assert (E5 : seconds / 86400 = seconds' / 86400)
      by (Z.div_mod_to_equations; lia).
    assert (E6 : seconds mod 86400 / 3600 = seconds' mod 86400 / 3600)
      by (Z.div_mod_to_equations; lia).
    now rewrite E5, E6.
  - intros Ha. apply M; try lia; Z.div_mod_to_equations; lia.
Qed.

Lemma whole_seconds_floor (td : Z) :
  0 <= td -> whole_seconds td = td / usec_per_second.
Proof.
  intros H. unfold whole_seconds. apply Z.quot_div_nonneg; [exact H|].
  reflexivity.
Qed.

(** X15: the time to the next hour and to the next day.
    [get_time_until_next_hour] is between 0 and 3600 and
    [get_time_until_next_day] between 0 and 86400, the upper value being
    reached exactly on the hour, respectively at midnight; and [now] plus
    that many seconds falls in the last second up to the next hour,
    respectively the next midnight. *)
Theorem time_until_next (now : Z) :
  let h := get_time_until_next_hour now in
  let d := get_time_until_next_day now in
  let next_hour := start_of_hour now + timedelta_hours 1 in
  let next_day := start_of_day now + timedelta_days 1 in
  (0 <= h <= 3600 /\ (h = 3600 <-> now mod usec_per_hour = 0) /\
   next_hour - usec_per_second < now + h * usec_per_second <= next_hour) /\
  (0 <= d <= 86400 /\ (d = 86400 <-> now mod usec_per_day = 0) /\
   next_day - usec_per_second < now + d * usec_per_second <= next_day).
Proof.
  intros h d next_hour next_day.
  pose proof (start_of_hour_bounds now) as Hh.
  pose proof (start_of_day_bounds now) as Hd.
  subst h d next_hour next_day.
  unfold get_time_until_next_hour, get_time_until_next_day.
  rewrite !whole_seconds_floor by lia.
  unfold start_of_hour, start_of_day in *.
  pose proof (Z.mod_pos_bound now usec_per_hour ltac:(reflexivity)) as Mh.
  pose proof (Z.mod_pos_bound now usec_per_day ltac:(reflexivity)) as Md.
  set (rh := now mod usec_per_hour) in *.
  set (rd := now mod usec_per_day) in *.
  replace (now - rh + timedelta_hours 1 - now) with (timedelta_hours 1 - rh)
    by lia.
  replace (now - rd + timedelta_days 1 - now) with (timedelta_days 1 - rd)
    by lia.
  unfold_time.
  split; repeat split; try (Z.div_mod_to_equations; lia).
Qed.

(* ================================================================== *)
(** ** The tracker of [utils] *)

Lemma retain_recent_newer (c : Z) (l : list pyval) :
  forallb naive_dated l = true -> retain_recent c l = Ok (filter (newer c) l).
Proof.
  induction l as [|a l IH]; [reflexivity|].
  cbn [forallb]. intros H. apply andb_true_iff in H as [Ha Hl].
  cbn [retain_recent filter]. rewrite (IH Hl).
  dict_case a d. unfold naive_dated in Ha. unfold py_getitem, newer.
  destruct (dict_get d "timestamp") as [[| | | |t| | |]|]; try discriminate.
  cbn [bind py_gt_datetime]. destruct (c <? t); reflexivity.
Qed.

Lemma well_formed_dated (l : list pyval) :
  forallb well_formed l = true -> forallb naive_dated l = true.
Proof.
  induction l as [|a l IH]; [reflexivity|].
  cbn [forallb]. intros H. apply andb_true_iff in H as [Ha Hl].
  rewrite (IH Hl), andb_true_r. dict_case a d.
  unfold well_formed in Ha. unfold naive_dated.
  destruct (dict_get d "timestamp") as [[| | | |t| | |]|]; try discriminate.
  reflexivity.
Qed.

Lemma of_type_well_formed (ty : string) (l : list pyval) :
  forallb well_formed l = true -> of_type ty l = Ok (filter (typed ty) l).
Proof.
  induction l as [|a l IH]; [reflexivity|].
  cbn [forallb]. intros H. apply andb_true_iff in H as [Ha Hl].
  cbn [of_type filter]. rewrite (IH Hl).
  dict_case a d. unfold well_formed in Ha. unfold py_getitem, typed.
  destruct (dict_get d "timestamp") as [[| | | |t| | |]|]; try discriminate.
  destruct (dict_get d "type") as [v|]; [|discriminate].
  cbn [bind]. destruct (py_eq_str v ty); reflexivity.
Qed.

Lemma filter_typed_newer (c : Z) (ty : string) (l : list pyval) :
  forallb well_formed l = true ->
  filter (typed ty) (filter (newer c) l) = filter (counts_in c (Some ty)) l.
Proof.
  induction l as [|a l IH]; [reflexivity|].
  cbn [forallb]. intros H. apply andb_true_iff in H as [Ha Hl].
  cbn [filter]. specialize (IH Hl).
  dict_case a d. unfold well_formed in Ha.
  destruct (dict_get d "timestamp") as [[| | | |t| | |]|] eqn:Et;
    try discriminate.
  destruct (dict_get d "type") as [v|] eqn:Ev; [|discriminate].
  assert (Hn : newer c (PyDict d) = (c <? t))
    by (unfold newer; now rewrite Et).
  assert (Hc : counts_in c (Some ty) (PyDict d) = (c <? t) && py_eq_str v ty)
    by (unfold counts_in; now rewrite Et, Ev).
  assert (Ht : typed ty (PyDict d) = py_eq_str v ty)
    by (unfold typed; now rewrite Ev).
  rewrite Hn, Hc. destruct (c <? t); cbn [andb filter]; [|exact IH].
  rewrite Ht. destruct (py_eq_str v ty); now rewrite IH.
Qed.

Lemma filter_newer_counts (c : Z) (l : list pyval) :
  forallb well_formed l = true ->
  filter (newer c) l = filter (counts_in c None) l.
Proof.
  induction l as [|a l IH]; [reflexivity|].
  cbn [forallb]. intros H. apply andb_true_iff in H as [Ha Hl].
  cbn [filter]. rewrite (IH Hl).
  dict_case a d. unfold well_formed in Ha. unfold newer, counts_in.
  destruct (dict_get d "timestamp") as [[| | | |t| | |]|]; try discriminate.
  destruct (dict_get d "type"); [|discriminate].
  now rewrite andb_true_r.
Qed.

Lemma forallb_filter {A : Type} (f g : A -> bool) (l : list A) :
  forallb f l = true -> forallb f (filter g l) = true.
Proof. apply forallb_filter_sub. Qed.

(** What [get_actions_in_period] returns on well-formed actions. *)
Lemma get_actions_in_period_well_formed (tr : RateLimitTracker) (now : Z)
    (hours : Z) (filt : option string) :
  forallb well_formed (actions tr) = true ->
  get_actions_in_period tr now hours filt =
  Ok (len (filter (counts_in (now - timedelta_hours hours)
                     (match filt with
                      | Some ty => if String.eqb ty "" then None else Some ty
                      | None => None
                      end))
             (actions tr))).
Proof.
  intros Hwf. unfold get_actions_in_period.
  rewrite retain_recent_newer by now apply well_formed_dated.
  cbn [bind]. destruct filt as [ty|].
  - destruct (String.eqb ty ""); cbn [negb].
    + now rewrite filter_newer_counts.
    + rewrite of_type_well_formed by now apply forallb_filter.
      cbn [bind]. now rewrite filter_typed_newer.
  - now rewrite filter_newer_counts.
Qed.

Lemma add_action_well_formed (tr : RateLimitTracker) (now : Z) (ty : string)
    (timestamp : option Z) :
  forallb well_formed (actions tr) = true ->
  forallb well_formed (actions (add_action tr now ty timestamp)) = true.
Proof.
  intros Hwf. unfold add_action. cbn [actions].
  rewrite forallb_app, Hwf. reflexivity.
Qed.

(** X16: the tracker counts like the limiter.  On well-formed actions
    [RateLimitTracker.get_actions_in_period] returns what
    [RateLimiter._get_actions_in_timeframe] returns on the same history,
    window and type, except for the empty string as type, which the tracker
    takes as no filter; [add_action] keeps the actions well formed and adds
    one to every count whose window holds the timestamp and whose type
    matches. *)
Theorem tracker_counts_like_limiter (tr : RateLimitTracker) (s : RateLimiter)
    (now hours : Z) (filt : option string) (added_at : Z) (ty : string)
    (timestamp : option Z) :
  forallb well_formed (actions tr) = true ->
  actions_history s = actions tr ->
  get_actions_in_period tr now hours filt =
    _get_actions_in_timeframe s now hours
      (match filt with
       | Some t => if String.eqb t "" then None else Some t
       | None => None
       end) /\
  forallb well_formed (actions (add_action tr added_at ty timestamp)) = true /\
  (forall n,
     get_actions_in_period tr now hours filt = Ok n ->
     get_actions_in_period (add_action tr added_at ty timestamp) now hours filt
     = Ok (n + (if counts_in (now - timedelta_hours hours)
                     (match filt with
                      | Some t => if String.eqb t "" then None else Some t
                      | None => None
                      end)
                     (PyDict [("type", PyStr ty);
                              ("timestamp",
                               PyDatetime (match timestamp with
                                           | None => added_at
                                           | Some t => t
                                           end))])
                then 1 else 0))).
Proof.
  intros Hwf Hs. split; [|split].
  - rewrite get_actions_in_period_well_formed by exact Hwf.
    unfold _get_actions_in_timeframe.
    rewrite Hs, count_loop_well_formed by exact Hwf. reflexivity.
  - now apply add_action_well_formed.
  - intros n Hn.
    rewrite get_actions_in_period_well_formed in Hn by exact Hwf.
    injection Hn as <-.
    rewrite get_actions_in_period_well_formed
      by now apply add_action_well_formed.
    unfold add_action. cbn [actions]. rewrite filter_app, len_app.
    f_equal. f_equal. cbn [filter].
    match goal with |- context [if ?c then _ :: _ else _] => destruct c end;
      reflexivity.
Qed.

Lemma filter_newer_newer (c1 c2 : Z) (l : list pyval) :
  c2 <= c1 ->
  filter (newer c1) (filter (newer c2) l) = filter (newer c1) l.
Proof.
  intros Hc. induction l as [|a l IH]; [reflexivity|].
  cbn [filter]. destruct (newer c2 a) eqn:E2; cbn [filter].
  - now rewrite IH.
  - destruct (newer c1 a) eqn:E1; [|exact IH].
    rewrite (newer_mono _ _ _ Hc E1) in E2. discriminate.
Qed.

(** X17: cleaning the tracker up.  On well-formed actions
    [cleanup_old_actions] does not raise and keeps exactly the actions
    strictly newer than [now] minus the given days; a second clean-up at
    the same clock reading changes nothing; and no count over a window
    that lies within those days is changed by it. *)
Theorem tracker_cleanup (tr : RateLimitTracker) (now days hours : Z)
    (filt : option string) :
  forallb well_formed (actions tr) = true ->
  let cleaned := mkTracker (filter (newer (now - timedelta_days days))
                              (actions tr)) in
  cleanup_old_actions tr now days = Ok cleaned /\
  cleanup_old_actions cleaned now days = Ok cleaned /\
  (hours <= 24 * days ->
   get_actions_in_period cleaned now hours filt
   = get_actions_in_period tr now hours filt).
Proof.
  intros Hwf cleaned.
  assert (Hwf' : forallb well_formed (actions cleaned) = true)
    by (subst cleaned; cbn [actions]; now apply forallb_filter).
  split; [|split].
  - unfold cleanup_old_actions.
    now rewrite retain_recent_newer by now apply well_formed_dated.
  - unfold cleanup_old_actions.
    rewrite retain_recent_newer by now apply well_formed_dated.
    subst cleaned. cbn [actions bind]. now rewrite filter_filter_same.
  - intros Hh. unfold get_actions_in_period.
    rewrite !retain_recent_newer by now apply well_formed_dated.
    subst cleaned. cbn [actions].
    rewrite filter_newer_newer by (unfold_time; lia). reflexivity.
Qed.

(* ================================================================== *)
(** ** Retrying with backoff *)

Lemma retry_attempts_success {A : Type} (func : nat -> result A)
    (catches : exn -> bool) (max_retries : Z) (base mult : Q)
    (k : nat) (v : A) (n a : nat) (last : option exn) :
  (forall j, (a <= j < k)%nat ->
             exists e, func j = Raise e /\ catches e = true) ->
  func k = Ok v ->
  (a <= k < a + n)%nat ->
  Z.of_nat k <= max_retries ->
  retry_attempts func catches max_retries base mult
    (map Z.of_nat (seq a n)) last =
  (Ok v,
   map (fun j => (base * mult ^ Z.of_nat j)%Q) (seq a (k - a)),
   S (k - a)).
Proof.
  revert a last. induction n as [|n IH]; intros a last Hfail Hok Hk Hmax;
    [lia|].
  cbn [seq map retry_attempts]. rewrite Nat2Z.id.
  destruct (Nat.eq_dec a k) as [->|Hne].
  - rewrite Hok, Nat.sub_diag. reflexivity.
  - destruct (Hfail a ltac:(lia)) as (e & -> & ->).
    rewrite (IH (S a) (Some e)); try assumption; try lia.
    + replace (Z.of_nat a <? max_retries) with true
        by (symmetry; apply Z.ltb_lt; lia).
      replace (k - a)%nat with (S (k - S a)) by lia. reflexivity.
    + intros j Hj. apply Hfail. lia.
Qed.

Lemma retry_attempts_exhausted {A : Type} (func : nat -> result A)
    (catches : exn -> bool) (max_retries : Z) (base mult : Q)
    (n a : nat) (last : option exn) (e_last : exn) :
  (forall j, (a <= j < a + n)%nat ->
             exists e, func j = Raise e /\ catches e = true) ->
  Z.of_nat (a + n) = max_retries + 1 ->
  (0 < n)%nat ->
  func (a + n - 1)%nat = Raise e_last ->
  retry_attempts func catches max_retries base mult
    (map Z.of_nat (seq a n)) last =
  (Raise e_last,
   map (fun j => (base * mult ^ Z.of_nat j)%Q) (seq a (n - 1)),
   n).
Proof.
  revert a last. induction n as [|n IH]; intros a last Hfail Hmax Hn Hlast;
    [lia|].
  cbn [seq map retry_attempts]. rewrite Nat2Z.id.
  destruct (Hfail a ltac:(lia)) as (e & He & Hc). rewrite He, Hc.
  destruct n as [|n].
  - cbn [seq map retry_attempts].
    replace (a + 1 - 1)%nat with a in Hlast by lia.
    rewrite He in Hlast. injection Hlast as <-.
    replace (Z.of_nat a <? max_retries) with false
      by (symmetry; apply Z.ltb_ge; lia).
    reflexivity.
  - rewrite (IH (S a) (Some e)); try lia.
    + replace (Z.of_nat a <? max_retries) with true
        by (symmetry; apply Z.ltb_lt; lia).
      replace (S (S n) - 1)%nat with (S (S n - 1)) by lia. reflexivity.
    + intros j Hj. apply Hfail. lia.
    + replace (S a + S n - 1)%nat with (a + S (S n) - 1)%nat by lia.
      exact Hlast.
Qed.



(* ================================================================== *)
(** ** The statistics *)

Lemma bump_balanced (b : bool) (k : pyval) (c : TypeCount) :
  (total c = successful c + failed c /\ 0 <= successful c /\ 0 <= failed c) ->
  balanced (k, bump b c) = true.
Proof.
  intros (Ht & Hs & Hf). unfold balanced, bump.
  destruct b; cbn [snd total successful failed];
    rewrite !andb_true_iff, Z.eqb_eq, !Z.leb_le, Z.ltb_lt; lia.
Qed.

Lemma balanced_counts (kc : pyval * TypeCount) :
  balanced kc = true ->
  total (snd kc) = successful (snd kc) + failed (snd kc) /\
  0 <= successful (snd kc) /\ 0 <= failed (snd kc).
Proof.
  unfold balanced. rewrite !andb_true_iff, Z.eqb_eq, !Z.leb_le. tauto.
Qed.

Lemma sum_total_cons (k : pyval) (c : TypeCount)
    (d : list (pyval * TypeCount)) :
  sum_total ((k, c) :: d) = total c + sum_total d.
Proof. reflexivity. Qed.

Lemma sum_successful_cons (k : pyval) (c : TypeCount)
    (d : list (pyval * TypeCount)) :
  sum_successful ((k, c) :: d) = successful c + sum_successful d.
Proof. reflexivity. Qed.

Lemma count_up_sums (key : pyval) (b : bool)
    (d : list (pyval * TypeCount)) :
  forallb balanced d = true ->
  sum_total (count_up key b d) = sum_total d + 1 /\
  sum_successful (count_up key b d)
  = sum_successful d + (if b then 1 else 0) /\
  forallb balanced (count_up key b d) = true.
Proof.
  induction d as [|[k c] d IH]; intros Hb.
  - cbn [count_up forallb]. rewrite sum_total_cons, sum_successful_cons.
    rewrite bump_balanced by (cbn; lia).
    change (sum_total []) with 0. change (sum_successful []) with 0.
    unfold bump. destruct b; cbn [total successful failed];
      repeat split; lia.
  - cbn [forallb] in Hb. apply andb_true_iff in Hb as [Hc Hd].
    cbn [count_up]. destruct (py_key_eqb k key).
    + cbn [forallb]. rewrite !sum_total_cons, !sum_successful_cons.
      rewrite bump_balanced by (apply (balanced_counts (k, c)); exact Hc).
      rewrite Hd. unfold bump.
      destruct b; cbn [total successful failed]; repeat split; lia.
    + destruct (IH Hd) as (I1 & I2 & I3).
      cbn [forallb]. rewrite !sum_total_cons, !sum_successful_cons.
      rewrite I1, I2, I3, Hc. repeat split; lia.
Qed.

Lemma by_type_loop_sums (history : list pyval)
    (d d' : list (pyval * TypeCount)) :
  by_type_loop history d = Ok d' ->
  forallb balanced d = true ->
  sum_total d' = sum_total d + len history /\
  forallb balanced d' = true /\
  exists k, successful_actions history = Ok k /\
            0 <= k <= len history /\
            sum_successful d' = sum_successful d + k.
Proof.
  revert d. induction history as [|a history IH]; intros d.
  - cbn. intros [= <-] Hb. split; [lia|]. split; [exact Hb|].
    exists 0. repeat split; lia.
  - cbn [by_type_loop successful_actions].
    destruct (py_getitem a "type") as [ty|]; [|discriminate]. cbn [bind].
    destruct (py_hashable ty); [|discriminate].
    destruct (py_getitem a "success") as [ok|]; [|discriminate]. cbn [bind].
    intros Hl Hb.
    destruct (count_up_sums ty (truthy ok) d Hb) as (C1 & C2 & C3).
    destruct (IH _ Hl C3) as (I1 & I2 & k & Hk & Hr & I3).
    rewrite Hk. cbn [bind]. rewrite len_cons.
    split; [lia|]. split; [exact I2|].
    exists (if truthy ok then 1 + k else k).
    split; [reflexivity|]. destruct (truthy ok); split; lia.
Qed.

Lemma percentage_bounds (k n : Z) :
  0 <= k <= n -> 0 < n ->
  (0 <= inject_Z k / inject_Z n * 100 /\
   inject_Z k / inject_Z n * 100 <= 100)%Q.
Proof.
  intros Hk Hn.
  assert (Qn : (0 < inject_Z n)%Q) by (rewrite <- (Zlt_Qlt 0); exact Hn).
  assert (Qk : (0 <= inject_Z k)%Q) by (rewrite <- (Zle_Qle 0); lia).
  assert (Qkn : (inject_Z k <= inject_Z n)%Q) by (rewrite <- Zle_Qle; lia).
  assert (L : (0 <= inject_Z k / inject_Z n)%Q).
  { apply Qle_shift_div_l; [exact Qn|]. lra. }
  assert (U : (inject_Z k / inject_Z n <= 1)%Q).
  { apply Qle_shift_div_r; [exact Qn|]. lra. }
  split; lra.
Qed.

(** X20: the statistics add up.  When [get_statistics] returns a report,
    [total_actions] is the length of the history, the totals of
    [actions_by_type] sum to it, every entry there has a positive total
    that is its successes plus its failures, and [success_rate] lies
    between 0 and 100 and, on a history that is not empty, is the share of
    the successes counted in [actions_by_type]. *)
Theorem statistics_add_up `{DatetimeText} (s : RateLimiter)
    (session_start_time now : Z) (st : Statistics.t) :
  get_statistics s session_start_time now = Some st ->
  let n := len (actions_history s) in
  Statistics.total_actions st = n /\
  sum_total (Statistics.actions_by_type st) = n /\
  forallb balanced (Statistics.actions_by_type st) = true /\
  (0 <= Statistics.success_rate st /\ Statistics.success_rate st <= 100)%Q /\
  (0 < n ->
   (Statistics.success_rate st ==
    inject_Z (sum_successful (Statistics.actions_by_type st))
    / inject_Z n * 100)%Q).
Proof.
  unfold get_statistics.
  destruct (caught (_get_actions_in_timeframe s now 1 None)) as [lh|];
    [|discriminate].
  destruct (caught (_get_actions_in_timeframe s now 24 None)) as [ld|];
    [|discriminate].
  destruct (by_type_loop (actions_history s) []) as [by_type|] eqn:El;
    cbn [caught]; [|discriminate].
  destruct (by_type_loop_sums _ _ _ El eq_refl) as (S1 & S2 & k & Hk & Hr & S3).
  change (sum_total []) with 0 in S1. change (sum_successful []) with 0 in S3.
  rewrite Hk. cbn [caught option_map].
  destruct (0 <? len (actions_history s)) eqn:En;
    intros [= <-]; cbv zeta;
    cbn [Statistics.total_actions Statistics.actions_by_type
         Statistics.success_rate].
  - apply Z.ltb_lt in En.
    split; [reflexivity|]. split; [lia|]. split; [exact S2|].
    split; [now apply percentage_bounds|].
    intros _. now rewrite S3, Z.add_0_l.
  - apply Z.ltb_ge in En.
    split; [reflexivity|]. split; [lia|]. split; [exact S2|].
    split; [split; lra|]. intros Hn. lia.
Qed.

(* ================================================================== *)
(** ** The further statements at concrete inputs *)

(** [sound_counts] on the two likes on record, and on the limiter built
    over the log file with a UTC offset. *)
Lemma sound_counts_witness :
  (sound two_likes_recorded = true /\
   forallb naive_dated (actions_history two_likes_recorded) = true /\
   _get_actions_in_timeframe two_likes_recorded (minutes 10) 1 None
   = Ok (len (filter (newer (minutes 10 - timedelta_hours 1))
                (actions_history two_likes_recorded)))) /\
  (sound offset_limiter = true /\
   forallb naive_dated (actions_history offset_limiter) = false /\
   _get_actions_in_timeframe offset_limiter eight_days 1 None
   = Raise TypeError).
Proof.
  split.
  - assert (Hs : sound two_likes_recorded = true) by reflexivity.
    assert (Hn : forallb naive_dated (actions_history two_likes_recorded)
                 = true) by reflexivity.
    split; [exact Hs|]. split; [exact Hn|].
    exact (proj1 (@sound_counts decimal_text two_likes_recorded (minutes 10)
                    1 24 "like" 2 Hs) Hn).
  - assert (Hs : sound offset_limiter = true) by reflexivity.
    assert (Hn : forallb naive_dated (actions_history offset_limiter)
                 = false) by reflexivity.
    split; [exact Hs|]. split; [exact Hn|].
    exact (proj1 (proj1 (proj2 (@sound_counts decimal_text offset_limiter
                                  eight_days 1 24 "like" 2 Hs)) Hn)).
Defined.

(** [missing_type_blocks_tracked] on the limiter built over a log file
    whose record has no type. *)
Lemma missing_type_blocks_tracked_witness :
  In (PyDict [("success", PyBool true); ("timestamp", PyDatetime 300000000);
              ("metadata", PyDict [])])
     (actions_history untyped_limiter) /\
  allowed (can_perform_action untyped_limiter (minutes 10)
             (constant_source 0.95) "like") = false /\
  @get_rate_limit_status decimal_text untyped_limiter (minutes 10) = None.
Proof.
  assert (Hin : In (PyDict [("success", PyBool true);
                            ("timestamp", PyDatetime 300000000);
                            ("metadata", PyDict [])])
                   (actions_history untyped_limiter))
    by (left; reflexivity).
  split; [exact Hin|].
  apply (@missing_type_blocks_tracked decimal_text untyped_limiter
           (minutes 10) (constant_source 0.95) _ "like" Hin);
    [reflexivity|reflexivity|discriminate].
Defined.

(** [next_action_time_spec] when the like cap blocks: the next hour. *)
Lemma next_action_time_spec_witness :
  fst (fst (get_next_action_time two_likes_recorded (minutes 10)
              (constant_source 0.95) "like")) = Some (minutes 60) /\
  minutes 10 < minutes 60 <= minutes 10 + timedelta_hours 24.
Proof.
  assert (E : fst (fst (get_next_action_time two_likes_recorded (minutes 10)
                          (constant_source 0.95) "like")) = Some (minutes 60))
    by reflexivity.
  split; [exact E|].
  exact (proj1 (proj2 (proj2 (proj2
    (next_action_time_spec two_likes_recorded (minutes 10)
       (constant_source 0.95) "like")))) (minutes 60) E).
Defined.

(** [status_agrees_with_quota] on the two likes on record: nothing left
    for likes, something for replies. *)
Lemma status_agrees_with_quota_witness :
  exists st,
    @get_rate_limit_status decimal_text two_likes_recorded (minutes 10)
    = Some st /\
    remaining (Status.hourly_likes st) = 0 /\
    (quota_checks two_likes_recorded (minutes 10) "reply" = Ok true <->
     0 < remaining (Status.daily_actions st) /\
     0 < remaining (Status.hourly_actions st) /\
     ("reply" = "like" -> 0 < remaining (Status.hourly_likes st)) /\
     ("reply" = "reply" -> 0 < remaining (Status.hourly_replies st)) /\
     ("reply" = "retweet" -> 0 < remaining (Status.hourly_retweets st))).
Proof.
  destruct (@get_rate_limit_status decimal_text two_likes_recorded (minutes 10))
    as [st|] eqn:E; [|vm_compute in E; discriminate].
  exists st. split; [reflexivity|]. split.
  - vm_compute in E. injection E as <-. reflexivity.
  - exact (proj2 (proj2 (proj2
      (@status_agrees_with_quota decimal_text two_likes_recorded (minutes 10)
         st "reply" E)))).
Defined.

(** [status_zero_cap] on a limiter that allows no retweets. *)
Lemma status_zero_cap_witness :
  max_retweets_per_hour no_retweets_limiter = 0 /\
  @get_rate_limit_status decimal_text no_retweets_limiter (minutes 10) = None.
Proof.
  split; [reflexivity|].
  apply (@status_zero_cap decimal_text). do 4 right. reflexivity.
Defined.

(** [record_all_history] on three calls after the two likes. *)
Lemma record_all_history_witness :
  len (actions_history two_likes_recorded) <= maxlen /\
  actions_history
    (fst (@record_all decimal_text two_likes_recorded no_files
            (map failed_call three_failures)))
  = deque (actions_history two_likes_recorded
           ++ map recorded (map failed_call three_failures)).
Proof.
  assert (Hl : len (actions_history two_likes_recorded) <= maxlen)
    by discriminate.
  split; [exact Hl|].
  exact (proj1 (@record_all_history decimal_text two_likes_recorded no_files
                  (map failed_call three_failures) Hl)).
Defined.

(** [quiet_period_draw] at one in the morning: the sample 0.95 lets the
    action through and one sample is read. *)
Lemma quiet_period_draw_witness :
  _is_in_quiet_period default_limiter (minutes 61) = true /\
  allowed (can_perform_action default_limiter (minutes 61)
             (constant_source 0.95) "like")
  = negb (Qltb (sample (constant_source 0.95)
                  (cursor (constant_source 0.95))) 0.7) /\
  cursor (snd (can_perform_action default_limiter (minutes 61)
                 (constant_source 0.95) "like"))
  = S (cursor (constant_source 0.95)).
Proof.
  assert (Hq : _is_in_quiet_period default_limiter (minutes 61) = true)
    by reflexivity.
  split; [exact Hq|].
  apply (proj2 (proj2 (quiet_period_draw default_limiter (minutes 61)
                         (constant_source 0.95) (constant_source 0.95) "like")
                  eq_refl));
    [exact Hq|repeat constructor|reflexivity].
Defined.

(** [wait_durations] on the flat pattern: between 8 and 2160 seconds. *)
Lemma wait_durations_witness :
  unit_samples (constant_source 0.5) /\
  (8 <= fst (wait_before_action eight_of_ten (minutes 10) (constant_source 0.5))
   /\ fst (wait_before_action eight_of_ten (minutes 10) (constant_source 0.5))
      <= 2160)%Q.
Proof.
  assert (Hu : unit_samples (constant_source 0.5))
    by (intros n; split; [discriminate|reflexivity]).
  assert (Hc : _calculate_dynamic_delay eight_of_ten (minutes 10)
               = Ok (60.00%Q, 600.00%Q))
    by (vm_compute; reflexivity).
  split; [exact Hu|].
  refine (proj1 (proj2 (proj2 (wait_durations eight_of_ten (minutes 10)
                                 (constant_source 0.5)))) Hu _ _ Hc _).
  discriminate.
Defined.

(** [load_retention] on the log file with a garbled record, and on the
    one with a UTC offset, eight days after its records were made. *)
Lemma load_retention_witness :
  (forallb is_dict [PyDict garbled_record; PyDict persisted_like] = true /\
   forallb naive_dated
     (deque (@revived decimal_text
               [PyDict garbled_record; PyDict persisted_like])) = true /\
   forallb (retained (minutes 6))
     (actions_history
        (fst (@_load_actions_history decimal_text default_limiter
                garbled_world (minutes 6)))) = true) /\
  (forallb is_dict [PyDict offset_record; PyDict stale_record] = true /\
   forallb naive_dated
     (deque (@revived decimal_text
               [PyDict offset_record; PyDict stale_record])) = false /\
   actions_history
     (fst (@_load_actions_history decimal_text default_limiter offset_world
             eight_days))
   = deque (@revived decimal_text
              [PyDict offset_record; PyDict stale_record]) /\
   deque (@revived decimal_text [PyDict offset_record; PyDict stale_record])
   = [PyDict (dict_set offset_record "timestamp" (PyAware 0 3600000000));
      PyDict (dict_set stale_record "timestamp" (PyDatetime 0))]).
Proof.
  split.
  - assert (Hn : forallb naive_dated
                   (deque (@revived decimal_text
                             [PyDict garbled_record; PyDict persisted_like]))
                 = true) by (vm_compute; reflexivity).
    split; [reflexivity|]. split; [exact Hn|].
    exact (proj2 (proj1 (@load_retention decimal_text default_limiter
                           garbled_world (minutes 6) garbled_store
                           [PyDict garbled_record; PyDict persisted_like]
                           eq_refl eq_refl eq_refl eq_refl) Hn)).
  - assert (Hn : forallb naive_dated
                   (deque (@revived decimal_text
                             [PyDict offset_record; PyDict stale_record]))
                 = false) by (vm_compute; reflexivity).
    split; [reflexivity|]. split; [exact Hn|].
    split; [|vm_compute; reflexivity].
    exact (proj2 (@load_retention decimal_text default_limiter offset_world
                    eight_days offset_store
                    [PyDict offset_record; PyDict stale_record]
                    eq_refl eq_refl eq_refl eq_refl) Hn).
Defined.

(** [load_aborted_by_non_dict]: the record from time 0 stays though the
    load happens eight days later, and the like after the number is not
    loaded. *)
Lemma load_aborted_by_non_dict_witness :
  actions_history
    (fst (@_load_actions_history decimal_text default_limiter aborting_world
            eight_days))
  = deque (@revived decimal_text [PyDict stale_record]) /\
  deque (@revived decimal_text [PyDict stale_record])
  = [PyDict (dict_set stale_record "timestamp" (PyDatetime 0))] /\
  retained eight_days (PyDict (dict_set stale_record "timestamp" (PyDatetime 0)))
  = false.
Proof.
  split; [|split; [vm_compute; reflexivity|reflexivity]].
  exact (@load_aborted_by_non_dict decimal_text default_limiter aborting_world
           eight_days aborting_store [PyDict stale_record]
           [PyDict persisted_like] (PyInt 5)
           eq_refl eq_refl eq_refl eq_refl eq_refl).
Defined.

(** [reload_idempotent] on the log file with a garbled record. *)
Lemma reload_idempotent_witness :
  json_serialisable (PyDict garbled_store) = true /\
  actions_history
    (fst (@_load_actions_history decimal_text default_limiter
            (@_save_actions_history decimal_text
               (fst (@_load_actions_history decimal_text default_limiter
                       garbled_world (minutes 6)))
               garbled_world (minutes 7))
            (minutes 6)))
  = actions_history
      (fst (@_load_actions_history decimal_text default_limiter garbled_world
              (minutes 6))).
Proof.
  split; [reflexivity|].
  exact (@reload_idempotent decimal_text decimal_text_laws
           default_limiter default_limiter garbled_world (minutes 6)
           (minutes 7) garbled_store
           [PyDict garbled_record; PyDict persisted_like]
           eq_refl eq_refl eq_refl eq_refl ltac:(discriminate)
           eq_refl eq_refl eq_refl).
Defined.

(** [format_duration_truncates]: an hour, a minute and a second is an
    hour and a minute. *)
Lemma format_duration_truncates_witness :
  60 <= 3661 /\
  format_duration 3661 = format_duration (3661 - 3661 mod 60) /\
  format_duration 3661 = "1h 1m".
Proof.
  split; [discriminate|]. split; [|reflexivity].
  exact (proj2 (proj2 (format_duration_truncates 3661 3661)) ltac:(discriminate)).
Defined.

(** [tracker_counts_like_limiter] on a like and a reply. *)
Lemma tracker_counts_like_limiter_witness :
  forallb well_formed (actions small_tracker) = true /\
  get_actions_in_period small_tracker (minutes 10) 1 (Some "like")
  = _get_actions_in_timeframe
      (set_history default_limiter (actions small_tracker)) (minutes 10) 1
      (if String.eqb "like" "" then None else Some "like").
Proof.
  assert (Hwf : forallb well_formed (actions small_tracker) = true)
    by reflexivity.
  split; [exact Hwf|].
  exact (proj1 (tracker_counts_like_limiter small_tracker
                  (set_history default_limiter (actions small_tracker))
                  (minutes 10) 1 (Some "like") 0 "like" None Hwf eq_refl)).
Defined.

(** [tracker_cleanup] eight days later: a one-day clean-up leaves the
    hourly count alone. *)
Lemma tracker_cleanup_witness :
  forallb well_formed (actions small_tracker) = true /\
  1 <= 24 * 1 /\
  get_actions_in_period
    (mkTracker (filter (newer (eight_days - timedelta_days 1))
                  (actions small_tracker)))
    eight_days 1 None
  = get_actions_in_period small_tracker eight_days 1 None.
Proof.
  assert (Hwf : forallb well_formed (actions small_tracker) = true)
    by reflexivity.
  split; [exact Hwf|]. split; [discriminate|].
  exact (proj2 (proj2 (tracker_cleanup small_tracker eight_days 1 1 None Hwf))
           ltac:(discriminate)).
Defined.



(** [statistics_add_up] on a success and a failure. *)
Lemma statistics_add_up_witness :
  exists st,
    @get_statistics decimal_text mixed_limiter 0 (minutes 10) = Some st /\
    sum_total (Statistics.actions_by_type st)
    = len (actions_history mixed_limiter) /\
    (Statistics.success_rate st == 50)%Q.
Proof.
  destruct (@get_statistics decimal_text mixed_limiter 0 (minutes 10))
    as [st|] eqn:E; [|vm_compute in E; discriminate].
  exists st. split; [reflexivity|].
  split.
  - exact (proj1 (proj2 (@statistics_add_up decimal_text mixed_limiter 0
                           (minutes 10) st E))).
  - vm_compute in E. injection E as <-. reflexivity.
Defined.
